(** * IntelliSchedule: a shallow embedding of the scheduling core

    The development embeds these pieces of the Python code base:

    - [backend/calendar_service.py]: the free-slot computation
      ([find_free_slots], [get_availability], [check_availability]) and
      [create_event];
    - [backend/utils.py]: [DateTimeParser], [extract_duration] and
      [get_relative_date];
    - [backend/agent.py]: the conversation graph of [CalendarAgent] and
      [execute_booking];
    - [backend/main.py]: the session store and the chat endpoints.

    Conventions of the embedding.

    - A point in time is an integer number of microseconds since
      1970-01-01T00:00:00.  A [datetime] keeps the wall-clock reading and
      the [tzinfo] it was built with, as Python's object does; two aware
      datetimes are compared through their UTC instants.  In
      [calendar_service.py] and [agent.py] a sum of a datetime and a
      timedelta is checked against [datetime.min] and [datetime.max],
      and a comparison against a mix of naive and aware operands, as
      Python checks them.  The sums of [utils.py] are not checked: where
      one of them leaves the range, Python raises, [parse] catches the
      exception and answers [None], and the embedding returns the sum.
      Conversions between zones are taken to stay in range, and a naive
      datetime converted to a zone is read as UTC.
    - Text is ASCII.  [re.search] is embedded by a backtracking matcher
      over a small regular-expression syntax, one constructor per
      construct the patterns of the sources use.  Strings are compared
      as Python compares them, character by character.
    - An exception is a value of [exn]; code that can raise returns a
      [result].  [datetime.now] reads a wall clock that advances between
      reads, so the parser and the graph nodes run in a small monad that
      counts the reads.
    - Libraries and services outside the repository (pytz, dateutil,
      [isoformat] and [fromisoformat], the calendar provider, the
      language model, strftime) are interfaces (type classes); every
      theorem holds for all their implementations. *)

From Stdlib Require Import ZArith List String Ascii Bool Lia.
From Stdlib Require Import Sorting.Sorted.
From Stdlib Require DecimalString.
Import ListNotations.
Open Scope string_scope.
Open Scope list_scope.
Open Scope Z_scope.

(** ** Exceptions *)

Inductive exn_class : Type :=
  | ValueError | TypeError | KeyError | IndexError
  | UnknownTimeZoneError | HttpError | OverflowError | OtherException.

Record exn : Type := mk_exn { exn_cls : exn_class; exn_msg : string }.

Inductive result (A : Type) : Type :=
  | Ok (a : A)
  | Raise (e : exn).
Arguments Ok {A} a.
Arguments Raise {A} e.

(** The outcome of a call whose loop may not end: a value, an exception,
    or no return. *)
Inductive outcome (A : Type) : Type :=
  | Returns (a : A)
  | Raises (e : exn)
  | Diverges.
Arguments Returns {A} a.
Arguments Raises {A} e.
Arguments Diverges {A}.

(** [str(e)] *)
Definition str_exn (e : exn) : string := exn_msg e.

(** ** Datetimes *)

Module DT.

Definition MICROSECOND : Z := 1.
Definition SECOND : Z := 1000000.
Definition MINUTE : Z := 60 * SECOND.
Definition HOUR : Z := 60 * MINUTE.
Definition DAY : Z := 24 * HOUR.

(** [timedelta(minutes=n)] and [timedelta(days=n)] *)
Definition minutes (n : Z) : Z := n * MINUTE.
Definition days (n : Z) : Z := n * DAY.

(** A pytz [tzinfo] instance: the zone it belongs to and the fixed offset
    (microseconds east of UTC) that instance stands for. *)
Record tzinfo : Type := mk_tz { tz_zone : string; tz_offset : Z }.

(** [wall] is the reading of the fields year..microsecond. *)
Record datetime : Type := mk_dt { wall : Z; tz : option tzinfo }.

Definition offset_of (d : datetime) : Z :=
  match tz d with Some t => tz_offset t | None => 0 end.

(** The UTC instant of an aware datetime. *)
Definition instant (d : datetime) : Z := wall d - offset_of d.

Definition aware (d : datetime) : bool :=
  match tz d with Some _ => true | None => false end.

(** Comparison of aware datetimes: [a <= b], [a > b], [a < b]. *)
Definition dt_le (a b : datetime) : bool := instant a <=? instant b.
Definition dt_lt (a b : datetime) : bool := instant a <? instant b.
Definition dt_gt (a b : datetime) : bool := instant b <? instant a.

(** [d + timedelta]: the wall clock moves, the tzinfo object stays. *)
Definition add (d : datetime) (delta : Z) : datetime :=
  mk_dt (wall d + delta) (tz d).

(** [datetime.min] and [datetime.max] as wall-clock readings:
    0001-01-01T00:00:00 and 9999-12-31T23:59:59.999999. *)
Definition datetime_min : Z := -62135596800 * SECOND.
Definition datetime_max : Z := 253402300799 * SECOND + 999999.

(** [str] of an integer. *)
Definition str_of_Z (n : Z) : string :=
  DecimalString.NilZero.string_of_int (Z.to_int n).

(** [timedelta(minutes=n)] as a number of microseconds; a timedelta
    holds at most 999999999 days either way. *)
Definition timedelta_minutes (n : Z) : result Z :=
  let days_ := minutes n / DAY in
  if (-999999999 <=? days_) && (days_ <=? 999999999) then Ok (minutes n)
  else Raise (mk_exn OverflowError
                ("days=" ++ str_of_Z days_
                 ++ "; must have magnitude <= 999999999")%string).

(** [d + timedelta] with the range check of Python: the result lies
    between [datetime.min] and [datetime.max] or [OverflowError] is
    raised. *)
Definition checked_add (d : datetime) (delta : Z) : result datetime :=
  if (datetime_min <=? wall d + delta) && (wall d + delta <=? datetime_max)
  then Ok (add d delta)
  else Raise (mk_exn OverflowError "date value out of range").

(** [d.date()] as a day number and [d.weekday()] (Monday is 0;
    1970-01-01 was a Thursday). *)
Definition date (d : datetime) : Z := wall d / DAY.
Definition weekday (d : datetime) : Z := (date d + 3) mod 7.
Definition hour (d : datetime) : Z := (wall d mod DAY) / HOUR.
Definition minute (d : datetime) : Z := (wall d mod HOUR) / MINUTE.

(** [d.replace(hour=h, minute=m, second=s, microsecond=us)]; Python
    raises [ValueError] when a field is out of range. *)
Definition replace (d : datetime) (h m s us : Z) : result datetime :=
  if negb ((0 <=? h) && (h <=? 23)) then
    Raise (mk_exn ValueError "hour must be in 0..23")
  else if negb ((0 <=? m) && (m <=? 59)) then
    Raise (mk_exn ValueError "minute must be in 0..59")
  else if negb ((0 <=? s) && (s <=? 59)) then
    Raise (mk_exn ValueError "second must be in 0..59")
  else if negb ((0 <=? us) && (us <=? 999999)) then
    Raise (mk_exn ValueError "microsecond must be in 0..999999")
  else
    Ok (mk_dt (date d * DAY + h * HOUR + m * MINUTE + s * SECOND + us) (tz d)).

(** The part of pytz the code relies on. *)
Class TzDatabase : Type := {
  (** is the name a zone of the database ([pytz.timezone] succeeds) *)
  tz_known : string -> bool;
  (** the offset in force in the zone at a UTC instant *)
  tz_utcoffset : string -> Z -> Z;
  (** the offset [localize] chooses for a wall-clock reading *)
  tz_localoffset : string -> Z -> Z
}.

(** [datetime.isoformat] and [datetime.fromisoformat]; the latter
    raises [ValueError] on a string it cannot read. *)
Class IsoFormat : Type := {
  isoformat : datetime -> string;
  fromisoformat : string -> result datetime
}.

Section WithTz.
Context {tzdb : TzDatabase}.

(** [pytz.timezone(name)]; the error is a [KeyError], whose [str] is the
    name in quotes. *)
Definition timezone (name : string) : result string :=
  if tz_known name then Ok name
  else Raise (mk_exn UnknownTimeZoneError ("'" ++ name ++ "'")%string).

(** The aware datetime that shows UTC instant [u] in [zone]; this is
    [datetime.now(zone)] when [u] is the clock reading, and what
    [astimezone] builds. *)
Definition at_instant (zone : string) (u : Z) : datetime :=
  let off := tz_utcoffset zone u in
  mk_dt (u + off) (Some (mk_tz zone off)).

(** [zone.localize(d)] on a naive datetime. *)
Definition localize (zone : string) (d : datetime) : datetime :=
  mk_dt (wall d) (Some (mk_tz zone (tz_localoffset zone (wall d)))).

(** [pytz.utc.localize(d)] *)
Definition localize_utc (d : datetime) : datetime :=
  mk_dt (wall d) (Some (mk_tz "UTC" 0)).

(** [d.astimezone(pytz.utc)]; a naive [d] is read as UTC. *)
Definition astimezone_utc (d : datetime) : datetime :=
  mk_dt (instant d) (Some (mk_tz "UTC" 0)).

(** [d.astimezone(t)] for the tzinfo [t] of another datetime; with
    [None] (a naive model datetime has no tzinfo to give) the UTC view
    is kept. *)
Definition astimezone (d : datetime) (t : option tzinfo) : datetime :=
  match t with
  | Some ti => if String.eqb (tz_zone ti) "UTC" then astimezone_utc d
               else at_instant (tz_zone ti) (instant d)
  | None => astimezone_utc d
  end.

End WithTz.

End DT.

(** ** [backend/calendar_service.py] *)

Module CalendarService.
Import DT.

(** A busy period of the freebusy answer, [{'start': ..., 'end': ...}]:
    two strings, as the provider sends them.  The window markers the
    code adds to the list have the same shape, their strings printed by
    [isoformat]. *)
Record period : Type := mk_period { p_start : string; p_end : string }.

(** A free slot, [{'start': datetime, 'end': datetime}]. *)
Record slot : Type := mk_slot { s_start : datetime; s_end : datetime }.

(** [a <= b] on strings: the order of the first character that differs,
    a prefix before its extensions. *)
Fixpoint str_le (a b : string) : bool :=
  match a, b with
  | EmptyString, _ => true
  | String _ _, EmptyString => false
  | String x a', String y b' =>
      if (nat_of_ascii x <? nat_of_ascii y)%nat then true
      else if (nat_of_ascii y <? nat_of_ascii x)%nat then false
      else str_le a' b'
  end.

(** [list.sort(key=lambda x: x['start'])]: a stable sort on the strings. *)
Fixpoint insert_by_start (x : period) (l : list period) : list period :=
  match l with
  | [] => [x]
  | y :: l' =>
      if str_le (p_start x) (p_start y) then x :: l
      else y :: insert_by_start x l'
  end.

Definition sort_by_start (l : list period) : list period :=
  fold_right insert_by_start [] l.

(** [text.replace('Z', '+00:00')] *)
Fixpoint replace_Z (text : string) : string :=
  match text with
  | EmptyString => EmptyString
  | String c rest =>
      if Ascii.eqb c "Z" then ("+00:00" ++ replace_Z rest)%string
      else String c (replace_Z rest)
  end.

(** The calendar provider and the credentials of the service. *)
Class Provider : Type := {
  is_authenticated : bool;
  (** [service.freebusy().query(body).execute()] for [timeMin], [timeMax]:
      the busy periods of the primary calendar, or the error raised *)
  freebusy_query : Z -> Z -> result (list period)
}.

(** The timeline of lines 424-428: the window's start and end as
    zero-length markers around the busy periods, sorted by the start
    strings. *)
Definition timeline (busy_periods : list period) (start_text end_text : string)
  : list period :=
  sort_by_start (mk_period start_text start_text
                 :: busy_periods ++ [mk_period end_text end_text]).

(** Iterations the [while] loop needs between two instants when the
    step [delta] is positive. *)
Definition carve_fuel (free_period_start free_period_end delta : Z) : nat :=
  Z.to_nat ((free_period_end - free_period_start) / delta).

(** Iterations that are enough for the loop from [current_slot] on: with
    a positive step the loop passes the end of the gap, with a negative
    step the sum leaves the range of [datetime]; with the step zero a
    loop that is entered does not end. *)
Definition loop_fuel (current_slot free_period_end : datetime) (delta : Z) : nat :=
  if delta <? 0 then Z.to_nat ((wall current_slot - datetime_min) / (- delta))
  else carve_fuel (instant current_slot) (instant free_period_end) delta.

(** The overlap test of line 252, on instants. *)
Definition overlaps (start_utc end_utc busy_start busy_end : Z) : bool :=
  (start_utc <? busy_end) && (busy_start <? end_utc).

Definition naive_and_aware : exn :=
  mk_exn TypeError "can't compare offset-naive and offset-aware datetimes".

(** [a < b] and [a <= b] on datetimes: one with and one without an
    offset raise [TypeError]. *)
Definition lt_checked (a b : datetime) : result bool :=
  if Bool.eqb (aware a) (aware b) then Ok (instant a <? instant b)
  else Raise naive_and_aware.

Definition le_checked (a b : datetime) : result bool :=
  if Bool.eqb (aware a) (aware b) then Ok (instant a <=? instant b)
  else Raise naive_and_aware.

(** The [while] loop of lines 435-443 from [current_slot] on.  Its
    condition builds the timedelta, adds it and compares, and each of
    the three can raise.  [Diverges] stands for a loop that is still
    running when the fuel is used up. *)
Fixpoint carve (fuel : nat) (current_slot free_period_end : datetime)
    (duration_minutes : Z) : outcome (list (datetime * datetime)) :=
  match timedelta_minutes duration_minutes with
  | Raise e => Raises e
  | Ok delta =>
      match checked_add current_slot delta with
      | Raise e => Raises e
      | Ok slot_end_utc =>
          match le_checked slot_end_utc free_period_end with
          | Raise e => Raises e
          | Ok false => Returns []
          | Ok true =>
              match fuel with
              | O => Diverges
              | S fuel' =>
                  match carve fuel' slot_end_utc free_period_end
                              duration_minutes with
                  | Returns rest => Returns ((current_slot, slot_end_utc) :: rest)
                  | Raises e => Raises e
                  | Diverges => Diverges
                  end
              end
          end
      end
  end.

Section WithTz.
Context {tzdb : TzDatabase} {iso : IsoFormat}.

(** [datetime.fromisoformat(text.replace('Z', '+00:00'))] *)
Definition parse_time (text : string) : result datetime :=
  fromisoformat (replace_Z text).

(** The [for i in range(len(all_busy_periods) - 1)] loop: one gap per
    pair of neighbours, from the end of the first to the start of the
    second, both read from their strings. *)
Fixpoint carve_all (all_busy_periods : list period) (duration_minutes : Z)
  : outcome (list (datetime * datetime)) :=
  match all_busy_periods with
  | a :: (b :: _) as rest =>
      match parse_time (p_end a) with
      | Raise e => Raises e
      | Ok free_period_start =>
          match parse_time (p_start b) with
          | Raise e => Raises e
          | Ok free_period_end =>
              match carve (loop_fuel free_period_start free_period_end
                                     (minutes duration_minutes))
                          free_period_start free_period_end
                          duration_minutes with
              | Returns here =>
                  match carve_all rest duration_minutes with
                  | Returns later => Returns (here ++ later)
                  | Raises e => Raises e
                  | Diverges => Diverges
                  end
              | Raises e => Raises e
              | Diverges => Diverges
              end
          end
      end
  | _ => Returns []
  end.

(** Lines 422-445 of [find_free_slots], from the busy periods on; the
    slots are shown in the window start's zone. *)
Definition free_slots_of (busy_periods : list period)
    (start_dt end_dt : datetime) (duration_minutes : Z)
  : outcome (list slot) :=
  let start_text := isoformat (astimezone_utc start_dt) in
  let end_text := isoformat (astimezone_utc end_dt) in
  match carve_all (timeline busy_periods start_text end_text)
                  duration_minutes with
  | Returns l =>
      Returns (map (fun '(slot_start_utc, slot_end_utc) =>
                      mk_slot (astimezone slot_start_utc (tz start_dt))
                              (astimezone slot_end_utc (tz start_dt)))
                   l)
  | Raises e => Raises e
  | Diverges => Diverges
  end.

Context {cal : Provider}.

(** [CalendarService.find_free_slots]; the handler of line 447 logs and
    re-raises. *)
Definition find_free_slots (date_range : datetime * datetime)
    (duration_minutes : Z) : outcome (list slot) :=
  if negb is_authenticated then Raises (mk_exn ValueError "Not authenticated")
  else
    let '(start_dt, end_dt) := date_range in
    let start_dt := if aware start_dt then start_dt else localize_utc start_dt in
    let end_dt := if aware end_dt then end_dt else localize_utc end_dt in
    match freebusy_query (instant (astimezone_utc start_dt))
                         (instant (astimezone_utc end_dt)) with
    | Raise e => Raises e
    | Ok busy_periods =>
        free_slots_of busy_periods start_dt end_dt duration_minutes
    end.

(** [CalendarService.get_availability]: the same computation; an
    [HttpError] of the query gives the empty list. *)
Definition get_availability (start_date end_date : datetime)
    (duration_minutes : Z) : outcome (list slot) :=
  if negb is_authenticated then Raises (mk_exn ValueError "Not authenticated")
  else
    match freebusy_query (instant (astimezone_utc start_date))
                         (instant (astimezone_utc end_date)) with
    | Raise e =>
        match exn_cls e with
        | HttpError => Returns []
        | _ => Raises e
        end
    | Ok busy_periods =>
        free_slots_of busy_periods start_date end_date duration_minutes
    end.

(** The loop of lines 248-253 of [check_availability]: [True] when it
    ends without finding an overlap.  Both strings of a period are read
    before they are compared; [and] evaluates its second comparison only
    when the first one holds. *)
Fixpoint no_overlap (start_utc end_utc : datetime) (busy_times : list period)
  : result bool :=
  match busy_times with
  | [] => Ok true
  | busy_period :: rest =>
      match parse_time (p_start busy_period) with
      | Raise e => Raise e
      | Ok busy_start =>
          match parse_time (p_end busy_period) with
          | Raise e => Raise e
          | Ok busy_end =>
              match lt_checked start_utc busy_end with
              | Raise e => Raise e
              | Ok false => no_overlap start_utc end_utc rest
              | Ok true =>
                  match lt_checked busy_start end_utc with
                  | Raise e => Raise e
                  | Ok true => Ok false
                  | Ok false => no_overlap start_utc end_utc rest
                  end
              end
          end
      end
  end.

(** [CalendarService.check_availability]: any exception is logged and
    answered with [False]. *)
Definition check_availability (start_time end_time : datetime) : bool :=
  if negb is_authenticated then false
  else
    let start_utc := astimezone_utc start_time in
    let end_utc := astimezone_utc end_time in
    match freebusy_query (instant start_utc) (instant end_utc) with
    | Raise _ => false
    | Ok busy_times =>
        match no_overlap start_utc end_utc busy_times with
        | Ok answer => answer
        | Raise _ => false
        end
    end.

End WithTz.

End CalendarService.

(** ** Text and regular expressions *)

Module Text.

Definition code (c : ascii) : Z := Z.of_N (N_of_ascii c).

Definition is_digit (c : ascii) : bool := (48 <=? code c) && (code c <=? 57).
Definition is_upper (c : ascii) : bool := (65 <=? code c) && (code c <=? 90).
Definition is_lower (c : ascii) : bool := (97 <=? code c) && (code c <=? 122).

(** [\s], and what [str.strip] removes: tab to carriage return, the four
    separators 28-31 and the space. *)
Definition is_space (c : ascii) : bool :=
  ((9 <=? code c) && (code c <=? 13)) || ((28 <=? code c) && (code c <=? 32)).

(** [\w] *)
Definition is_word (c : ascii) : bool :=
  is_digit c || is_upper c || is_lower c || (code c =? 95).

(** [.] matches anything but a newline. *)
Definition is_dot (c : ascii) : bool := negb (code c =? 10).

Definition lower_char (c : ascii) : ascii :=
  if is_upper c then ascii_of_N (N_of_ascii c + 32) else c.

(** [s.lower()] *)
Fixpoint lower (s : string) : string :=
  match s with
  | EmptyString => EmptyString
  | String c s' => String (lower_char c) (lower s')
  end.

Fixpoint lstrip (s : string) : string :=
  match s with
  | String c s' => if is_space c then lstrip s' else s
  | EmptyString => EmptyString
  end.

(** Drops the trailing white space: a character stays when it is not a
    space or something after it stays. *)
Fixpoint rstrip (s : string) : string :=
  match s with
  | EmptyString => EmptyString
  | String c s' =>
      match rstrip s' with
      | EmptyString => if is_space c then EmptyString else String c EmptyString
      | rest => String c rest
      end
  end.

(** [s.strip()] *)
Definition strip (s : string) : string := rstrip (lstrip s).

(** [s.startswith(p)] *)
Fixpoint startswith (p s : string) : bool :=
  match p, s with
  | EmptyString, _ => true
  | String a p', String b s' => Ascii.eqb a b && startswith p' s'
  | String _ _, EmptyString => false
  end.

(** [needle in hay] *)
Fixpoint contains (needle hay : string) : bool :=
  startswith needle hay ||
  match hay with
  | EmptyString => false
  | String _ hay' => contains needle hay'
  end.

(** [int(s)] for a string of decimal digits; [None] is the [ValueError]. *)
Fixpoint digits_value (acc : Z) (s : string) : option Z :=
  match s with
  | EmptyString => Some acc
  | String c s' =>
      if is_digit c then digits_value (10 * acc + (code c - 48)) s' else None
  end.

Definition int_of_string (s : string) : option Z :=
  match s with
  | EmptyString => None
  | _ => digits_value 0 s
  end.

(** [s.split(':')] *)
Fixpoint split_colon (cur : string) (s : string) : list string :=
  match s with
  | EmptyString => [cur]
  | String c s' =>
      if Ascii.eqb c ":"%char then cur :: split_colon EmptyString s'
      else split_colon (cur ++ String c EmptyString)%string s'
  end.

End Text.

Module Re.
Import Text.

(** The syntax the patterns of the sources need.  Repetition is applied
    to single characters only ([\s*], [\s+], [\d+], [.*]), as in the
    sources. *)
Inductive regex : Type :=
  | Eps
  | Chr (c : ascii)                 (* a literal character *)
  | Cls (p : ascii -> bool)         (* a class: [\d], [\s], [.], [[...]] *)
  | Seq (r1 r2 : regex)
  | Alt (r1 r2 : regex)             (* [r1|r2], left first *)
  | Opt (r : regex)                 (* [r?], greedy *)
  | Star (p : ascii -> bool)        (* [c*], greedy *)
  | Plus (p : ascii -> bool)        (* [c+], greedy *)
  | Group (n : nat) (r : regex)     (* the [n]-th capturing group *)
  | WordB.                          (* [\b] *)

(** A literal word. *)
Fixpoint Lit (s : string) : regex :=
  match s with
  | EmptyString => Eps
  | String c EmptyString => Chr c
  | String c s' => Seq (Chr c) (Lit s')
  end.

(** Concatenation and alternation of several expressions. *)
Fixpoint seq (rs : list regex) : regex :=
  match rs with
  | [] => Eps
  | [r] => r
  | r :: rs' => Seq r (seq rs')
  end.

Fixpoint alt (rs : list regex) : regex :=
  match rs with
  | [] => Eps
  | [r] => r
  | r :: rs' => Alt r (alt rs')
  end.

(** Captured groups, the most recent binding first. *)
Definition captures : Type := list (nat * string).

Fixpoint group (cs : captures) (n : nat) : option string :=
  match cs with
  | [] => None
  | (m, s) :: cs' => if Nat.eqb m n then Some s else group cs' n
  end.

Fixpoint take (n : nat) (s : list ascii) : list ascii :=
  match n, s with
  | S n', c :: s' => c :: take n' s'
  | _, _ => []
  end.

Section Matcher.
(** [re.IGNORECASE]: the patterns are written in lower case, the text is
    compared in lower case. *)
Variable ignorecase : bool.
Variable R : Type.

Definition fold_case (c : ascii) : ascii :=
  if ignorecase then lower_char c else c.

(** A continuation receives the character before the position, the rest
    of the text and the groups captured so far. *)
Definition cont : Type := option ascii -> list ascii -> captures -> option R.

(** Greedy repetition of a class: take the longest run first and give
    characters back while the continuation fails. *)
Fixpoint star (p : ascii -> bool) (prev : option ascii) (s : list ascii)
    (cs : captures) (k : cont) : option R :=
  match s with
  | c :: s' =>
      if p c then
        match star p (Some c) s' cs k with
        | Some r => Some r
        | None => k prev s cs
        end
      else k prev s cs
  | [] => k prev s cs
  end.

Definition at_boundary (prev : option ascii) (s : list ascii) : bool :=
  let before := match prev with Some c => is_word c | None => false end in
  let after := match s with c :: _ => is_word c | [] => false end in
  xorb before after.

(** Backtracking match of [r] at the head of [s]. *)
Fixpoint run (r : regex) (prev : option ascii) (s : list ascii)
    (cs : captures) (k : cont) : option R :=
  match r with
  | Eps => k prev s cs
  | Chr c =>
      match s with
      | x :: s' => if Ascii.eqb (fold_case x) c then k (Some x) s' cs else None
      | [] => None
      end
  | Cls p =>
      match s with
      | x :: s' => if p x then k (Some x) s' cs else None
      | [] => None
      end
  | Seq r1 r2 => run r1 prev s cs (fun prev' s' cs' => run r2 prev' s' cs' k)
  | Alt r1 r2 =>
      match run r1 prev s cs k with
      | Some x => Some x
      | None => run r2 prev s cs k
      end
  | Opt r1 =>
      match run r1 prev s cs k with
      | Some x => Some x
      | None => k prev s cs
      end
  | Star p => star p prev s cs k
  | Plus p =>
      match s with
      | x :: s' => if p x then star p (Some x) s' cs k else None
      | [] => None
      end
  | Group n r1 =>
      run r1 prev s cs
          (fun prev' s' cs' =>
             k prev' s'
               ((n, string_of_list_ascii (take (List.length s - List.length s')%nat s)) :: cs'))
  | WordB => if at_boundary prev s then k prev s cs else None
  end.

End Matcher.
Arguments star {R} p prev s cs k.
Arguments run ignorecase {R} r prev s cs k.

(** [re.search(r, text)]: the leftmost match, as its captured groups. *)
Fixpoint search_from (ignorecase : bool) (r : regex)
    (prev : option ascii) (s : list ascii) : option captures :=
  match run ignorecase r prev s [] (fun _ _ cs => Some cs) with
  | Some cs => Some cs
  | None =>
      match s with
      | [] => None
      | c :: s' => search_from ignorecase r (Some c) s'
      end
  end.

Definition search (ignorecase : bool) (r : regex) (text : string)
  : option captures :=
  search_from ignorecase r None (list_ascii_of_string text).

Definition matches (ignorecase : bool) (r : regex) (text : string) : bool :=
  match search ignorecase r text with Some _ => true | None => false end.

(** Frequent pieces. *)
Definition digit : regex := Cls is_digit.
Definition spaces : regex := Star is_space.        (* [\s*] *)
Definition spaces1 : regex := Plus is_space.       (* [\s+] *)

End Re.

(** ** The wall clock and the monad of the parser and the graph *)

Module Eff.
Import DT.

(** [reading n] is the UTC instant the [n]-th call of [datetime.now]
    of a run returns. *)
Class WallClock : Type := { reading : nat -> Z }.

(** A computation takes the number of clock reads made so far and gives
    a value or an exception, and the new number of reads. *)
Definition M (A : Type) : Type := nat -> result A * nat.

Definition ret {A} (a : A) : M A := fun n => (Ok a, n).

Definition raise {A} (e : exn) : M A := fun n => (Raise e, n).

Definition bind {A B} (m : M A) (f : A -> M B) : M B :=
  fun n =>
    match m n with
    | (Ok a, n') => f a n'
    | (Raise e, n') => (Raise e, n')
    end.

(** [try: m  except Exception as e: handler e] *)
Definition try_except {A} (m : M A) (handler : exn -> M A) : M A :=
  fun n =>
    match m n with
    | (Ok a, n') => (Ok a, n')
    | (Raise e, n') => handler e n'
    end.

Definition lift {A} (r : result A) : M A := fun n => (r, n).

(** [datetime.now(zone)] *)
Definition now {clock : WallClock} {tzdb : TzDatabase} (zone : string)
  : M datetime :=
  fun n => (Ok (at_instant zone (reading n)), S n).

(** Computations that may also fail to return: the graph nodes that
    call the free-slot loops. *)
Definition G (A : Type) : Type := nat -> outcome A * nat.

Definition gret {A} (a : A) : G A := fun n => (Returns a, n).

Definition gbind {A B} (m : G A) (f : A -> G B) : G B :=
  fun n =>
    match m n with
    | (Returns a, n') => f a n'
    | (Raises e, n') => (Raises e, n')
    | (Diverges, n') => (Diverges, n')
    end.

(** [try: m  except Exception as e: handler e]; a loop that does not
    end is not caught. *)
Definition gtry {A} (m : G A) (handler : exn -> G A) : G A :=
  fun n =>
    match m n with
    | (Raises e, n') => handler e n'
    | r => r
    end.

Definition of_M {A} (m : M A) : G A :=
  fun n =>
    match m n with
    | (Ok a, n') => (Returns a, n')
    | (Raise e, n') => (Raises e, n')
    end.

Definition of_outcome {A} (o : outcome A) : G A := fun n => (o, n).

End Eff.

Notation "x <- m ;; k" := (Eff.bind m (fun x => k))
  (at level 61, m at next level, right associativity).
Notation "' p <- m ;; k" := (Eff.bind m (fun p => k))
  (at level 61, p pattern, m at next level, right associativity).
Notation "x <~ m ;; k" := (Eff.gbind m (fun x => k))
  (at level 61, m at next level, right associativity).

(** ** [backend/utils.py] *)

Module Utils.
Import DT Text Re Eff.

(** [dateutil.parser.parse(text, fuzzy=True, default=d)]: the datetime
    read from the text, fields the text does not give taken from [d], or
    the exception raised. *)
Class Dateutil : Type := {
  fuzzy_parse : string -> datetime -> result datetime
}.

(** The dictionary a successful parse returns.  The keys [is_full_day]
    and [duration_minutes] are present in some results only. *)
Record spec : Type := mk_spec {
  start : datetime;
  end_ : datetime;
  is_range : bool;
  is_full_day : option bool;
  duration_minutes : option Z;
  text : string
}.

(** The tables of [DateTimeParser.__init__], in insertion order. *)
Definition relative_patterns : list (string * Z) :=
  [("today", 0); ("tomorrow", 1); ("day after tomorrow", 2);
   ("next week", 7); ("this week", 0); ("next month", 30); ("this month", 0)].

Definition weekday_patterns : list (string * Z) :=
  [("monday", 0); ("mon", 0);
   ("tuesday", 1); ("tue", 1); ("tues", 1);
   ("wednesday", 2); ("wed", 2);
   ("thursday", 3); ("thu", 3); ("thur", 3); ("thurs", 3);
   ("friday", 4); ("fri", 4);
   ("saturday", 5); ("sat", 5);
   ("sunday", 6); ("sun", 6)].

Definition time_patterns : list (string * (Z * Z)) :=
  [("morning", (5, 12)); ("afternoon", (12, 18)); ("evening", (18, 21));
   ("night", (21, 24)); ("midnight", (0, 0)); ("midday", (12, 12));
   ("noon", (12, 12)); ("dawn", (5, 6)); ("dusk", (18, 19));
   ("twilight", (19, 20))].

(** The first entry of a table whose key occurs in the text: the
    [for key, value in table.items(): if key in text: ...] loops. *)
Definition first_in {V : Type} (table : list (string * V)) (text : string)
  : option (string * V) :=
  find (fun kv => contains (fst kv) text) table.

(** *** [extract_duration] *)

(** [\b(a|an|one)\s+hour\b] *)
Definition one_hour_re : regex :=
  seq [WordB; Group 1 (alt [Lit "a"; Lit "an"; Lit "one"]); spaces1;
       Lit "hour"; WordB].

(** [(\d+)\s*-?\s*] *)
Definition amount_re : regex :=
  seq [Group 1 (Plus is_digit); spaces; Opt (Chr "-"); spaces].

(** [(\d+)\s*-?\s*h\b], [(\d+)\s*-?\s*hr], [(\d+)\s*-?\s*hours?] *)
Definition hour_patterns : list regex :=
  [seq [amount_re; Chr "h"; WordB];
   seq [amount_re; Lit "hr"];
   seq [amount_re; Lit "hour"; Opt (Chr "s")]].

(** [(\d+)\s*-?\s*m\b], [(\d+)\s*-?\s*min(ute)?s?] *)
Definition minute_patterns : list regex :=
  [seq [amount_re; Chr "m"; WordB];
   seq [amount_re; Lit "min"; Opt (Group 2 (Lit "ute")); Opt (Chr "s")]].

(** [int(match.group(1))]; group 1 is [(\d+)], a run of digits. *)
Definition int_group1 (m : captures) : Z :=
  match group m 1 with
  | Some g => match int_of_string g with Some v => v | None => 0 end
  | None => 0
  end.

(** [for pattern in patterns: match = re.search(...); if match: return
    int(match.group(1)) * scale] *)
Fixpoint first_amount (patterns : list regex) (text : string) (scale : Z)
  : option Z :=
  match patterns with
  | [] => None
  | pattern :: rest =>
      match search true pattern text with
      | Some m => Some (int_group1 m * scale)
      | None => first_amount rest text scale
      end
  end.

Definition extract_duration (text : string) : option Z :=
  if matches true one_hour_re text then Some 60
  else
    match first_amount hour_patterns text 60 with
    | Some d => Some d
    | None => first_amount minute_patterns text 1
    end.

(** Truth value of an [Optional[int]]: [None] and [0] are false. *)
Definition truthy_int (d : option Z) : bool :=
  match d with Some v => negb (v =? 0) | None => false end.

(** [d or default] *)
Definition or_int (d : option Z) (default : Z) : Z :=
  match d with
  | Some v => if v =? 0 then default else v
  | None => default
  end.

(** *** [DateTimeParser._parse_time_string] *)

(** Truth value of an optional string: [None] and [''] are false. *)
Definition truthy_str (s : option string) : bool :=
  match s with Some EmptyString => false | Some _ => true | None => false end.

(** [period and period.lower() == word] *)
Definition period_is (period : option string) (word : string) : bool :=
  match period with
  | Some p => truthy_str period && String.eqb (lower p) word
  | None => false
  end.

(** The body of the [try]; [None] is the exception the bare [except]
    turns into [return None]. *)
Definition _parse_time_string (time_str : string) (period : option string)
  : option (Z * Z) :=
  let hour_minute :=
    if contains ":" time_str then
      match map int_of_string (split_colon EmptyString time_str) with
      | [Some hour; Some minute] => Some (hour, minute)
      | _ => None
      end
    else
      match int_of_string time_str with
      | Some hour => Some (hour, 0)
      | None => None
      end in
  match hour_minute with
  | Some (hour, minute) =>
      let hour :=
        if period_is period "pm" && negb (hour =? 12) then hour + 12
        else if period_is period "am" && (hour =? 12) then 0
        else hour in
      Some (hour, minute)
  | None => None
  end.

(** *** The range patterns of [_parse_time_range] *)

(** [(\d{1,2}(?::\d{2})?)] as group [n] *)
Definition clock_re (n : nat) : regex :=
  Group n (seq [digit; Opt digit; Opt (seq [Chr ":"; digit; digit])]).

(** [(am|pm)] as group [n] *)
Definition ampm_re (n : nat) : regex := Group n (Alt (Lit "am") (Lit "pm")).

(** [between\s+(..)\s*(am|pm)?\s*and\s*(..)\s*(am|pm)?] *)
Definition between_re : regex :=
  seq [Lit "between"; spaces1; clock_re 1; spaces; Opt (ampm_re 2); spaces;
       Lit "and"; spaces; clock_re 3; spaces; Opt (ampm_re 4)].

(** [from\s+(..)\s*(am|pm)?\s*to\s*(..)\s*(am|pm)?] *)
Definition from_re : regex :=
  seq [Lit "from"; spaces1; clock_re 1; spaces; Opt (ampm_re 2); spaces;
       Lit "to"; spaces; clock_re 3; spaces; Opt (ampm_re 4)].

(** [(..)\s*[-...]\s*(..)\s*(am|pm)]; of the characters of the class
    only the hyphen is ASCII. *)
Definition dash_re : regex :=
  seq [clock_re 1; spaces; Chr "-"; spaces; clock_re 2; spaces; ampm_re 3].

(** Each pattern with the length of [match.groups()]. *)
Definition range_patterns : list (regex * nat) :=
  [(between_re, 4%nat); (from_re, 4%nat); (dash_re, 3%nat)].

(** A group that always takes part in a match. *)
Definition group_str (m : captures) (n : nat) : string :=
  match group m n with Some s => s | None => EmptyString end.

(** Lines 94-100: the groups as start time, start period, end time and
    end period; [None] is the [continue]. *)
Definition range_groups (arity : nat) (m : captures)
  : option (string * option string * string * option string) :=
  match arity with
  | 4%nat => Some (group_str m 1, group m 2, group_str m 3, group m 4)
  | 3%nat => Some (group_str m 1, None, group_str m 2, group m 3)
  | _ => None
  end.

Section Parser.
Context {tzdb : TzDatabase} {clock : WallClock} {du : Dateutil}.

(** [except (ValueError, TypeError)] *)
Definition value_or_type_error (e : exn) : bool :=
  match exn_cls e with
  | ValueError | TypeError => true
  | _ => false
  end.

(** *** [DateTimeParser._parse_date_part] *)
Definition _parse_date_part (text : string) (user_timezone : string)
  : M datetime :=
  user_tz <- lift (timezone user_timezone) ;;
  now <- now user_tz ;;
  match first_in relative_patterns text with
  | Some (phrase, days_) =>
      let target_date := add now (days days_) in
      lift (replace target_date 0 0 0 0)
  | None =>
      match first_in weekday_patterns text with
      | Some (weekday_, day_num) =>
          let current_weekday := weekday now in
          let days_ahead := day_num - current_weekday in
          let days_ahead :=
            if days_ahead <=? 0 then days_ahead + 7 else days_ahead in
          let days_ahead :=
            if contains "next" text then days_ahead + 7 else days_ahead in
          let target_date := add now (days days_ahead) in
          lift (replace target_date 0 0 0 0)
      | None =>
          match fuzzy_parse text now with
          | Ok parsed_date =>
              ret (if aware parsed_date then parsed_date
                   else localize user_tz parsed_date)
          | Raise e =>
              if value_or_type_error e then ret now else raise e
          end
      end
  end.

(** *** [DateTimeParser._get_date_range_from_text] *)
Definition _get_date_range_from_text (text : string) (now : datetime)
  : M (datetime * datetime) :=
  let text := lower text in
  if contains "this week" text then
    let start_of_week := add now (- days (weekday now)) in
    let end_of_week := add start_of_week (days 6) in
    ret (start_of_week, end_of_week)
  else if contains "next week" text then
    let start_of_next_week := add now (days (7 - weekday now)) in
    let end_of_next_week := add start_of_next_week (days 6) in
    ret (start_of_next_week, end_of_next_week)
  else
    match tz now with
    | Some tzinfo_ =>
        date_part <- _parse_date_part text (tz_zone tzinfo_) ;;
        ret (date_part, date_part)
    | None => raise (mk_exn OtherException "'NoneType' object has no attribute 'zone'")
    end.

(** *** [DateTimeParser._parse_time_range] *)

(** Lines 109-134: the result once both bounds are resolved. *)
Definition range_result (text : string) (user_timezone : string)
    (start_time end_time : Z * Z) : M (option spec) :=
  user_tz <- lift (timezone user_timezone) ;;
  now <- now user_tz ;;
  ' (start_date_part, end_date_part) <- _get_date_range_from_text text now ;;
  start_datetime <-
    lift (replace start_date_part (fst start_time) (snd start_time) 0 0) ;;
  end_datetime <-
    lift (replace end_date_part (fst end_time) (snd end_time) 0 0) ;;
  let start_datetime :=
    if aware start_datetime then start_datetime
    else localize user_tz start_datetime in
  let end_datetime :=
    if aware end_datetime then end_datetime
    else localize user_tz end_datetime in
  ret (Some (mk_spec start_datetime end_datetime true None None text)).

(** The loop over the patterns, lines 88-135. *)
Fixpoint range_loop (patterns : list (regex * nat)) (text : string)
    (user_timezone : string) : M (option spec) :=
  match patterns with
  | [] => ret None
  | (pattern, arity) :: rest =>
      match search true pattern text with
      | None => range_loop rest text user_timezone
      | Some m =>
          match range_groups arity m with
          | None => range_loop rest text user_timezone
          | Some (start_time_str, start_period, end_time_str, end_period) =>
              (* Infer start period if missing *)
              let start_period :=
                if negb (truthy_str start_period) && truthy_str end_period
                then end_period else start_period in
              match _parse_time_string start_time_str start_period,
                    _parse_time_string end_time_str end_period with
              | Some start_time, Some end_time =>
                  range_result text user_timezone start_time end_time
              | _, _ => range_loop rest text user_timezone
              end
          end
      end
  end.

Definition _parse_time_range (text : string) (user_timezone : string)
  : M (option spec) :=
  range_loop range_patterns text user_timezone.

(** *** [DateTimeParser._parse_single_datetime] *)

(** [\d{1,2}:\d{2}|\d{1,2}\s*(am|pm)] *)
Definition time_regex : regex :=
  Alt (seq [digit; Opt digit; Chr ":"; digit; digit])
      (seq [digit; Opt digit; spaces; ampm_re 1]).

Definition availability_words : list string :=
  ["availability"; "available"; "free"; "openings"; "slots"].

Definition exact_phrases : list string := ["midnight"; "midday"; "noon"].

(** The two identical [try] blocks of lines 210-242: the fuzzy parse with
    the date part as default; [None] when the block raises. *)
Definition fuzzy_single (text : string) (user_timezone : string)
    (duration_minutes : Z) (date_part : datetime) : option spec :=
  match fuzzy_parse text date_part with
  | Ok parsed_dt =>
      match timezone user_timezone with
      | Ok user_tz =>
          let parsed_dt :=
            if aware parsed_dt then parsed_dt else localize user_tz parsed_dt in
          Some (mk_spec parsed_dt (add parsed_dt (minutes duration_minutes))
                        false None (Some duration_minutes) text)
      | Raise _ => None
      end
  | Raise _ => None
  end.

Definition _parse_single_datetime (text : string) (user_timezone : string)
    (duration_minutes : Z) : M (option spec) :=
  let has_specific_time := matches true time_regex text in
  let has_time_period :=
    existsb (fun kv => contains (fst kv) text) time_patterns in
  date_part <- _parse_date_part text user_timezone ;;
  if negb has_specific_time && negb has_time_period
     && existsb (fun word => contains word text) availability_words then
    start_of_day <- lift (replace date_part 0 0 0 0) ;;
    end_of_day <- lift (replace date_part 23 59 59 999999) ;;
    ret (Some (mk_spec start_of_day end_of_day true (Some true) None text))
  else
    match (if has_time_period then first_in time_patterns text else None) with
    | Some (phrase, (start_hour, end_hour)) =>
        if existsb (String.eqb phrase) exact_phrases then
          exact_datetime <- lift (replace date_part start_hour 0 0 0) ;;
          ret (Some (mk_spec exact_datetime
                             (add exact_datetime (minutes duration_minutes))
                             false None (Some duration_minutes) text))
        else
          start_of_period <- lift (replace date_part start_hour 0 0 0) ;;
          end_of_period <- lift (replace date_part end_hour 0 0 0) ;;
          ret (Some (mk_spec start_of_period end_of_period true None None text))
    | None =>
        match (if has_specific_time
               then fuzzy_single text user_timezone duration_minutes date_part
               else None) with
        | Some r => ret (Some r)
        | None =>
            match fuzzy_single text user_timezone duration_minutes date_part with
            | Some r => ret (Some r)
            | None => ret None
            end
        end
    end.

(** *** [DateTimeParser.parse] *)
Definition parse (text : string) (user_timezone : string) : M (option spec) :=
  try_except
    (let text := strip (lower text) in
     let duration_minutes := or_int (extract_duration text) 30 in
     range_result <- _parse_time_range text user_timezone ;;
     match range_result with
     | Some r => ret (Some r)
     | None =>
         single_result <- _parse_single_datetime text user_timezone duration_minutes ;;
         match single_result with
         | Some r => ret (Some r)
         | None => ret None
         end
     end)
    (fun _ => ret None).

End Parser.

(** *** [DateTimeParser._parse_time_part] *)

(** [(\d{1,2})] and [(\d{2})] as group [n] *)
Definition hour_re (n : nat) : regex := Group n (seq [digit; Opt digit]).
Definition two_digits_re (n : nat) : regex := Group n (seq [digit; digit]).

(** [(\d{1,2}):(\d{2})\s*(am|pm)] *)
Definition clock_marker_re : regex :=
  seq [hour_re 1; Chr ":"; two_digits_re 2; spaces; ampm_re 3].

(** [(\d{1,2})\s*(am|pm)] *)
Definition hour_marker_re : regex := seq [hour_re 1; spaces; ampm_re 2].

(** [(\d{1,2}):(\d{2})] *)
Definition clock_only_re : regex := seq [hour_re 1; Chr ":"; two_digits_re 2].

(** [(\d{4})] *)
Definition four_digits_re : regex := Group 1 (seq [digit; digit; digit; digit]).

(** The patterns of lines 290-295, each with the length of
    [match.groups()]. *)
Definition time_part_patterns : list (regex * nat) :=
  [(clock_marker_re, 3%nat); (hour_marker_re, 2%nat);
   (clock_only_re, 2%nat); (four_digits_re, 1%nat)].

(** [int(s)]; a string that is no number raises [ValueError]. *)
Definition int_or_raise (s : string) : result Z :=
  match int_of_string s with
  | Some v => Ok v
  | None =>
      Raise (mk_exn ValueError
               ("invalid literal for int() with base 10: '" ++ s ++ "'"))
  end.

(** [s[n:]] *)
Fixpoint drop (n : nat) (s : string) : string :=
  match n, s with
  | S n', String _ s' => drop n' s'
  | _, _ => s
  end.

(** Lines 310-313 and 320-323, for a period already in lower case. *)
Definition to_24h (period : string) (hour : Z) : Z :=
  if String.eqb period "pm" && negb (hour =? 12) then hour + 12
  else if String.eqb period "am" && (hour =? 12) then 0
  else hour.

(** The loop of lines 297-325: the branch is chosen by the number of
    groups of the pattern alone; a match of a pattern with another
    number of groups is passed over. *)
Fixpoint time_part_loop (patterns : list (regex * nat)) (text : string)
  : result (option (Z * Z)) :=
  match patterns with
  | [] => Ok None
  | (pattern, arity) :: rest =>
      match search true pattern text with
      | None => time_part_loop rest text
      | Some m =>
          match arity with
          | 4%nat =>
              let hour_min := group_str m 1 in
              match int_or_raise (substring 0 2 hour_min) with
              | Raise e => Raise e
              | Ok hour =>
                  match int_or_raise (drop 2 hour_min) with
                  | Raise e => Raise e
                  | Ok minute => Ok (Some (hour, minute))
                  end
              end
          | 3%nat =>
              match int_or_raise (group_str m 1) with
              | Raise e => Raise e
              | Ok hour =>
                  match int_or_raise (group_str m 2) with
                  | Raise e => Raise e
                  | Ok minute =>
                      let period := lower (group_str m 3) in
                      Ok (Some (to_24h period hour, minute))
                  end
              end
          | 2%nat =>
              match int_or_raise (group_str m 1) with
              | Raise e => Raise e
              | Ok hour =>
                  let period := lower (group_str m 2) in
                  Ok (Some (to_24h period hour, 0))
              end
          | _ => time_part_loop rest text
          end
      end
  end.

Definition _parse_time_part (text : string) : result (option (Z * Z)) :=
  time_part_loop time_part_patterns text.

(** *** [get_relative_date] *)

(** [d + relativedelta(months=n)] of dateutil. *)
Class Relativedelta : Type := { plus_months : datetime -> Z -> datetime }.

Section RelativeDate.
Context {clock : WallClock} {rd : Relativedelta}.

(** [datetime.now(timezone.utc)] *)
Definition now_utc : M datetime :=
  fun n => (Ok (mk_dt (reading n) (Some (mk_tz "UTC" 0))), S n).

(** A datetime is true as a condition, so [not base_date] is the test
    for [None]. *)
Definition get_relative_date (text : string) (base_date : option datetime)
  : M (option datetime) :=
  base_date <- match base_date with
               | Some d => ret d
               | None => now_utc
               end ;;
  let text := lower text in
  if contains "today" text then ret (Some base_date)
  else if contains "tomorrow" text then ret (Some (add base_date (days 1)))
  else if contains "yesterday" text then ret (Some (add base_date (- days 1)))
  else if contains "next week" text then ret (Some (add base_date (days 7)))
  else if contains "this week" text then ret (Some base_date)
  else if contains "next month" text then ret (Some (plus_months base_date 1))
  else if contains "this month" text then ret (Some base_date)
  else ret None.

End RelativeDate.

End Utils.

(** ** [backend/agent.py] *)

Module Agent.
Import DT Text Re Eff Utils CalendarService.

(** *** The state of a turn *)

(** LangChain messages. *)
Inductive message : Type :=
  | HumanMessage (content : string)
  | AIMessage (content : string).

Definition content_of (m : message) : string :=
  match m with HumanMessage c => c | AIMessage c => c end.

Definition is_human (m : message) : bool :=
  match m with HumanMessage _ => true | AIMessage _ => false end.

(** The four intents the nodes assign to [state.intent]. *)
Inductive intent : Type :=
  | book_appointment | check_availability_intent
  | modify_appointment | general_query.

(** The session dictionary [state.context], by the keys the agent
    writes; a key that is absent is [None]. *)
Record context : Type := mk_context {
  error : option string;
  last_discussed_datetime : option spec;
  requested_slot_past : option bool;
  requested_slot_busy : option bool;
  response : option string
}.

Definition empty_context : context := mk_context None None None None None.

(** [confirmation_data] *)
Record confirmation : Type := mk_confirmation {
  start_time : string;
  end_time : string;
  title : string;
  description : string;
  location : string;
  conf_user_timezone : string
}.

Record ConversationState : Type := mk_state {
  messages : list message;
  ctx : context;
  intent_ : option intent;
  extracted_datetime : option spec;
  state_duration_minutes : Z;
  needs_confirmation : bool;
  confirmation_data : option confirmation;
  available_slots : option (list slot);
  user_timezone : string;
  session_id : string
}.

(** [ConversationState(messages=..., user_timezone=..., session_id=...)]
    with the defaults of the dataclass. *)
Definition initial_state (msgs : list message) (zone session : string)
  : ConversationState :=
  mk_state msgs empty_context None None 30 false None None zone session.

(** Field updates. *)
Definition set_ctx (s : ConversationState) (c : context) : ConversationState :=
  mk_state (messages s) c (intent_ s) (extracted_datetime s)
           (state_duration_minutes s) (needs_confirmation s)
           (confirmation_data s) (available_slots s) (user_timezone s)
           (session_id s).

Definition set_intent (s : ConversationState) (i : intent) : ConversationState :=
  mk_state (messages s) (ctx s) (Some i) (extracted_datetime s)
           (state_duration_minutes s) (needs_confirmation s)
           (confirmation_data s) (available_slots s) (user_timezone s)
           (session_id s).

Definition set_extracted (s : ConversationState) (e : option spec)
  : ConversationState :=
  mk_state (messages s) (ctx s) (intent_ s) e
           (state_duration_minutes s) (needs_confirmation s)
           (confirmation_data s) (available_slots s) (user_timezone s)
           (session_id s).

Definition set_duration (s : ConversationState) (d : Z) : ConversationState :=
  mk_state (messages s) (ctx s) (intent_ s) (extracted_datetime s)
           d (needs_confirmation s)
           (confirmation_data s) (available_slots s) (user_timezone s)
           (session_id s).

Definition set_slots (s : ConversationState) (l : option (list slot))
  : ConversationState :=
  mk_state (messages s) (ctx s) (intent_ s) (extracted_datetime s)
           (state_duration_minutes s) (needs_confirmation s)
           (confirmation_data s) l (user_timezone s)
           (session_id s).

Definition set_messages (s : ConversationState) (l : list message)
  : ConversationState :=
  mk_state l (ctx s) (intent_ s) (extracted_datetime s)
           (state_duration_minutes s) (needs_confirmation s)
           (confirmation_data s) (available_slots s) (user_timezone s)
           (session_id s).

Definition set_confirmation (s : ConversationState) (c : confirmation)
  : ConversationState :=
  mk_state (messages s) (ctx s) (intent_ s) (extracted_datetime s)
           (state_duration_minutes s) true
           (Some c) (available_slots s) (user_timezone s)
           (session_id s).

Definition set_error (c : context) (e : string) : context :=
  mk_context (Some e) (last_discussed_datetime c) (requested_slot_past c)
             (requested_slot_busy c) (response c).

Definition set_last_discussed (c : context) (p : spec) : context :=
  mk_context (error c) (Some p) (requested_slot_past c)
             (requested_slot_busy c) (response c).

Definition set_past (c : context) : context :=
  mk_context (error c) (last_discussed_datetime c) (Some true)
             (requested_slot_busy c) (response c).

Definition set_busy (c : context) : context :=
  mk_context (error c) (last_discussed_datetime c) (requested_slot_past c)
             (Some true) (response c).

(** Truth values: [state.context.get(key)] of a string or a flag, and a
    list that may be [None]. *)
Definition truthy_flag (b : option bool) : bool :=
  match b with Some true => true | _ => false end.

Definition truthy_list {A} (l : option (list A)) : bool :=
  match l with Some (_ :: _) => true | _ => false end.

Definition is_some {A} (o : option A) : bool :=
  match o with Some _ => true | None => false end.

(** *** Collaborators *)

(** The language model.  Each prompt is a fixed template around the
    arguments below, so the reply ([response.content], or the exception
    of the call) is a function of them. *)
Class LanguageModel : Type := {
  (** the intent prompt of lines 176-190 for a message *)
  intent_reply : string -> result string;
  (** the prompt of lines 446-461 for the user's message and the slots *)
  availability_reply : string -> string -> result string;
  (** the prompt of lines 557-567 for the user's message *)
  general_reply : string -> result string
}.

(** [strftime] of datetimes, [str] of integers. *)
Class Formatting : Type := {
  strftime : string -> datetime -> string;
  str_int : Z -> string
}.

(** *** [_parse_intent] *)

(** The patterns of the rule-based fallback, lines 209-224. *)
Definition booking_verbs_re : regex :=
  alt (map Lit ["book"; "schedule"; "set up"; "arrange"; "plan"; "create"; "add"]).

Definition booking_patterns : list regex :=
  [booking_verbs_re;
   alt (map Lit ["meeting"; "appointment"; "call"; "event"]);
   alt (map Lit ["available"; "free"; "open"]);
   alt (map Lit ["tomorrow"; "today"; "next week"; "this week"; "monday";
                 "tuesday"; "wednesday"; "thursday"; "friday"; "saturday";
                 "sunday"])].

Definition any_chars : regex := Star is_dot.   (* [.*] *)

Definition availability_patterns : list regex :=
  [alt (map Lit ["available"; "free"; "open"]);
   alt [seq [Lit "what"; any_chars; Lit "time"];
        seq [Lit "when"; any_chars; Lit "free"];
        seq [Lit "any"; any_chars; Lit "slot"]];
   alt [seq [Lit "check"; any_chars; Lit "calendar"];
        seq [Lit "see"; any_chars; Lit "schedule"]]].

Definition modification_patterns : list regex :=
  [alt (map Lit ["cancel"; "delete"; "remove"; "reschedule"; "move";
                 "change"; "update"])].

(** [any(re.search(pattern, message) for pattern in patterns)] *)
Definition any_search (patterns : list regex) (message : string) : bool :=
  existsb (fun pattern => matches false pattern message) patterns.

(** The fallback of lines 226-237. *)
Definition rule_based_intent (message : string) : intent :=
  if any_search booking_patterns message then
    if contains "available" message || contains "free" message
    then check_availability_intent
    else book_appointment
  else if any_search availability_patterns message then
    check_availability_intent
  else if any_search modification_patterns message then
    modify_appointment
  else general_query.

(** Lines 196-204. *)
Definition intent_of_reply (reply : string) : intent :=
  let intent := lower (strip reply) in
  if contains "book_appointment" intent then book_appointment
  else if contains "check_availability" intent then check_availability_intent
  else if contains "modify_appointment" intent then modify_appointment
  else general_query.

Section Nodes.
Context {tzdb : TzDatabase} {clock : WallClock} {du : Dateutil}
        {cal : Provider} {llm : LanguageModel} {fmt : Formatting}
        {iso : IsoFormat}.

(** [state.messages[-1]]; [None] is the [IndexError]. *)
Definition last_message (s : ConversationState) : option message :=
  last (map Some (messages s)) None.

Definition _parse_intent (state : ConversationState) : ConversationState :=
  match last_message state with
  | None => set_intent state general_query
  | Some m =>
      let message := lower (content_of m) in
      match intent_reply message with
      | Ok reply => set_intent state (intent_of_reply reply)
      | Raise _ => set_intent state (rule_based_intent message)
      end
  end.

(** *** [_parse_datetime] *)

(** Lines 256-266.  [state.extracted_datetime] and
    [state.context["last_discussed_datetime"]] are one dictionary, so the
    assignments of lines 265-266 show in both.  Line 266 can raise
    [OverflowError], from [timedelta] or from the addition, after line
    265 has written [duration_minutes]; the handler of line 274 returns
    the state as it is then. *)
Definition store_parsed (state : ConversationState) (message : string)
    (parsed_datetime : spec) : ConversationState :=
  let state := set_extracted state (Some parsed_datetime) in
  let state := set_ctx state (set_last_discussed (ctx state) parsed_datetime) in
  match extract_duration message with
  | Some duration =>
      if negb (duration =? 0) then
        let state := set_duration state duration in
        let with_duration :=
          mk_spec (start parsed_datetime) (end_ parsed_datetime)
                  (is_range parsed_datetime) (is_full_day parsed_datetime)
                  (Some duration) (text parsed_datetime) in
        let state := set_extracted state (Some with_duration) in
        let state := set_ctx state (set_last_discussed (ctx state) with_duration) in
        match timedelta_minutes duration with
        | Raise _ => state
        | Ok delta =>
            match checked_add (start parsed_datetime) delta with
            | Raise _ => state
            | Ok new_end =>
                let updated :=
                  mk_spec (start parsed_datetime) new_end
                          (is_range parsed_datetime) (is_full_day parsed_datetime)
                          (Some duration) (text parsed_datetime) in
                let state := set_extracted state (Some updated) in
                set_ctx state (set_last_discussed (ctx state) updated)
            end
        end
      else state
  | None => state
  end.

(** The node never raises: [parse] catches its own exceptions, and an
    empty message list or an overflow at line 266 leaves the state as
    it is at that point. *)
Definition _parse_datetime (state : ConversationState) : M ConversationState :=
  match last_message state with
  | None => ret state
  | Some m =>
      let message := content_of m in
      parsed_datetime <- parse message (user_timezone state) ;;
      match parsed_datetime with
      | Some p => ret (store_parsed state message p)
      | None => ret state
      end
  end.

(** *** [_decide_next_step] *)

Inductive node : Type := check_availability_node | generate_response_node.

(** The six [return] statements of the function. *)
Inductive decision : Type :=
  | ErrorInContext          (* line 94 *)
  | BookingTimeAvailable    (* line 99 *)
  | BookingTimeBusy         (* line 102 *)
  | BookingNoTime           (* line 105 *)
  | AvailabilityIntent      (* line 108 *)
  | OtherIntent.            (* line 111 *)

Definition node_of (d : decision) : node :=
  match d with
  | BookingTimeBusy | AvailabilityIntent => check_availability_node
  | _ => generate_response_node
  end.

Definition decide (state : ConversationState) : decision :=
  if truthy_str (error (ctx state)) then ErrorInContext
  else
    match intent_ state with
    | Some book_appointment =>
        if is_some (extracted_datetime state) && truthy_list (available_slots state)
        then BookingTimeAvailable
        else if is_some (extracted_datetime state)
                && negb (truthy_list (available_slots state))
        then BookingTimeBusy
        else BookingNoTime
    | Some check_availability_intent => AvailabilityIntent
    | _ => OtherIntent
    end.

Definition _decide_next_step (state : ConversationState) : node :=
  node_of (decide state).


(** *** [_check_availability] *)

(** The handler of line 380: [state.context["error"] = str(e)]. *)
Definition with_error (state : ConversationState) (e : exn) : ConversationState :=
  set_ctx state (set_error (ctx state) (str_exn e)).

(** [[slot for slot in slots if slot["start"] > now]] *)
Definition after_now (now : datetime) (slots : list slot) : list slot :=
  filter (fun slot => dt_gt (s_start slot) now) slots.

(** The loop of lines 319-335 over the days of a range; one unit of fuel
    per day. *)
Fixpoint day_loop (fuel : nat) (duration : Z) (now start_time end_time : datetime)
    (current_day : datetime) (all_slots : list slot) : outcome (list slot) :=
  if date current_day <=? date end_time then
    match fuel with
    | O => Diverges
    | S fuel' =>
        match replace current_day (hour start_time) (minute start_time) 0 0 with
        | Raise e => Raises e
        | Ok day_start_time =>
            match replace current_day (hour end_time) (minute end_time) 0 0 with
            | Raise e => Raises e
            | Ok day_end_time =>
                match lt_checked now day_start_time with
                | Raise e => Raises e
                | Ok later =>
                    match (if later
                           then find_free_slots (day_start_time, day_end_time) duration
                           else Returns []) with
                    | Returns daily_slots =>
                        match checked_add current_day (days 1) with
                        | Raise e => Raises e
                        | Ok next_day =>
                            day_loop fuel' duration now start_time end_time
                                     next_day (all_slots ++ daily_slots)
                        end
                    | Raises e => Raises e
                    | Diverges => Diverges
                    end
                end
            end
        end
    end
  else Returns all_slots.

Definition day_fuel (start_time end_time : datetime) : nat :=
  Z.to_nat (date end_time - date start_time + 1).

(** Scenario 3, lines 352-375: a single time. *)
Definition check_single_time (state : ConversationState) (now : datetime)
    (start_time : datetime) : outcome ConversationState :=
  match timedelta_minutes (state_duration_minutes state) with
  | Raise e => Returns (with_error state e)
  | Ok delta =>
      match checked_add start_time delta with
      | Raise e => Returns (with_error state e)
      | Ok end_time =>
          match le_checked start_time now with
          | Raise e => Returns (with_error state e)
          | Ok true =>
              Returns (set_slots (set_ctx state (set_past (ctx state))) (Some []))
          | Ok false =>
              if check_availability start_time end_time then
                Returns (set_slots state (Some [mk_slot start_time end_time]))
              else
                let state := set_ctx state (set_busy (ctx state)) in
                match replace start_time 0 0 0 0 with
                | Raise e => Returns (with_error state e)
                | Ok date_start =>
                    match checked_add date_start (days 1) with
                    | Raise e => Returns (with_error state e)
                    | Ok date_end =>
                        match find_free_slots (date_start, date_end)
                                              (state_duration_minutes state) with
                        | Returns alternative_slots =>
                            Returns (set_slots state
                                       (Some (firstn 5 (after_now now alternative_slots))))
                        | Raises e => Returns (with_error state e)
                        | Diverges => Diverges
                        end
                    end
                end
          end
      end
  end.

(** Lines 306-378, for the extracted datetime [extracted]; an exception
    goes to the handler of line 380. *)
Definition check_extracted (state : ConversationState) (now : datetime)
    (extracted : spec) : outcome ConversationState :=
  let start_time := start extracted in
  let end_time := end_ extracted in
  let is_multi_day_time_range :=
    is_range extracted && negb (truthy_flag (is_full_day extracted))
    && (date start_time <? date end_time) in
  if is_multi_day_time_range then
    match day_loop (day_fuel start_time end_time) (state_duration_minutes state)
                   now start_time end_time start_time [] with
    | Returns all_slots => Returns (set_slots state (Some (after_now now all_slots)))
    | Raises e => Returns (with_error state e)
    | Diverges => Diverges
    end
  else if is_range extracted || truthy_flag (is_full_day extracted) then
    match find_free_slots (start_time, end_time) (state_duration_minutes state) with
    | Returns available => Returns (set_slots state (Some (after_now now available)))
    | Raises e => Returns (with_error state e)
    | Diverges => Diverges
    end
  else check_single_time state now start_time.

Definition _check_availability (state : ConversationState) : G ConversationState :=
  if negb is_authenticated then
    gret (set_ctx state (set_error (ctx state)
                                   "Not authenticated with Google Calendar"))
  else
    match timezone (user_timezone state) with
    | Raise e => gret (with_error state e)
    | Ok user_tz =>
        now <~ of_M (now user_tz) ;;
        match extracted_datetime state with
        | Some extracted => of_outcome (check_extracted state now extracted)
        | None =>
            match last_discussed_datetime (ctx state) with
            | Some last_discussed =>
                let state := set_extracted state (Some last_discussed) in
                of_outcome (check_extracted state now last_discussed)
            | None =>
                let start_date := now in
                match checked_add now (days 7) with
                | Raise e => gret (with_error state e)
                | Ok end_date =>
                    match get_availability start_date end_date
                                           (state_duration_minutes state) with
                    | Returns available =>
                        gret (set_slots state (Some (after_now now available)))
                    | Raises e => gret (with_error state e)
                    | Diverges => of_outcome Diverges
                    end
                end
            end
        end
    end.

(** *** The response generators *)

Definition nl : string := String (ascii_of_nat 10) EmptyString.

(** The bullet U+2022 of the templates, in UTF-8. *)
Definition bullet : string :=
  String (ascii_of_nat 226) (String (ascii_of_nat 128)
    (String (ascii_of_nat 162) EmptyString)).

(** [sep.join(parts)] *)
Definition join (sep : string) (parts : list string) : string :=
  String.concat sep parts.

(** [slots_by_day[day_key].append(time)], creating the entry when the
    day is new; the dictionary keeps the order in which days appear. *)
Fixpoint add_to_day (day_key time : string)
    (slots_by_day : list (string * list string)) : list (string * list string) :=
  match slots_by_day with
  | [] => [(day_key, [time])]
  | (day, times) :: rest =>
      if String.eqb day day_key then (day, times ++ [time]) :: rest
      else (day, times) :: add_to_day day_key time rest
  end.

Definition group_by_day (slots : list slot) : list (string * list string) :=
  fold_left
    (fun slots_by_day slot =>
       add_to_day (strftime "%A, %B %d" (s_start slot))
                  (strftime "%I:%M %p" (s_start slot)) slots_by_day)
    slots [].

Definition error_text (state : ConversationState) : string :=
  match error (ctx state) with Some e => e | None => EmptyString end.

Definition _generate_availability_response (state : ConversationState) : string :=
  if truthy_str (error (ctx state)) then
    ("I encountered an issue: " ++ error_text state)%string
  else
    match available_slots state with
    | Some ((_ :: _) as slots) =>
        let slots_info :=
          map (fun day_times =>
                 let day := fst day_times in
                 let times := snd day_times in
                 if (5 <? Z.of_nat (List.length times)) then
                   (day ++ ": " ++ join ", " (firstn 3 times) ++ ", and "
                    ++ str_int (Z.of_nat (List.length times) - 3) ++ " more slots")%string
                 else (day ++ ": " ++ join ", " times)%string)
              (group_by_day slots) in
        let slots_text := join nl slots_info in
        let user_message :=
          match last_message state with
          | Some m => content_of m
          | None => "availability check"
          end in
        match availability_reply user_message slots_text with
        | Ok reply => strip reply
        | Raise _ =>
            ("Here are your available slots:"
             ++ String.concat EmptyString
                  (map (fun slot_info => (nl ++ bullet ++ " " ++ slot_info)%string) slots_info)
             ++ nl ++ nl ++ "Would you like to book any of these slots?")%string
        end
    | _ =>
        if is_some (extracted_datetime state) then
          "I couldn't find any available slots for that time. Would you like me to suggest some alternative times?"
        else
          "It looks like your calendar is quite busy. Let me know if you'd like to check a specific time or date range."
    end.

(** The response and the state, which the single-slot case updates. *)
Definition _generate_booking_response (state : ConversationState)
  : string * ConversationState :=
  if truthy_str (error (ctx state)) then
    (("I encountered an issue: " ++ error_text state)%string, state)
  else if negb (is_some (extracted_datetime state)) then
    ("I'd be happy to help you book an appointment! Could you please specify when you'd like to schedule it? For example, 'tomorrow at 2 PM' or 'next Friday afternoon'.", state)
  else if truthy_flag (requested_slot_past (ctx state)) then
    ("I notice that time has already passed. Would you like me to suggest some available times for today or upcoming days?", state)
  else
    match available_slots state with
    | None =>
        if truthy_flag (requested_slot_busy (ctx state)) then
          (* [for slot in None] raises, the handler of line 544 answers *)
          ("I had trouble processing your booking request. Please try again.", state)
        else
          ("I couldn't find any available slots for that time range. Would you like to try a different day or time?", state)
    | Some [] =>
        if truthy_flag (requested_slot_busy (ctx state)) then
          (join nl ["That time slot is not available. Here are some alternative times for that day:";
                    (nl ++ "Would you like to book one of these times?")%string], state)
        else
          ("I couldn't find any available slots for that time range. Would you like to try a different day or time?", state)
    | Some [slot] =>
        let start_time_local := s_start slot in
        let end_time_local := s_end slot in
        let formatted_time := strftime "%A, %B %d at %I:%M %p" start_time_local in
        let start_time_utc := astimezone_utc start_time_local in
        let end_time_utc := astimezone_utc end_time_local in
        let state :=
          set_confirmation state
            (mk_confirmation (isoformat start_time_utc) (isoformat end_time_utc)
                             "Meeting" EmptyString EmptyString (user_timezone state)) in
        (("Perfect! I can book a " ++ str_int (state_duration_minutes state)
          ++ "-minute meeting for " ++ formatted_time
          ++ ". Would you like me to confirm this booking?")%string, state)
    | Some slots =>
        let header :=
          ("Great! I found " ++ str_int (Z.of_nat (List.length slots))
           ++ " available " ++ str_int (state_duration_minutes state)
           ++ "-minute slots:")%string in
        let days_ :=
          map (fun day_times =>
                 ("**" ++ fst day_times ++ ":** " ++ join ", " (snd day_times))%string)
              (group_by_day slots) in
        (join nl (header :: days_ ++ [(nl ++ "Which time works best for you?")%string]),
         state)
    end.

Definition _generate_modification_response (state : ConversationState) : string :=
  "I can help you modify your appointments. Could you please specify which appointment you'd like to change and what modifications you need?".

Definition _generate_general_response (state : ConversationState) : string :=
  let user_message :=
    match last_message state with
    | Some m => content_of m
    | None => EmptyString
    end in
  match general_reply user_message with
  | Ok reply => strip reply
  | Raise _ =>
      "I'm here to help you manage your calendar! You can ask me to check your availability, book appointments, or modify existing ones. What would you like to do?"
  end.

(** *** [_generate_response] *)

(** Every generator catches its own exceptions and returns a string, so
    the handler of line 407 has nothing to catch. *)
Definition _generate_response (state : ConversationState) : ConversationState :=
  let '(response, state) :=
    match intent_ state with
    | Some check_availability_intent => (_generate_availability_response state, state)
    | Some book_appointment => _generate_booking_response state
    | Some modify_appointment => (_generate_modification_response state, state)
    | _ => (_generate_general_response state, state)
    end in
  set_messages state (messages state ++ [AIMessage response]).

(** *** The compiled graph *)

(** [parse_intent -> parse_datetime -> (check_availability ->)
    generate_response -> END] *)
Definition run_graph (initial : ConversationState) : G ConversationState :=
  let state := _parse_intent initial in
  state <~ of_M (_parse_datetime state) ;;
  match _decide_next_step state with
  | check_availability_node =>
      state <~ _check_availability state ;;
      gret (_generate_response state)
  | generate_response_node => gret (_generate_response state)
  end.

(** *** [process_message] *)

(** An entry of [conversation_history]; a key that is missing is [None]. *)
Record history_item : Type := mk_item {
  role : option string;
  content : option string;
  timestamp : option string
}.

(** The dictionary [process_message] returns; the keys differ between
    the normal return and the handler of line 160. *)
Record turn_result : Type := mk_result {
  r_conversation_history : list history_item;
  r_session_id : option string;
  r_needs_confirmation : option bool;
  r_confirmation_data : option confirmation;
  r_available_slots : option (list slot);
  r_response : option string;
  r_context : context
}.

(** [self.session_contexts], most recent assignment first. *)
Definition sessions : Type := list (string * context).

Fixpoint session_context (s : sessions) (session : string) : option context :=
  match s with
  | [] => None
  | (k, c) :: rest => if String.eqb k session then Some c else session_context rest session
  end.

(** Lines 117-122; a missing ["content"] raises [KeyError]. *)
Fixpoint to_messages (conversation_history : list history_item)
  : result (list message) :=
  match conversation_history with
  | [] => Ok []
  | item :: rest =>
      match content item with
      | None => Raise (mk_exn KeyError "'content'")
      | Some c =>
          let m := if match role item with
                      | Some r => String.eqb r "user"
                      | None => false
                      end
                   then HumanMessage c else AIMessage c in
          match to_messages rest with
          | Ok ms => Ok (m :: ms)
          | Raise e => Raise e
          end
      end
  end.

(** Lines 145-148. *)
Definition to_item (m : message) : history_item :=
  mk_item (Some (if is_human m then "user" else "assistant"))
          (Some (content_of m)) None.

Definition apology : string :=
  "I apologize, but I encountered an error. Please try again.".

Definition process_message (session_contexts : sessions)
    (session user_timezone_ : string) (conversation_history : list history_item)
  : G (turn_result * sessions) :=
  gtry
    (msgs <~ of_M (lift (to_messages conversation_history)) ;;
     let initial := initial_state msgs user_timezone_ session in
     let initial :=
       match session_context session_contexts session with
       | Some c => set_ctx initial c
       | None => initial
       end in
     final_state <~ run_graph initial ;;
     let session_contexts := (session, ctx final_state) :: session_contexts in
     gret (mk_result (map to_item (messages final_state))
                     (Some session)
                     (Some (needs_confirmation final_state))
                     (confirmation_data final_state)
                     (available_slots final_state)
                     None
                     (ctx final_state),
           session_contexts))
    (fun e =>
       gret (mk_result
               (conversation_history
                ++ [mk_item (Some "assistant") (Some apology) None])
               None None None None
               (Some apology)
               (mk_context (Some (str_exn e)) None None None None),
             session_contexts)).

End Nodes.

End Agent.

(** ** Booking: [CalendarService.create_event] and
    [CalendarAgent.execute_booking] *)

Module Booking.
Import DT Text Eff CalendarService Agent.

(** The body [create_event] sends to [events().insert], lines 275-290 of
    [calendar_service.py]: the texts, and the start and the end as
    [dateTime] strings.  The two [timeZone] entries are always ['UTC']
    and [reminders] is always [{'useDefault': True}]. *)
Record event_body : Type := mk_event_body {
  ev_summary : string;
  ev_description : string;
  ev_location : string;
  ev_start : string;
  ev_end : string
}.

(** What the code reads of the provider's answer:
    [created_event.get('id')] and [created_event.get('htmlLink')]. *)
Record created_event : Type := mk_created {
  created_id : option string;
  created_htmlLink : option string
}.

(** [service.events().insert(calendarId='primary', body=event).execute()] *)
Class EventsApi : Type := {
  events_insert : event_body -> result created_event
}.

(** The dictionary [create_event] returns. *)
Record event_details : Type := mk_details {
  d_id : option string;
  d_title : string;
  d_start : string;
  d_end : string;
  d_html_link : option string;
  d_status : string
}.

(** [confirmation_data] as [execute_booking] receives it: a dictionary
    whose keys may be missing.  The values are strings. *)
Record booking_request : Type := mk_request {
  q_start_time : option string;
  q_end_time : option string;
  q_title : option string;
  q_description : option string;
  q_location : option string;
  q_user_timezone : option string
}.

(** The confirmation data of the agent, sent back as they are. *)
Definition request_of (c : confirmation) : booking_request :=
  mk_request (Some (start_time c)) (Some (end_time c)) (Some (title c))
             (Some (description c)) (Some (location c))
             (Some (conf_user_timezone c)).

(** The dictionary [execute_booking] returns; [event_details] is present
    on success only. *)
Record booking_result : Type := mk_booking {
  b_status : string;
  b_message : string;
  b_event_details : option event_details
}.

(** [d.get(key, default)] *)
Definition get_or (o : option string) (default : string) : string :=
  match o with Some v => v | None => default end.

(** [d[key]]; a missing key raises [KeyError]. *)
Definition item (o : option string) (key : string) : result string :=
  match o with
  | Some v => Ok v
  | None => Raise (mk_exn KeyError ("'" ++ key ++ "'"))
  end.

(** The check mark U+2705 of the success message, in UTF-8. *)
Definition check_mark : string :=
  String (ascii_of_nat 226) (String (ascii_of_nat 156)
    (String (ascii_of_nat 133) EmptyString)).

Section WithCollaborators.
Context {tzdb : TzDatabase} {cal : Provider} {fmt : Formatting}
        {api : EventsApi} {iso : IsoFormat}.

(** [CalendarService.create_event], lines 263-314.  Both handlers log
    and re-raise.  Beside the result stands the list of the bodies sent
    to [events().insert] during the call. *)
Definition create_event (title_ : string) (start_time_ end_time_ : datetime)
    (description_ location_ : string)
  : result event_details * list event_body :=
  if negb is_authenticated then
    (Raise (mk_exn ValueError "Not authenticated"), [])
  else if negb (check_availability start_time_ end_time_) then
    (Raise (mk_exn ValueError "Time slot is not available"), [])
  else
    let start_utc := astimezone_utc start_time_ in
    let end_utc := astimezone_utc end_time_ in
    let event :=
      mk_event_body title_ description_ location_
                    (isoformat start_utc) (isoformat end_utc) in
    match events_insert event with
    | Raise e => (Raise e, [event])
    | Ok created =>
        (Ok (mk_details (created_id created) title_
                        (isoformat start_utc) (isoformat end_utc)
                        (created_htmlLink created) "created"),
         [event])
    end.

(** The [try] block of [execute_booking], lines 583-614 of [agent.py]. *)
Definition try_booking (confirmation_data : booking_request)
  : result booking_result * list event_body :=
  if negb is_authenticated then
    (Raise (mk_exn ValueError "Not authenticated with Google Calendar"), [])
  else
    match item (q_start_time confirmation_data) "start_time" with
    | Raise e => (Raise e, [])
    | Ok start_text =>
    match fromisoformat start_text with
    | Raise e => (Raise e, [])
    | Ok start_time_utc =>
    match item (q_end_time confirmation_data) "end_time" with
    | Raise e => (Raise e, [])
    | Ok end_text =>
    match fromisoformat end_text with
    | Raise e => (Raise e, [])
    | Ok end_time_utc =>
    match create_event (get_or (q_title confirmation_data) "Meeting")
                       start_time_utc end_time_utc
                       (get_or (q_description confirmation_data) EmptyString)
                       (get_or (q_location confirmation_data) EmptyString) with
    | (Raise e, sent) => (Raise e, sent)
    | (Ok result_, sent) =>
        let user_tz_str := get_or (q_user_timezone confirmation_data) "UTC" in
        match timezone user_tz_str with
        | Raise e => (Raise e, sent)
        | Ok user_tz =>
            let start_time_local := at_instant user_tz (instant start_time_utc) in
            let formatted_time_local :=
              strftime "%A, %B %d at %I:%M %p" start_time_local in
            let success_message :=
              (check_mark ++ " Done! Your meeting has been booked for *"
               ++ formatted_time_local ++ "* (" ++ user_tz_str
               ++ "). You should receive a calendar notification shortly.")%string in
            (Ok (mk_booking "success" success_message (Some result_)), sent)
        end
    end
    end end end end.

(** [CalendarAgent.execute_booking]: every exception of the block
    becomes a result with the status ["error"]. *)
Definition execute_booking (confirmation_data : booking_request)
    (session_id_ : string) : booking_result * list event_body :=
  match try_booking confirmation_data with
  | (Ok r, sent) => (r, sent)
  | (Raise e, sent) =>
      (mk_booking "error"
         ("I'm sorry, but I couldn't book your appointment: " ++ str_exn e
          ++ ". Please try again.")%string
         None,
       sent)
  end.

End WithCollaborators.

End Booking.

(** ** [backend/main.py]: the session store and the chat endpoints *)

Module Main.
Import DT Text Eff Utils CalendarService Agent Booking.

(** An entry of the global [sessions] dictionary, lines 88-93.
    [with_calendar_service] tells whether the key [calendar_service]
    holds the service or [None]. *)
Record session_data : Type := mk_session {
  conversation_history : list history_item;
  stored_context : context;
  authenticated : bool;
  with_calendar_service : bool
}.

Definition set_history (d : session_data) (h : list history_item)
  : session_data :=
  mk_session h (stored_context d) (authenticated d) (with_calendar_service d).

Definition set_stored_context (d : session_data) (c : context) : session_data :=
  mk_session (conversation_history d) c (authenticated d)
             (with_calendar_service d).

(** The dictionary [sessions], in insertion order. *)
Definition store : Type := list (string * session_data).

(** [sessions[session_id]] when the key is there *)
Fixpoint find_session (ss : store) (session_id_ : string)
  : option session_data :=
  match ss with
  | [] => None
  | (k, d) :: rest =>
      if String.eqb k session_id_ then Some d else find_session rest session_id_
  end.

(** [sessions[session_id] = d] *)
Fixpoint put (ss : store) (session_id_ : string) (d : session_data) : store :=
  match ss with
  | [] => [(session_id_, d)]
  | (k, v) :: rest =>
      if String.eqb k session_id_ then (k, d) :: rest
      else (k, v) :: put rest session_id_ d
  end.

(** [del sessions[session_id]] *)
Definition remove (ss : store) (session_id_ : string) : store :=
  filter (fun kv => negb (String.eqb (fst kv) session_id_)) ss.

(** The two objects the endpoints share: [sessions] and the contexts
    the agent keeps in [agent.session_contexts]. *)
Record app : Type := mk_app {
  sessions_ : store;
  agent_contexts : sessions
}.

(** The request and the response of [/chat]. *)
Record ChatMessage : Type := mk_message {
  cm_message : string;
  cm_session_id : string;
  cm_user_timezone : string
}.

Record ChatResponse : Type := mk_chat {
  cr_response : string;
  cr_session_id : string;
  cr_needs_confirmation : bool;
  cr_confirmation_data : option confirmation;
  cr_available_slots : option (list slot)
}.

(** The request of [/confirm-booking] and its two answers. *)
Record BookingConfirmation : Type := mk_booking_confirmation {
  bc_session_id : string;
  bc_confirmed : bool;
  bc_confirmation_data : booking_request
}.

Inductive confirm_reply : Type :=
  | Cancelled                      (* lines 222-225 *)
  | Booked (result_ : booking_result).

(** What leaves an endpoint: the value it returns, or an
    [HTTPException] with its status code (the detail is not kept). *)
Inductive http (A : Type) : Type :=
  | Answered (a : A)
  | HTTPException (status_code : Z).
Arguments Answered {A} a.
Arguments HTTPException {A} status_code.

(** What a [try] block of an endpoint raises: an [HTTPException] of
    its own, or another exception. *)
Inductive raised : Type :=
  | RaisedHTTP (status_code : Z)
  | RaisedOther (e : exn).

(** What [/confirm-booking] leaves behind: the answer, the two shared
    objects, and the bodies sent to [events().insert]. *)
Record confirm_outcome : Type := mk_outcome {
  answer : http confirm_reply;
  after : app;
  sent_bodies : list event_body
}.

Section Endpoints.
Context {tzdb : TzDatabase} {clock : WallClock} {du : Dateutil}
        {cal : Provider} {llm : LanguageModel} {fmt : Formatting}
        {api : EventsApi} {iso : IsoFormat}.

(** [get_session], lines 82-98: the entry of the session, created when
    it is missing; the second component is [sessions] afterwards. *)
Definition get_session (ss : store) (session_id_ : string)
  : session_data * store :=
  match find_session ss session_id_ with
  | Some d => (d, ss)
  | None =>
      let d := mk_session [] empty_context is_authenticated is_authenticated in
      (d, put ss session_id_ d)
  end.

(** The answer of the handler of line 202. *)
Definition error_response (session_id_ : string) (e : exn) : ChatResponse :=
  mk_chat ("I apologize, but I encountered an error: " ++ str_exn e
           ++ ". Please try again.")%string
          session_id_ false None None.

(** Lines 186-200: the answer built from the stored history and the
    result of the agent; [last_message["role"]] and
    [last_message["content"]] raise [KeyError] on a missing key. *)
Definition chat_reply (session_id_ : string) (history : list history_item)
    (response_data : turn_result) : result ChatResponse :=
  let answer_with assistant_response :=
    Ok (mk_chat assistant_response session_id_
                (match r_needs_confirmation response_data with
                 | Some b => b
                 | None => false
                 end)
                (r_confirmation_data response_data)
                (r_available_slots response_data)) in
  match last (map Some history) None with
  | None => answer_with EmptyString
  | Some last_message =>
      match role last_message with
      | None => Raise (mk_exn KeyError "'role'")
      | Some r =>
          if String.eqb r "assistant" then
            match content last_message with
            | None => Raise (mk_exn KeyError "'content'")
            | Some c => answer_with c
            end
          else answer_with EmptyString
      end
  end.

(** [chat_endpoint], lines 151-210.  The session entry is one object:
    appending to its history and assigning its keys change [sessions].
    An exception is answered by the handler of line 202, with the two
    shared objects as they are when it is raised. *)
Definition chat_endpoint (a : app) (message : ChatMessage)
  : G (ChatResponse * app) :=
  let id := cm_session_id message in
  let '(session, ss) := get_session (sessions_ a) id in
  if negb (authenticated session) then
    gret (mk_chat "Please connect to your Google Calendar first to use the assistant."
                  id false None None,
          mk_app ss (agent_contexts a))
  else
    now_ <~ of_M now_utc ;;
    let history :=
      conversation_history session
      ++ [mk_item (Some "user") (Some (cm_message message))
                  (Some (isoformat now_))] in
    let session := set_history session history in
    let ss := put ss id session in
    fun n =>
      match process_message (agent_contexts a) id (cm_user_timezone message)
                            history n with
      | (Diverges, n') => (Diverges, n')
      | (Raises e, n') =>
          (Returns (error_response id e, mk_app ss (agent_contexts a)), n')
      | (Returns (response_data, contexts), n') =>
          let session :=
            set_stored_context
              (set_history session (r_conversation_history response_data))
              (r_context response_data) in
          let a' := mk_app (put ss id session) contexts in
          match chat_reply id (conversation_history session) response_data with
          | Ok response_ => (Returns (response_, a'), n')
          | Raise e => (Returns (error_response id e, a'), n')
          end
      end.

(** The [try] block of [confirm_booking], lines 216-240. *)
Definition confirm_block (a : app) (confirmation_ : BookingConfirmation)
    (n : nat) : (raised + confirm_reply) * app * list event_body * nat :=
  let id := bc_session_id confirmation_ in
  let '(session, ss) := get_session (sessions_ a) id in
  if negb (authenticated session) then
    (inl (RaisedHTTP 401), mk_app ss (agent_contexts a), [], n)
  else if negb (bc_confirmed confirmation_) then
    (inr Cancelled, mk_app ss (agent_contexts a), [], n)
  else
    let '(result_, sent) :=
      execute_booking (bc_confirmation_data confirmation_) id in
    let now_ := mk_dt (reading n) (Some (mk_tz "UTC" 0)) in
    let session :=
      set_history session
        (conversation_history session
         ++ [mk_item (Some "assistant") (Some (b_message result_))
                     (Some (isoformat now_))]) in
    (inr (Booked result_), mk_app (put ss id session) (agent_contexts a),
     sent, S n).

(** [confirm_booking]: the handler of line 242 turns every exception of
    the block, its own [HTTPException] included, into one with the
    status 500. *)
Definition confirm_booking (a : app) (confirmation_ : BookingConfirmation)
    (n : nat) : confirm_outcome * nat :=
  match confirm_block a confirmation_ n with
  | (inr reply, a', sent, n') => (mk_outcome (Answered reply) a' sent, n')
  | (inl _, a', sent, n') => (mk_outcome (HTTPException 500) a' sent, n')
  end.

(** [get_conversation_history], lines 360-367. *)
Definition get_conversation_history (a : app) (session_id_ : string)
  : list history_item * app :=
  let '(session, ss) := get_session (sessions_ a) session_id_ in
  (conversation_history session, mk_app ss (agent_contexts a)).

(** [clear_session], lines 369-374. *)
Definition clear_session (a : app) (session_id_ : string) : app :=
  mk_app (remove (sessions_ a) session_id_) (agent_contexts a).

End Endpoints.

End Main.

(** ** An implementation of [isoformat] and [fromisoformat]

    The strings of the examples: [YYYY-MM-DDTHH:MM:SS], then [.ffffff]
    when the microseconds are not zero, then the offset [+HH:MM] of an
    aware datetime, as Python prints them; and the strings of the
    provider, whole seconds in UTC with the suffix [Z]. *)

Module IsoText.
Import DT Text.

(** Year, month and day of a day number (days since 1970-01-01), in the
    proleptic Gregorian calendar, and back. *)
Definition civil_of_days (days_ : Z) : Z * Z * Z :=
  let z := days_ + 719468 in
  let era := z / 146097 in
  let doe := z - era * 146097 in
  let yoe := (doe - doe / 1460 + doe / 36524 - doe / 146096) / 365 in
  let y := yoe + era * 400 in
  let doy := doe - (365 * yoe + yoe / 4 - yoe / 100) in
  let mp := (5 * doy + 2) / 153 in
  let d := doy - (153 * mp + 2) / 5 + 1 in
  let m := if mp <? 10 then mp + 3 else mp - 9 in
  (if m <=? 2 then y + 1 else y, m, d).

Definition days_of_civil (y m d : Z) : Z :=
  let y := if m <=? 2 then y - 1 else y in
  let era := y / 400 in
  let yoe := y - era * 400 in
  let doy := (153 * (if 2 <? m then m - 3 else m + 9) + 2) / 5 + d - 1 in
  let doe := yoe * 365 + yoe / 4 - yoe / 100 + doy in
  era * 146097 + doe - 719468.

Fixpoint zeros (n : nat) : string :=
  match n with
  | O => EmptyString
  | S n' => String "0" (zeros n')
  end.

(** A number in at least [width] digits. *)
Definition pad (width : nat) (n : Z) : string :=
  let s := str_of_Z n in
  (zeros (width - String.length s)%nat ++ s)%string.

Definition print_offset (off : Z) : string :=
  let sign := if off <? 0 then "-" else "+" in
  let m := Z.abs off / MINUTE in
  (sign ++ pad 2 (m / 60) ++ ":" ++ pad 2 (m mod 60))%string.

Definition print_iso (d : datetime) : string :=
  let '(y, m, dd) := civil_of_days (wall d / DAY) in
  let t := wall d mod DAY in
  let hh := t / HOUR in
  let mm := t mod HOUR / MINUTE in
  let ss := t mod MINUTE / SECOND in
  let us := t mod SECOND in
  let fraction := if us =? 0 then EmptyString else ("." ++ pad 6 us)%string in
  let offset :=
    match tz d with
    | Some t => print_offset (tz_offset t)
    | None => EmptyString
    end in
  (pad 4 y ++ "-" ++ pad 2 m ++ "-" ++ pad 2 dd ++ "T"
   ++ pad 2 hh ++ ":" ++ pad 2 mm ++ ":" ++ pad 2 ss
   ++ fraction ++ offset)%string.

Definition invalid (text : string) : exn :=
  mk_exn ValueError ("Invalid isoformat string: '" ++ text ++ "'").

(** The number written in [len] digits from position [pos] on. *)
Definition field (text : string) (pos len : nat) : option Z :=
  let s := substring pos len text in
  if Nat.eqb (String.length s) len then int_of_string s else None.

Definition sep (text : string) (pos : nat) (c : string) : bool :=
  String.eqb (substring pos 1 text) c.

(** The offset at the end of a string: nothing (a naive datetime) or
    [+HH:MM] or [-HH:MM]. *)
Definition read_offset (rest : string) : option (option tzinfo) :=
  match rest with
  | EmptyString => Some None
  | _ =>
      if Nat.eqb (String.length rest) 6 && sep rest 3 ":" then
        match field rest 1 2, field rest 4 2 with
        | Some h, Some m =>
            let off := (h * 60 + m) * MINUTE in
            if sep rest 0 "+" then
              Some (Some (mk_tz (if off =? 0 then "UTC" else ("UTC" ++ rest)%string) off))
            else if sep rest 0 "-" then
              Some (Some (mk_tz ("UTC" ++ rest)%string (- off)))
            else None
        | _, _ => None
        end
      else None
  end.

Definition read_iso (text : string) : result datetime :=
  match field text 0 4, field text 5 2, field text 8 2,
        field text 11 2, field text 14 2, field text 17 2 with
  | Some y, Some m, Some d, Some hh, Some mm, Some ss =>
      if sep text 4 "-" && sep text 7 "-" && sep text 10 "T"
         && sep text 13 ":" && sep text 16 ":" then
        let whole :=
          days_of_civil y m d * DAY + hh * HOUR + mm * MINUTE + ss * SECOND in
        let after_seconds := substring 19 (String.length text - 19)%nat text in
        let '(us, rest) :=
          if sep after_seconds 0 "." then
            (field after_seconds 1 6,
             substring 7 (String.length after_seconds - 7)%nat after_seconds)
          else (Some 0, after_seconds) in
        match us, read_offset rest with
        | Some us, Some zone => Ok (mk_dt (whole + us) zone)
        | _, _ => Raise (invalid text)
        end
      else Raise (invalid text)
  | _, _, _, _, _, _ => Raise (invalid text)
  end.

Definition python_iso : IsoFormat :=
  {| isoformat := print_iso; fromisoformat := read_iso |}.

(** The string of the provider for a UTC instant of whole seconds. *)
Definition z_text (u : Z) : string :=
  (substring 0 19 (print_iso (mk_dt u None)) ++ "Z")%string.

End IsoText.

(** ** Predicates of the statements and concrete environments *)

Module Fixtures.
Import DT CalendarService Text Re Eff Utils Agent IsoText.

(** *** Busy intervals as instants *)

(** A busy interval of the timeline, by the instants its two strings
    denote. *)
Record interval : Type := mk_interval { i_start : Z; i_end : Z }.

(** Orders on intervals and on carved pairs. *)
Definition by_start (a b : interval) : Prop := i_start a <= i_start b.
Definition by_end (a b : interval) : Prop := i_end a <= i_end b.

(** [before x y]: the pair [x] ends no later than [y] starts. *)
Definition before (x y : Z * Z) : Prop := snd x <= fst y.

(** No entry of the list starts, or ends, later than its right
    neighbour. *)
Fixpoint starts_nondecreasing (tl : list interval) : bool :=
  match tl with
  | a :: (b :: _) as rest => (i_start a <=? i_start b) && starts_nondecreasing rest
  | _ => true
  end.

Fixpoint ends_nondecreasing (tl : list interval) : bool :=
  match tl with
  | a :: (b :: _) as rest => (i_end a <=? i_end b) && ends_nondecreasing rest
  | _ => true
  end.

(** Every entry starts less than [delta] after each entry behind it:
    the list is in the order of the starts up to [delta]. *)
Fixpoint starts_within (delta : Z) (tl : list interval) : bool :=
  match tl with
  | [] => true
  | a :: rest =>
      forallb (fun b => i_start a <? i_start b + delta) rest
      && starts_within delta rest
  end.

(** An interval is well formed when it does not end before it starts. *)
Definition well_formed (p : interval) : Prop := i_start p <= i_end p.

Definition all_well_formed (l : list interval) : bool :=
  forallb (fun p => i_start p <=? i_end p) l.

(** A slot overlaps a busy interval under the half-open test. *)
Definition overlapping (s : slot) (b : interval) : bool :=
  overlaps (instant (s_start s)) (instant (s_end s)) (i_start b) (i_end b).

(** A slot starts strictly before another one. *)
Definition starts_before (s1 s2 : slot) : Prop :=
  instant (s_start s1) < instant (s_start s2).

(** The instants of a pair of datetimes. *)
Definition instants (p : datetime * datetime) : Z * Z :=
  (instant (fst p), instant (snd p)).

(** The [while] loop of lines 435-443 on instants, with step [delta]
    and without the checks of the range; [None] stands for a loop that
    is still running when the fuel is used up. *)
Fixpoint carve_instants (fuel : nat) (current_slot free_period_end delta : Z)
  : option (list (Z * Z)) :=
  if current_slot + delta <=? free_period_end then
    match fuel with
    | O => None
    | S fuel' =>
        match carve_instants fuel' (current_slot + delta) free_period_end delta with
        | Some rest => Some ((current_slot, current_slot + delta) :: rest)
        | None => None
        end
    end
  else Some [].

(** The gaps between the neighbours of a list of intervals, carved as
    the loop of lines 430-443 carves them. *)
Fixpoint carve_gaps (tl : list interval) (delta : Z) : option (list (Z * Z)) :=
  match tl with
  | a :: (b :: _) as rest =>
      match carve_instants (carve_fuel (i_end a) (i_start b) delta)
                           (i_end a) (i_start b) delta,
            carve_gaps rest delta with
      | Some here, Some later => Some (here ++ later)
      | _, _ => None
      end
  | _ => Some []
  end.

Section Reading.
Context {iso : IsoFormat}.

(** A string that [fromisoformat] reads, after the replacement of [Z],
    as a datetime with an offset. *)
Definition readable (text : string) : bool :=
  match parse_time text with
  | Ok d => aware d
  | Raise _ => false
  end.

(** The instant a string denotes. *)
Definition moment (text : string) : Z :=
  match parse_time text with
  | Ok d => instant d
  | Raise _ => 0
  end.

Definition readable_period (p : period) : bool :=
  readable (p_start p) && readable (p_end p).

(** A period of the timeline as an interval of instants. *)
Definition decode (p : period) : interval :=
  mk_interval (moment (p_start p)) (moment (p_end p)).

(** The marker of a window bound reads back as the instant of the
    bound. *)
Definition reads_back (d : datetime) : Prop :=
  moment (isoformat (astimezone_utc d)) = instant d.

(** The timeline of a call as the code sorts it, by the strings. *)
Definition timeline_of (busy : list period) (start_dt end_dt : datetime)
  : list period :=
  timeline busy (isoformat (astimezone_utc start_dt))
                (isoformat (astimezone_utc end_dt)).

End Reading.

(** A zone database that knows UTC only. *)
Definition utc_only : TzDatabase :=
  {| tz_known := fun name => String.eqb name "UTC";
     tz_utcoffset := fun _ _ => 0;
     tz_localoffset := fun _ _ => 0 |}.

(** The aware datetime of a UTC instant. *)
Definition utc (u : Z) : datetime := mk_dt u (Some (mk_tz "UTC" 0)).

(** An authenticated service whose calendar holds [busy]. *)
Definition calendar_with (busy : list period) : Provider :=
  {| is_authenticated := true;
     freebusy_query := fun _ _ => Ok busy |}.

(** A busy period as the provider writes it. *)
Definition z_period (from to : Z) : period :=
  mk_period (z_text from) (z_text to).

(** Two disjoint meetings, listed out of order. *)
Definition two_meetings : list period :=
  [z_period (minutes 60) (minutes 90); z_period (minutes 10) (minutes 30)].

(** A long meeting and a short one inside it. *)
Definition nested_meetings : list period :=
  [z_period (minutes 10) (minutes 100); z_period (minutes 20) (minutes 30)].

(** A period whose end is an hour before its start. *)
Definition reversed_meeting : list period :=
  [z_period (minutes 60) 0].

(** The clock time a datetime shows, as (hour, minute). *)
Definition clock_of (d : datetime) : Z * Z := (hour d, minute d).

(** The groups (start time, start marker, end time, end marker) of the
    first range pattern that matches the text. *)
Fixpoint first_range_match (patterns : list (regex * nat)) (text : string)
  : option (string * option string * string * option string) :=
  match patterns with
  | [] => None
  | (pattern, arity) :: rest =>
      match search true pattern text with
      | None => first_range_match rest text
      | Some m =>
          match range_groups arity m with
          | Some g => Some g
          | None => first_range_match rest text
          end
      end
  end.

(** Days from a day of weekday [current] to the nearest later day of
    weekday [day_num]: between 1 and 7. *)
Definition nearest_occurrence (day_num current : Z) : Z :=
  (day_num - current - 1) mod 7 + 1.

(** A clock that stands still at [u]. *)
Definition clock_at (u : Z) : WallClock := {| reading := fun _ => u |}.

(** A clock that shows [u] on its first two reads and [v] afterwards. *)
Definition clock_then (u v : Z) : WallClock :=
  {| reading := fun n => if Nat.ltb n 2 then u else v |}.

(** 2024-01-01T09:00:00Z, a Monday, and the same time a week and a day
    later, a Tuesday. *)
Definition monday_9am : Z := 1704099600 * SECOND.
Definition tuesday_9am : Z := monday_9am + days 8.

(** A dateutil that reads nothing from the text and returns the default. *)
Definition dateutil_default : Dateutil := {| fuzzy_parse := fun _ d => Ok d |}.

(** The environment of the examples: UTC, a clock standing at Monday
    2024-01-01 09:00, and a dateutil that returns its default. *)
Definition parse_on_monday (text : string) : result (option spec) * nat :=
  @parse utc_only (clock_at monday_9am) dateutil_default text "UTC" 0%nat.

(** An item with the two keys of the turn contract and one of the two
    roles the application writes. *)
Definition plain (item : history_item) : Prop :=
  (role item = Some "user" \/ role item = Some "assistant") /\
  content item <> None /\ timestamp item = None.

(** An item has the key [content]. *)
Definition has_content (item : history_item) : bool := is_some (content item).

(** An item as [process_message] hands it back, lines 119-122 and
    146-148: the role "user" stays, any other role, or none, becomes
    "assistant"; the content stays; no other key is kept. *)
Definition as_agent_reads (item : history_item) : history_item :=
  mk_item (Some (match role item with
                 | Some r => if String.eqb r "user" then "user" else "assistant"
                 | None => "assistant"
                 end))
          (content item) None.

(** A user turn as [main.py] writes it, with the time of the message. *)
Definition stamped_turn : list history_item :=
  [mk_item (Some "user") (Some "hello") (Some "2024-01-01T09:00:00+00:00")].

(** A value Python's [datetime] holds: between [datetime.min] and
    [datetime.max]. *)
Definition is_datetime (d : datetime) : bool :=
  (datetime_min <=? wall d) && (wall d <=? datetime_max).

(** [start + timedelta(minutes=duration)] exists: the duration is one a
    [timedelta] holds and the sum lies between [datetime.min] and
    [datetime.max]. *)
Definition in_range (start_ : datetime) (duration : Z) : bool :=
  (-999999999 <=? minutes duration / DAY)
  && (minutes duration / DAY <=? 999999999)
  && (datetime_min <=? wall start_ + minutes duration)
  && (wall start_ + minutes duration <=? datetime_max).

(** A node leaves the messages and the duration of the state alone. *)
Definition steady (s s' : ConversationState) : Prop :=
  messages s' = messages s /\
  state_duration_minutes s' = state_duration_minutes s.

(** A language model that is down, and one that always answers
    [book_appointment]. *)
Definition llm_down : LanguageModel :=
  {| intent_reply := fun _ => Raise (mk_exn OtherException "unavailable");
     availability_reply := fun _ _ => Raise (mk_exn OtherException "unavailable");
     general_reply := fun _ => Raise (mk_exn OtherException "unavailable") |}.

Definition llm_booking : LanguageModel :=
  {| intent_reply := fun _ => Ok "book_appointment";
     availability_reply := fun _ _ => Raise (mk_exn OtherException "unavailable");
     general_reply := fun _ => Raise (mk_exn OtherException "unavailable") |}.

(** A service without valid credentials. *)
Definition calendar_signed_out : Provider :=
  {| is_authenticated := false;
     freebusy_query := fun _ _ => Raise (mk_exn ValueError "Not authenticated") |}.

(** Formatting that prints nothing. *)
Definition no_formatting : Formatting :=
  {| strftime := fun _ _ => EmptyString;
     str_int := fun _ => EmptyString |}.

(** A state whose only message is the user's [text]. *)
Definition state_with (text : string) : ConversationState :=
  initial_state [HumanMessage text] "UTC" "s".

(** A history with one user turn. *)
Definition user_turn (text : string) : list history_item :=
  [mk_item (Some "user") (Some text) None].

(** *** Predicates and environments of the further properties *)


(** The UTC instants a slot spans. *)
Definition span (s : slot) : Z * Z := (instant (s_start s), instant (s_end s)).

(** [n] back-to-back pairs of length [delta], the first one at [from]. *)
Fixpoint tiles (n : nat) (from delta : Z) : list (Z * Z) :=
  match n with
  | O => []
  | S n' => (from, from + delta) :: tiles n' (from + delta) delta
  end.

(** A provider that reports, of the periods of [busy], those that touch
    the queried window, as a calendar does. *)
Definition calendar_of (busy : list period) : Provider :=
  {| is_authenticated := true;
     freebusy_query := fun time_min time_max =>
       Ok (filter (fun p =>
                     overlaps time_min time_max
                              (@moment python_iso (p_start p))
                              (@moment python_iso (p_end p)))
                  busy) |}.

(** A string of decimal digits. *)
Fixpoint all_digits (s : string) : bool :=
  match s with
  | EmptyString => true
  | String c s' => is_digit c && all_digits s'
  end.

(** A [relativedelta] for which a month is 30 days. *)
Definition thirty_day_months : Relativedelta :=
  {| plus_months := fun d k => add d (days (30 * k)) |}.

(** Tuesday 2024-01-02 from 12:00 to 12:45, and the whole of that day. *)
Definition lunch_tomorrow : spec :=
  mk_spec (utc (monday_9am + days 1 + 3 * HOUR))
          (utc (monday_9am + days 1 + 3 * HOUR + minutes 45))
          false None (Some 45) "lunch tomorrow at noon for 45 minutes".

Definition all_of_tomorrow : spec :=
  mk_spec (utc (monday_9am + days 1 - 9 * HOUR))
          (utc (monday_9am + days 2 - 9 * HOUR - 1))
          true (Some true) None "am i free tomorrow".

(** *** Predicates of the further properties of the conversation *)

(** The state the graph of a turn starts from: the defaults of the
    dataclass, with the context stored for the session, if any. *)
Definition turn_start (session_contexts : sessions) (session zone : string)
    (msgs : list message) : ConversationState :=
  match session_context session_contexts session with
  | Some c => set_ctx (initial_state msgs zone session) c
  | None => initial_state msgs zone session
  end.

(** The context says that a time in the past was asked for. *)
Definition past_flagged (c : context) : Prop :=
  requested_slot_past c = Some true.

(** A step of the graph that leaves the confirmation and the zone alone
    and does not take back a past flag. *)
Definition carries_over (s s' : ConversationState) : Prop :=
  needs_confirmation s' = needs_confirmation s /\
  confirmation_data s' = confirmation_data s /\
  user_timezone s' = user_timezone s /\
  (past_flagged (ctx s) -> past_flagged (ctx s')).

(** The confirmation data for a slot, lines 527-538. *)
Definition confirmation_of {iso : IsoFormat} (slot : slot) (zone : string)
  : confirmation :=
  mk_confirmation (isoformat (astimezone_utc (s_start slot)))
                  (isoformat (astimezone_utc (s_end slot)))
                  "Meeting" EmptyString EmptyString zone.

(** The day and the time a slot is listed under. *)
Definition day_key {fmt : Formatting} (slot : slot) : string :=
  strftime "%A, %B %d" (s_start slot).

Definition time_label {fmt : Formatting} (slot : slot) : string :=
  strftime "%I:%M %p" (s_start slot).

(** The time labels of the slots of a day, in the order of the slots. *)
Definition times_on {fmt : Formatting} (day : string) (slots : list slot)
  : list string :=
  map time_label (filter (fun slot => String.eqb (day_key slot) day) slots).

(** [slots_by_day.get(day, [])] *)
Fixpoint times_listed (day : string) (slots_by_day : list (string * list string))
  : list string :=
  match slots_by_day with
  | [] => []
  | (k, times) :: rest =>
      if String.eqb k day then times else times_listed day rest
  end.

(** A meeting on Tuesday 2024-01-02 from 12:00 to 13:00, and a state
    whose extracted datetime is the lunch of that day. *)
Definition lunch_meeting : period :=
  z_period (monday_9am + days 1 + 3 * HOUR) (monday_9am + days 1 + 4 * HOUR).

Definition asking_for_lunch : ConversationState :=
  set_extracted (state_with "lunch tomorrow at noon") (Some lunch_tomorrow).

(** The contexts of an agent whose session "s" asked for a time in the
    past. *)
Definition after_past_request : sessions := [("s", set_past empty_context)].

End Fixtures.
(** ** Predicates and environments for booking and the endpoints *)

Module AppFixtures.
Import DT CalendarService Text Eff Utils Agent Booking Main IsoText Fixtures.

(** Tuesday 2024-01-02 at 12:00 UTC, and the half-hour slot from then. *)
Definition tuesday_noon : Z := monday_9am + days 1 + 3 * HOUR.

Definition lunch_slot : slot :=
  mk_slot (utc tuesday_noon) (utc (tuesday_noon + minutes 30)).

Definition noon_text : string := "2024-01-02T12:00:00+00:00".
Definition half_past_noon_text : string := "2024-01-02T12:30:00+00:00".

(** A provider that accepts every event. *)
Definition events_accepted : EventsApi :=
  {| events_insert := fun _ => Ok (mk_created (Some "event-1") None) |}.

(** The body of the event for a slot, as [create_event] builds it from
    the confirmation data of the agent. *)
Definition meeting_for {iso : IsoFormat} (slot : slot) : event_body :=
  mk_event_body "Meeting" EmptyString EmptyString
                (isoformat (astimezone_utc (s_start slot)))
                (isoformat (astimezone_utc (s_end slot))).

(** The two strings of a busy period were read, and the period they
    denote does not overlap the span from [s] to [e]. *)
Definition clear_of {iso : IsoFormat} (s e : datetime) (p : period) : Prop :=
  exists busy_start busy_end,
    parse_time (p_start p) = Ok busy_start /\
    parse_time (p_end p) = Ok busy_end /\
    overlaps (instant s) (instant e) (instant busy_start) (instant busy_end)
    = false.

(** A request for the lunch slot in a zone the database does not know. *)
Definition lunch_on_mars : booking_request :=
  mk_request (Some noon_text) (Some half_past_noon_text) None None None
             (Some "Mars/Phobos").

(** The answer of [/chat] to a session that is not authenticated. *)
Definition please_connect (session_id_ : string) : ChatResponse :=
  mk_chat "Please connect to your Google Calendar first to use the assistant."
          session_id_ false None None.

(** An item of a history without a timestamp. *)
Definition no_timestamp (item : history_item) : Prop := timestamp item = None.

(** A session entry with an empty history and an empty context. *)
Definition fresh_session (authenticated_ : bool) : session_data :=
  mk_session [] empty_context authenticated_ authenticated_.

(** An application with one session, "s", that was created before the
    service was connected, and one with the session connected. *)
Definition locked_out : app := mk_app [("s", fresh_session false)] [].

Definition connected : app := mk_app [("s", fresh_session true)] [].

(** The message "hello" of session "s", and the confirmation of the
    lunch slot by that session. *)
Definition hello : ChatMessage := mk_message "hello" "s" "UTC".

Definition confirm_lunch : BookingConfirmation :=
  mk_booking_confirmation "s" true
    (request_of (@confirmation_of python_iso lunch_slot "UTC")).

End AppFixtures.

(** * Properties of the free-slot computation *)

Module CalendarServiceProofs.
Import DT CalendarService Fixtures.

(** ** The sort *)

Lemma insert_by_start_In x l y :
  In y (insert_by_start x l) <-> y = x \/ In y l.
Proof.
  induction l as [|z l IH]; simpl.
  - intuition congruence.
  - destruct (str_le (p_start x) (p_start z)); simpl.
    + intuition congruence.
    + rewrite IH. intuition congruence.
Qed.

Lemma sort_by_start_In l y : In y (sort_by_start l) <-> In y l.
Proof.
  induction l as [|x l IH]; simpl; [tauto|].
  rewrite insert_by_start_In, IH. intuition congruence.
Qed.

Lemma timeline_In busy st et p :
  In p (timeline busy st et) <->
  p = mk_period st st \/ In p busy \/ p = mk_period et et.
Proof.
  unfold timeline. rewrite sort_by_start_In. simpl. rewrite in_app_iff. simpl.
  intuition congruence.
Qed.

(** ** The carving loop *)

Lemma carve_total delta : 0 < delta ->
  forall fuel cur fe,
    (fe - cur) / delta <= Z.of_nat fuel ->
    exists l, carve_instants fuel cur fe delta = Some l.
Proof.
  intros Hd. induction fuel as [|fuel IH]; intros cur fe Hf; simpl.
  - destruct (cur + delta <=? fe) eqn:E; [|eauto].
    apply Z.leb_le in E. exfalso.
    assert (1 <= (fe - cur) / delta) by (apply Z.div_le_lower_bound; lia).
    lia.
  - destruct (cur + delta <=? fe) eqn:E; [|eauto].
    apply Z.leb_le in E.
    destruct (IH (cur + delta) fe) as [l Hl].
    + replace (fe - (cur + delta)) with ((fe - cur) + (-1) * delta) by lia.
      rewrite Z.div_add by lia. lia.
    + rewrite Hl. eauto.
Qed.

Lemma carve_fuel_enough delta fs fe : 0 < delta ->
  (fe - fs) / delta <= Z.of_nat (carve_fuel fs fe delta).
Proof.
  intros Hd. unfold carve_fuel.
  destruct (Z_le_gt_dec 0 ((fe - fs) / delta)).
  - rewrite Z2Nat.id by assumption. lia.
  - lia.
Qed.

Lemma carve_bounds delta : 0 < delta ->
  forall fuel cur fe l, carve_instants fuel cur fe delta = Some l ->
    Forall (fun s => snd s = fst s + delta /\ cur <= fst s /\ snd s <= fe) l.
Proof.
  intros Hd. induction fuel as [|fuel IH]; intros cur fe l; simpl.
  - destruct (cur + delta <=? fe); [discriminate|].
    intros [= <-]. constructor.
  - destruct (cur + delta <=? fe) eqn:E.
    + destruct (carve_instants fuel (cur + delta) fe delta) as [rest|] eqn:R; [|discriminate].
      intros [= <-]. apply Z.leb_le in E. constructor.
      * simpl. lia.
      * specialize (IH _ _ _ R). eapply Forall_impl; [|exact IH].
        simpl. intros s (? & ? & ?). lia.
    + intros [= <-]. constructor.
Qed.

Lemma carve_sorted delta : 0 < delta ->
  forall fuel cur fe l, carve_instants fuel cur fe delta = Some l ->
    StronglySorted before l.
Proof.
  intros Hd. induction fuel as [|fuel IH]; intros cur fe l; simpl.
  - destruct (cur + delta <=? fe); [discriminate|].
    intros [= <-]. constructor.
  - destruct (cur + delta <=? fe) eqn:E.
    + destruct (carve_instants fuel (cur + delta) fe delta) as [rest|] eqn:R; [|discriminate].
      intros [= <-]. constructor; [eauto|].
      pose proof (carve_bounds delta Hd _ _ _ _ R) as B.
      eapply Forall_impl; [|exact B]. unfold before. simpl.
      intros s (? & ? & ?). lia.
    + intros [= <-]. constructor.
Qed.


(** With a step that is not positive the loop returns no pair: it
    stops at once or never. *)
Lemma carve_instants_stuck delta : delta <= 0 ->
  forall fuel cur fe, cur + delta <= fe -> carve_instants fuel cur fe delta = None.
Proof.
  intros Hd. induction fuel as [|fuel IH]; intros cur fe E; simpl;
    replace (cur + delta <=? fe) with true by (symmetry; apply Z.leb_le; lia).
  - reflexivity.
  - rewrite IH by lia. reflexivity.
Qed.

Lemma carve_instants_nonpos delta : delta <= 0 ->
  forall fuel cur fe l, carve_instants fuel cur fe delta = Some l -> l = [].
Proof.
  intros Hd fuel cur fe l H.
  destruct (Z_le_gt_dec (cur + delta) fe) as [E|E].
  - rewrite (carve_instants_stuck delta Hd fuel cur fe E) in H. discriminate.
  - destruct fuel; simpl in H;
      replace (cur + delta <=? fe) with false in H by (symmetry; apply Z.leb_gt; lia);
      congruence.
Qed.

(** ** The gaps of a list of intervals *)

(** Every pair carved from a list lies in the gap between two
    neighbours of the list. *)
Lemma carve_gaps_in_gap delta : 0 < delta ->
  forall tl l, carve_gaps tl delta = Some l ->
    forall s, In s l ->
      snd s = fst s + delta /\
      exists pre a b post, tl = pre ++ a :: b :: post /\
                           i_end a <= fst s /\ snd s <= i_start b.
Proof.
  intros Hd. induction tl as [|a tl IH]; simpl; intros l Hl s Hs.
  - injection Hl as <-. destruct Hs.
  - destruct tl as [|b tl'].
    + injection Hl as <-. destruct Hs.
    + destruct (carve_instants _ (i_end a) (i_start b) delta) as [here|] eqn:Hh; [|discriminate].
      destruct (carve_gaps (b :: tl') delta) as [later|] eqn:Hla; [|discriminate].
      injection Hl as <-. apply in_app_or in Hs. destruct Hs as [Hs|Hs].
      * pose proof (carve_bounds delta Hd _ _ _ _ Hh) as B.
        rewrite Forall_forall in B. destruct (B s Hs) as (? & ? & ?).
        split; [assumption|]. exists [], a, b, tl'. simpl. auto.
      * destruct (IH later eq_refl s Hs) as (E & pre & x & y & post & Ht & ? & ?).
        split; [assumption|]. exists (a :: pre), x, y, post.
        simpl. rewrite Ht. auto.
Qed.

Lemma StronglySorted_app_inv {A} (R : A -> A -> Prop) l1 l2 :
  StronglySorted R (l1 ++ l2) ->
  StronglySorted R l1 /\ StronglySorted R l2 /\
  forall x y, In x l1 -> In y l2 -> R x y.
Proof.
  induction l1 as [|a l1 IH]; simpl; intros H.
  - repeat split; [constructor|assumption|intros ? ? []].
  - inversion H as [|? ? Hs Hall]; subst.
    destruct (IH Hs) as (S1 & S2 & C). rewrite Forall_forall in Hall.
    repeat split.
    + constructor; [assumption|].
      rewrite Forall_forall. intros x Hx. apply Hall, in_or_app. auto.
    + assumption.
    + intros x y [<-|Hx] Hy; [apply Hall, in_or_app; auto|auto].
Qed.

Lemma StronglySorted_app {A} (R : A -> A -> Prop) l1 l2 :
  StronglySorted R l1 -> StronglySorted R l2 ->
  (forall x y, In x l1 -> In y l2 -> R x y) ->
  StronglySorted R (l1 ++ l2).
Proof.
  induction l1 as [|a l1 IH]; simpl; intros S1 S2 C; [assumption|].
  inversion S1 as [|? ? Hs Hall]; subst. constructor.
  - apply IH; auto.
  - rewrite Forall_forall in *. intros x Hx.
    apply in_app_or in Hx. destruct Hx; auto.
Qed.

(** With well-formed intervals in the order of their starts up to
    the step, the pairs carved are strictly ascending by their starts. *)
Lemma carve_gaps_ascending delta : 0 < delta ->
  forall tl l, carve_gaps tl delta = Some l ->
    starts_within delta tl = true ->
    Forall well_formed tl ->
    StronglySorted (fun x y => fst x < fst y) l.
Proof.
  intros Hd. induction tl as [|a tl IH]; simpl; intros l Hl Hs Hwf.
  - injection Hl as <-. constructor.
  - destruct tl as [|b tl'].
    + injection Hl as <-. constructor.
    + destruct (carve_instants _ (i_end a) (i_start b) delta) as [here|] eqn:Hh; [|discriminate].
      destruct (carve_gaps (b :: tl') delta) as [later|] eqn:Hla; [|discriminate].
      injection Hl as <-.
      apply andb_true_iff in Hs. destruct Hs as [_ Hs'].
      inversion Hwf as [|? ? _ Hwf']; subst.
      pose proof (carve_bounds delta Hd _ _ _ _ Hh) as B. rewrite Forall_forall in B.
      apply StronglySorted_app.
      * pose proof (carve_sorted delta Hd _ _ _ _ Hh) as S.
        clear -S B Hd. induction S as [|x l _ IHS Hall]; constructor.
        -- apply IHS. intros y Hy. apply B. right. exact Hy.
        -- rewrite Forall_forall in *. intros y Hy. specialize (Hall y Hy).
           destruct (B x (or_introl eq_refl)) as (? & _ & _).
           unfold before in Hall. lia.
      * apply IH; auto.
      * intros x y Hx Hy.
        destruct (B x Hx) as (Ex & _ & Hxb).
        destruct (carve_gaps_in_gap delta Hd _ _ Hla y Hy)
          as (_ & pre & a' & b' & post & Ht & Hya & _).
        assert (Hin : In a' (b :: tl')) by (rewrite Ht; apply in_or_app; simpl; auto).
        rewrite Forall_forall in Hwf'. pose proof (Hwf' a' Hin) as Wa.
        unfold well_formed in Wa.
        assert (Hba : i_start b < i_start a' + delta).
        { destruct Hin as [<-|Hin]; [lia|].
          simpl in Hs'. apply andb_true_iff in Hs'. destruct Hs' as [Hs' _].
          rewrite forallb_forall in Hs'. apply Z.ltb_lt, Hs', Hin. }
        lia.
Qed.

(** ** Starts and ends that do not decrease along the timeline *)

Lemma starts_nondecreasing_sorted tl :
  starts_nondecreasing tl = true -> StronglySorted by_start tl.
Proof.
  intros H. apply Sorted_StronglySorted.
  - intros x y z. unfold by_start. lia.
  - induction tl as [|a tl IH]; [constructor|].
    destruct tl as [|b tl'].
    + constructor; constructor.
    + simpl in H. apply andb_true_iff in H. destruct H as [H1 H2].
      constructor; [auto|]. constructor. apply Z.leb_le, H1.
Qed.

Lemma ends_nondecreasing_sorted tl :
  ends_nondecreasing tl = true -> StronglySorted by_end tl.
Proof.
  intros H. apply Sorted_StronglySorted.
  - intros x y z. unfold by_end. lia.
  - induction tl as [|a tl IH]; [constructor|].
    destruct tl as [|b tl'].
    + constructor; constructor.
    + simpl in H. apply andb_true_iff in H. destruct H as [H1 H2].
      constructor; [auto|]. constructor. apply Z.leb_le, H1.
Qed.

(** A carved pair overlaps no entry of a list that is sorted by start
    and whose ends do not decrease. *)
Lemma carve_gaps_clear delta : 0 < delta ->
  forall tl l, carve_gaps tl delta = Some l ->
    StronglySorted by_start tl ->
    StronglySorted by_end tl ->
    forall s p, In s l -> In p tl ->
      overlaps (fst s) (snd s) (i_start p) (i_end p) = false.
Proof.
  intros Hd tl l Hl Hs He s p Hin Hp.
  destruct (carve_gaps_in_gap delta Hd _ _ Hl s Hin) as (_ & pre & a & b & post & -> & Ha & Hb).
  unfold overlaps. apply andb_false_iff.
  apply in_app_or in Hp. destruct Hp as [Hp|Hp].
  - left. apply Z.ltb_ge.
    destruct (StronglySorted_app_inv _ _ _ He) as (_ & _ & C).
    specialize (C p a Hp (or_introl eq_refl)). unfold by_end in C. lia.
  - destruct Hp as [<-|Hp].
    + left. apply Z.ltb_ge. lia.
    + right. apply Z.ltb_ge.
      destruct (StronglySorted_app_inv _ _ _ Hs) as (_ & S2 & _).
      inversion S2 as [|? ? S3 _]; subst.
      destruct Hp as [<-|Hp]; [lia|].
      inversion S3 as [|? ? _ Hall]; subst.
      rewrite Forall_forall in Hall. specialize (Hall p Hp).
      unfold by_start in Hall. lia.
Qed.


Lemma carve_gaps_nonpos delta : delta <= 0 ->
  forall tl l, carve_gaps tl delta = Some l -> l = [].
Proof.
  intros Hd. induction tl as [|a tl IH]; simpl; intros l Hl.
  - congruence.
  - destruct tl as [|b tl'].
    + congruence.
    + destruct (carve_instants _ (i_end a) (i_start b) delta) as [here|] eqn:Hh; [|discriminate].
      destruct (carve_gaps (b :: tl') delta) as [later|] eqn:Hla; [|discriminate].
      injection Hl as <-.
      rewrite (carve_instants_nonpos delta Hd _ _ _ _ Hh), (IH later eq_refl).
      reflexivity.
Qed.

Lemma minutes_pos d : 0 < d -> 0 < minutes d.
Proof. unfold minutes, MINUTE, SECOND. lia. Qed.

Lemma minutes_nonpos d : d <= 0 -> minutes d <= 0.
Proof. unfold minutes, MINUTE, SECOND. lia. Qed.

Lemma minutes_neg d : d < 0 -> minutes d < 0.
Proof. unfold minutes, MINUTE, SECOND. lia. Qed.

(** What the loop on instants returns does not depend on the fuel. *)
Lemma carve_instants_fuel delta : forall f1 f2 cur fe l1 l2,
  carve_instants f1 cur fe delta = Some l1 ->
  carve_instants f2 cur fe delta = Some l2 ->
  l1 = l2.
Proof.
  induction f1 as [|f1 IH]; intros f2 cur fe l1 l2; destruct f2; simpl;
    destruct (cur + delta <=? fe); try discriminate; try congruence.
  destruct (carve_instants f1 (cur + delta) fe delta) as [r1|] eqn:R1; [|discriminate].
  destruct (carve_instants f2 (cur + delta) fe delta) as [r2|] eqn:R2; [|discriminate].
  intros E1 E2. rewrite (IH _ _ _ _ _ R1 R2) in E1. congruence.
Qed.

(** What the loop returns with some fuel it returns with the fuel of
    the gap. *)
Lemma carve_instants_enough delta fuel cur fe l :
  carve_instants fuel cur fe delta = Some l ->
  carve_instants (carve_fuel cur fe delta) cur fe delta = Some l.
Proof.
  intros H. destruct (Z_lt_le_dec 0 delta) as [Hd|Hd].
  - destruct (carve_total delta Hd (carve_fuel cur fe delta) cur fe
                (carve_fuel_enough delta _ _ Hd)) as [l' Hl'].
    rewrite Hl'. f_equal. eapply carve_instants_fuel; eassumption.
  - destruct (Z_le_gt_dec (cur + delta) fe) as [E|E].
    + rewrite (carve_instants_stuck delta Hd fuel cur fe E) in H. discriminate.
    + assert (l = []) by (eapply carve_instants_nonpos; eassumption). subst l.
      destruct (carve_fuel cur fe delta); simpl;
        replace (cur + delta <=? fe) with false by (symmetry; apply Z.leb_gt; lia);
        reflexivity.
Qed.

(** ** The checks of the loop *)

Lemma timedelta_minutes_ok d delta :
  timedelta_minutes d = Ok delta -> delta = minutes d.
Proof.
  unfold timedelta_minutes.
  destruct ((-999999999 <=? minutes d / DAY) && (minutes d / DAY <=? 999999999));
    congruence.
Qed.

Lemma checked_add_ok x delta y :
  checked_add x delta = Ok y -> y = add x delta.
Proof.
  unfold checked_add.
  destruct ((datetime_min <=? wall x + delta) && (wall x + delta <=? datetime_max));
    congruence.
Qed.

Lemma checked_add_range x delta y :
  checked_add x delta = Ok y ->
  datetime_min <= wall x + delta <= datetime_max.
Proof.
  unfold checked_add.
  destruct ((datetime_min <=? wall x + delta) && (wall x + delta <=? datetime_max))
    eqn:E; [|discriminate].
  intros _. apply andb_true_iff in E. destruct E as [E1 E2].
  apply Z.leb_le in E1, E2. lia.
Qed.

Lemma le_checked_ok a b r :
  le_checked a b = Ok r -> r = (instant a <=? instant b).
Proof.
  unfold le_checked. destruct (Bool.eqb (aware a) (aware b)); congruence.
Qed.

Lemma lt_checked_ok a b r :
  lt_checked a b = Ok r -> r = (instant a <? instant b).
Proof.
  unfold lt_checked. destruct (Bool.eqb (aware a) (aware b)); congruence.
Qed.

Lemma instant_add x delta : instant (add x delta) = instant x + delta.
Proof. unfold instant, add, offset_of. simpl. lia. Qed.

Lemma carve_step fuel cur fe d :
  carve fuel cur fe d =
  match timedelta_minutes d with
  | Raise e => Raises e
  | Ok delta =>
      match checked_add cur delta with
      | Raise e => Raises e
      | Ok slot_end_utc =>
          match le_checked slot_end_utc fe with
          | Raise e => Raises e
          | Ok false => Returns []
          | Ok true =>
              match fuel with
              | O => Diverges
              | S fuel' =>
                  match carve fuel' slot_end_utc fe d with
                  | Returns rest => Returns ((cur, slot_end_utc) :: rest)
                  | Raises e => Raises e
                  | Diverges => Diverges
                  end
              end
          end
      end
  end.
Proof. destruct fuel; reflexivity. Qed.

(** A loop that returns has carved what the loop on instants carves. *)
Lemma carve_returns d : forall fuel cur fe l,
  carve fuel cur fe d = Returns l ->
  carve_instants fuel (instant cur) (instant fe) (minutes d) = Some (map instants l).
Proof.
  induction fuel as [|fuel IH]; intros cur fe l; rewrite carve_step;
    destruct (timedelta_minutes d) as [delta|x] eqn:T; try discriminate;
    apply timedelta_minutes_ok in T; subst delta;
    destruct (checked_add cur (minutes d)) as [e|x] eqn:A; try discriminate;
    apply checked_add_ok in A; subst e;
    destruct (le_checked (add cur (minutes d)) fe) as [r|x] eqn:L; try discriminate;
    apply le_checked_ok in L; rewrite instant_add in L; simpl; rewrite <- L;
    destruct r; try discriminate.
  - intros E. assert (l = []) by congruence. subst l. reflexivity.
  - destruct (carve fuel (add cur (minutes d)) fe d) as [rest|x|] eqn:R; try discriminate.
    intros E. assert (l = (cur, add cur (minutes d)) :: rest) by congruence. subst l.
    apply IH in R. rewrite instant_add in R. rewrite R.
    cbn [map].
    change (instants (cur, add cur (minutes d)))
      with (instant cur, instant (add cur (minutes d))).
    rewrite instant_add. reflexivity.
  - intros E. assert (l = []) by congruence. subst l. reflexivity.
Qed.

(** With a positive duration and enough fuel the loop ends. *)
Lemma carve_ends d : 0 < d ->
  forall fuel cur fe,
    (instant fe - instant cur) / minutes d <= Z.of_nat fuel ->
    carve fuel cur fe d <> Diverges.
Proof.
  intros Hd. pose proof (minutes_pos d Hd) as Hm.
  induction fuel as [|fuel IH]; intros cur fe Hf; rewrite carve_step;
    destruct (timedelta_minutes d) as [delta|x] eqn:T; try discriminate;
    apply timedelta_minutes_ok in T; subst delta;
    destruct (checked_add cur (minutes d)) as [e|x] eqn:A; try discriminate;
    apply checked_add_ok in A; subst e;
    destruct (le_checked (add cur (minutes d)) fe) as [r|x] eqn:L; try discriminate;
    apply le_checked_ok in L; rewrite instant_add in L;
    destruct r; try discriminate; symmetry in L; apply Z.leb_le in L.
  - exfalso.
    assert (1 <= (instant fe - instant cur) / minutes d)
      by (apply Z.div_le_lower_bound; lia).
    lia.
  - destruct (carve fuel (add cur (minutes d)) fe d) as [rest|x|] eqn:R; try discriminate.
    exfalso. revert R. apply IH. rewrite instant_add.
    replace (instant fe - (instant cur + minutes d))
      with ((instant fe - instant cur) + (-1) * minutes d) by lia.
    rewrite Z.div_add by lia. lia.
Qed.

(** With a negative duration the sum leaves the range of [datetime]
    before the fuel is used up. *)
Lemma carve_ends_neg d : d < 0 ->
  forall fuel cur fe,
    (wall cur - datetime_min) / (- minutes d) <= Z.of_nat fuel ->
    carve fuel cur fe d <> Diverges.
Proof.
  intros Hd. pose proof (minutes_neg d Hd) as Hm.
  induction fuel as [|fuel IH]; intros cur fe Hf; rewrite carve_step;
    destruct (timedelta_minutes d) as [delta|x] eqn:T; try discriminate;
    apply timedelta_minutes_ok in T; subst delta;
    destruct (checked_add cur (minutes d)) as [e|x] eqn:A; try discriminate;
    pose proof (checked_add_range _ _ _ A) as Hr;
    apply checked_add_ok in A; subst e;
    destruct (le_checked (add cur (minutes d)) fe) as [[|]|x]; try discriminate.
  - exfalso.
    assert (1 <= (wall cur - datetime_min) / (- minutes d))
      by (apply Z.div_le_lower_bound; lia).
    lia.
  - destruct (carve fuel (add cur (minutes d)) fe d) as [rest|x|] eqn:R; try discriminate.
    exfalso. revert R. apply IH. unfold add. simpl wall.
    replace (wall cur + minutes d - datetime_min)
      with ((wall cur - datetime_min) + (-1) * (- minutes d)) by lia.
    rewrite Z.div_add by lia. lia.
Qed.

Lemma loop_fuel_pos cur fe delta : 0 < delta ->
  loop_fuel cur fe delta = carve_fuel (instant cur) (instant fe) delta.
Proof.
  intros Hd. unfold loop_fuel.
  replace (delta <? 0) with false by (symmetry; apply Z.ltb_ge; lia).
  reflexivity.
Qed.

Lemma loop_fuel_neg cur fe delta : delta < 0 ->
  loop_fuel cur fe delta = Z.to_nat ((wall cur - datetime_min) / (- delta)).
Proof.
  intros Hd. unfold loop_fuel.
  replace (delta <? 0) with true by (symmetry; apply Z.ltb_lt; lia).
  reflexivity.
Qed.

(** With a duration other than zero the loop ends. *)
Lemma carve_loop_ends d cur fe : d <> 0 ->
  carve (loop_fuel cur fe (minutes d)) cur fe d <> Diverges.
Proof.
  intros Hd. destruct (Z_lt_le_dec 0 d) as [Hp|Hn].
  - rewrite loop_fuel_pos by (apply minutes_pos, Hp).
    apply carve_ends; [exact Hp|]. apply carve_fuel_enough, minutes_pos, Hp.
  - assert (Hneg : d < 0) by lia.
    rewrite loop_fuel_neg by (apply minutes_neg, Hneg).
    apply carve_ends_neg; [exact Hneg|].
    pose proof (minutes_neg d Hneg).
    destruct (Z_le_gt_dec 0 ((wall cur - datetime_min) / - minutes d)).
    + rewrite Z2Nat.id by assumption. lia.
    + lia.
Qed.

Section Reading.
Context {iso : IsoFormat}.

(** ** From the strings to the instants *)

Lemma readable_moment text :
  readable text = true ->
  exists d, parse_time text = Ok d /\ aware d = true /\ instant d = moment text.
Proof.
  unfold readable, moment. destruct (parse_time text) as [d|x]; [|discriminate].
  intros H. exists d. auto.
Qed.

Lemma parsed_moment text d : parse_time text = Ok d -> moment text = instant d.
Proof. unfold moment. intros ->. reflexivity. Qed.

Lemma carve_all_step a b tl' d :
  carve_all (a :: b :: tl') d =
  match parse_time (p_end a) with
  | Raise e => Raises e
  | Ok free_period_start =>
      match parse_time (p_start b) with
      | Raise e => Raises e
      | Ok free_period_end =>
          match carve (loop_fuel free_period_start free_period_end (minutes d))
                      free_period_start free_period_end d with
          | Returns here =>
              match carve_all (b :: tl') d with
              | Returns later => Returns (here ++ later)
              | Raises e => Raises e
              | Diverges => Diverges
              end
          | Raises e => Raises e
          | Diverges => Diverges
          end
      end
  end.
Proof. reflexivity. Qed.

(** What the loops return is carved from the gaps of the intervals the
    strings of the timeline denote. *)
Lemma carve_all_decoded d : forall tl l,
  carve_all tl d = Returns l ->
  carve_gaps (map decode tl) (minutes d) = Some (map instants l).
Proof.
  induction tl as [|a tl IH]; intros l.
  { intros E. assert (l = []) by (simpl in E; congruence). subst l. reflexivity. }
  destruct tl as [|b tl'].
  { intros E. assert (l = []) by (simpl in E; congruence). subst l. reflexivity. }
  rewrite carve_all_step.
  destruct (parse_time (p_end a)) as [da|x] eqn:Pa; [|discriminate].
  destruct (parse_time (p_start b)) as [db|x] eqn:Pb; [|discriminate].
  destruct (carve _ da db d) as [here|x|] eqn:Hh; try discriminate.
  destruct (carve_all (b :: tl') d) as [later|x|] eqn:Hl; try discriminate.
  intros E. assert (l = here ++ later) by congruence. subst l.
  apply carve_returns, carve_instants_enough in Hh. specialize (IH later eq_refl).
  change (carve_gaps (map decode (a :: b :: tl')) (minutes d)) with
    (match carve_instants (carve_fuel (moment (p_end a)) (moment (p_start b)) (minutes d))
                 (moment (p_end a)) (moment (p_start b)) (minutes d),
           carve_gaps (map decode (b :: tl')) (minutes d) with
     | Some here, Some later => Some (here ++ later)
     | _, _ => None
     end).
  rewrite (parsed_moment _ _ Pa), (parsed_moment _ _ Pb), Hh, IH, map_app.
  reflexivity.
Qed.

Lemma carve_all_ends d : d <> 0 ->
  forall tl, carve_all tl d <> Diverges.
Proof.
  intros Hd. induction tl as [|a tl IH]; [discriminate|].
  destruct tl as [|b tl']; [discriminate|].
  rewrite carve_all_step.
  destruct (parse_time (p_end a)) as [da|x]; [|discriminate].
  destruct (parse_time (p_start b)) as [db|x]; [|discriminate].
  destruct (carve _ da db d) as [here|x|] eqn:Hh; try discriminate.
  - destruct (carve_all (b :: tl') d) as [later|x|];
      [discriminate|discriminate|].
    exfalso. apply IH. reflexivity.
  - exfalso. revert Hh. apply carve_loop_ends, Hd.
Qed.

End Reading.

Section WithTz.
Context {tzdb : TzDatabase} {iso : IsoFormat}.

Lemma instant_astimezone_utc d : instant (astimezone_utc d) = instant d.
Proof. unfold astimezone_utc, instant, offset_of. simpl. lia. Qed.

Lemma instant_at_instant zone u : instant (at_instant zone u) = u.
Proof. unfold at_instant, instant, offset_of. simpl. lia. Qed.

Lemma instant_astimezone d t : instant (astimezone d t) = instant d.
Proof.
  unfold astimezone. destruct t as [ti|].
  - destruct (String.eqb (tz_zone ti) "UTC").
    + apply instant_astimezone_utc.
    + apply instant_at_instant.
  - apply instant_astimezone_utc.
Qed.

Lemma aware_astimezone d t : aware (astimezone d t) = true.
Proof.
  unfold astimezone. destruct t as [ti|]; [|reflexivity].
  destruct (String.eqb (tz_zone ti) "UTC"); reflexivity.
Qed.

Lemma instant_localize_utc d : aware d = false -> instant (localize_utc d) = instant d.
Proof.
  unfold aware, localize_utc, instant, offset_of. simpl.
  destruct (tz d); [discriminate|]. reflexivity.
Qed.

Lemma astimezone_utc_localized d :
  astimezone_utc (if aware d then d else localize_utc d) = astimezone_utc d.
Proof.
  destruct (aware d) eqn:E; [reflexivity|].
  unfold astimezone_utc. rewrite (instant_localize_utc d E). reflexivity.
Qed.

(** The slots of [free_slots_of] are the carved pairs, seen through
    [instant]. *)
Lemma free_slots_of_instants busy start_dt end_dt d slots :
  free_slots_of busy start_dt end_dt d = Returns slots ->
  exists l,
    carve_all (timeline_of busy start_dt end_dt) d = Returns l /\
    map span slots = map instants l.
Proof.
  unfold free_slots_of, timeline_of.
  destruct (carve_all _ _) as [l|x|]; try discriminate.
  intros E. exists l. split; [reflexivity|].
  assert (slots = map (fun '(slot_start_utc, slot_end_utc) =>
                         mk_slot (astimezone slot_start_utc (tz start_dt))
                                 (astimezone slot_end_utc (tz start_dt))) l)
    by congruence.
  subst slots. rewrite map_map. apply map_ext.
  intros [a b]. unfold span, instants. simpl. rewrite !instant_astimezone.
  reflexivity.
Qed.

(** The slots of [free_slots_of] carry an offset. *)
Lemma free_slots_of_aware busy start_dt end_dt d slots :
  free_slots_of busy start_dt end_dt d = Returns slots ->
  forall s, In s slots -> aware (s_start s) = true /\ aware (s_end s) = true.
Proof.
  unfold free_slots_of.
  destruct (carve_all _ _) as [l|x|]; try discriminate.
  intros E s Hs.
  assert (slots = map (fun '(slot_start_utc, slot_end_utc) =>
                         mk_slot (astimezone slot_start_utc (tz start_dt))
                                 (astimezone slot_end_utc (tz start_dt))) l)
    by congruence.
  subst slots. apply in_map_iff in Hs. destruct Hs as ([a b] & <- & _).
  simpl. split; apply aware_astimezone.
Qed.

Lemma free_slots_of_ends busy start_dt end_dt d : d <> 0 ->
  free_slots_of busy start_dt end_dt d <> Diverges.
Proof.
  intros Hd. unfold free_slots_of.
  destruct (carve_all _ _) as [l|x|] eqn:C; try discriminate.
  exfalso. revert C. apply carve_all_ends, Hd.
Qed.

(** What [free_slots_of] returns is carved from the gaps of the
    intervals of the timeline. *)
Lemma free_slots_of_decoded busy start_dt end_dt d slots :
  free_slots_of busy start_dt end_dt d = Returns slots ->
  carve_gaps (map decode (timeline_of busy start_dt end_dt)) (minutes d)
  = Some (map span slots).
Proof.
  intros F. destruct (free_slots_of_instants _ _ _ _ _ F) as (l & C & ->).
  apply carve_all_decoded, C.
Qed.

(** ** The point check *)

(** On busy periods whose strings can be read the loop of
    [check_availability] is the overlap test on their intervals. *)
Lemma no_overlap_decoded s e : aware s = true -> aware e = true ->
  forall busy, forallb readable_period busy = true ->
    no_overlap s e busy =
    Ok (negb (existsb (fun p => overlaps (instant s) (instant e)
                                         (i_start (decode p)) (i_end (decode p)))
                      busy)).
Proof.
  intros As Ae. induction busy as [|p busy IH]; intros Hr; [reflexivity|].
  simpl in Hr. apply andb_true_iff in Hr. destruct Hr as [Hp Hr].
  unfold readable_period in Hp. apply andb_true_iff in Hp. destruct Hp as [H1 H2].
  destruct (readable_moment _ H1) as (d1 & P1 & A1 & M1).
  destruct (readable_moment _ H2) as (d2 & P2 & A2 & M2).
  simpl. rewrite P1, P2. unfold lt_checked. rewrite As, Ae, A1, A2. simpl Bool.eqb.
  cbv iota. rewrite M1, M2, (IH Hr). unfold overlaps.
  destruct (instant s <? moment (p_end p)); simpl; [|reflexivity].
  destruct (moment (p_start p) <? instant e); reflexivity.
Qed.

Context {cal : Provider}.

(** ** [find_free_slots] *)

(** What [find_free_slots] returns is carved from the gaps of the
    intervals of the timeline of the call. *)
Lemma find_free_slots_decoded start_dt end_dt d slots :
  find_free_slots (start_dt, end_dt) d = Returns slots ->
  exists busy,
    freebusy_query (instant start_dt) (instant end_dt) = Ok busy /\
    carve_gaps (map decode (timeline_of busy start_dt end_dt)) (minutes d)
    = Some (map span slots).
Proof.
  unfold find_free_slots.
  destruct (negb is_authenticated); [discriminate|].
  rewrite !astimezone_utc_localized, !instant_astimezone_utc.
  destruct (freebusy_query _ _) as [busy|x]; [|discriminate].
  intros F. apply free_slots_of_decoded in F.
  exists busy. split; [reflexivity|].
  unfold timeline_of in *. rewrite !astimezone_utc_localized in F. exact F.
Qed.


Lemma find_free_slots_aware start_dt end_dt d slots :
  find_free_slots (start_dt, end_dt) d = Returns slots ->
  forall s, In s slots -> aware (s_start s) = true /\ aware (s_end s) = true.
Proof.
  unfold find_free_slots.
  destruct (negb is_authenticated); [discriminate|].
  destruct (freebusy_query _ _) as [busy|x]; [|discriminate].
  apply free_slots_of_aware.
Qed.

Lemma in_span (s : slot) slots : In s slots -> In (span s) (map span slots).
Proof. apply (in_map span). Qed.

End WithTz.

End CalendarServiceProofs.
(** * Properties of the parser *)

Module UtilsProofs.
Import DT Text Re Eff Utils Fixtures.

(** ** Datetime arithmetic *)

Lemma replace_ok d h m s us d' :
  replace d h m s us = Ok d' ->
  wall d' = date d * DAY + h * HOUR + m * MINUTE + s * SECOND + us /\
  tz d' = tz d /\
  (0 <= h <= 23) /\ (0 <= m <= 59) /\ (0 <= s <= 59) /\ (0 <= us <= 999999).
Proof.
  unfold replace.
  destruct ((0 <=? h) && (h <=? 23)) eqn:Hh; simpl; [|discriminate].
  destruct ((0 <=? m) && (m <=? 59)) eqn:Hm; simpl; [|discriminate].
  destruct ((0 <=? s) && (s <=? 59)) eqn:Hs; simpl; [|discriminate].
  destruct ((0 <=? us) && (us <=? 999999)) eqn:Hu; simpl; [|discriminate].
  intros [= <-]. simpl.
  apply andb_true_iff in Hh, Hm, Hs, Hu.
  rewrite !Z.leb_le in *. intuition.
Qed.

Lemma replace_midnight d :
  replace d 0 0 0 0 = Ok (mk_dt (date d * DAY) (tz d)).
Proof. unfold replace. simpl. do 2 f_equal. lia. Qed.

Ltac unfold_units := unfold DAY, HOUR, MINUTE, SECOND in *.

Lemma date_of_wall w t k :
  0 <= k < DAY -> date (mk_dt (w * DAY + k) t) = w.
Proof.
  unfold date. simpl. intros Hk.
  symmetry. apply (Z.div_unique _ _ w k); [left; exact Hk | lia].
Qed.

Lemma date_replace d h m s us d' :
  replace d h m s us = Ok d' -> date d' = date d.
Proof.
  intros H. apply replace_ok in H.
  destruct H as (Hw & _ & Hh & Hm & Hs & Hu).
  unfold date at 1. rewrite Hw.
  symmetry.
  apply (Z.div_unique _ _ (date d) (h * HOUR + m * MINUTE + s * SECOND + us)).
  - left. unfold_units. lia.
  - lia.
Qed.

Lemma clock_replace d h m d' :
  replace d h m 0 0 = Ok d' -> clock_of d' = (h, m).
Proof.
  intros H. apply replace_ok in H.
  destruct H as (Hw & _ & Hh & Hm & _ & _).
  unfold clock_of, hour, minute. rewrite Hw. f_equal.
  - assert (E : (date d * DAY + h * HOUR + m * MINUTE + 0 * SECOND + 0) mod DAY
                = h * HOUR + m * MINUTE).
    { symmetry. apply (Z.mod_unique _ _ (date d)); [left; unfold_units; lia | lia]. }
    rewrite E. symmetry.
    apply (Z.div_unique _ _ h (m * MINUTE)); [left; unfold_units; lia | lia].
  - assert (E : (date d * DAY + h * HOUR + m * MINUTE + 0 * SECOND + 0) mod HOUR
                = m * MINUTE).
    { symmetry. apply (Z.mod_unique _ _ (date d * 24 + h));
        [left; unfold_units; lia | unfold_units; lia]. }
    rewrite E. symmetry.
    apply (Z.div_unique _ _ m 0); [left; unfold_units; lia | lia].
Qed.

Lemma date_add_days d k : date (add d (days k)) = date d + k.
Proof.
  unfold date, add, days. simpl.
  rewrite Z.div_add by (unfold_units; lia). reflexivity.
Qed.

Lemma weekday_range d : 0 <= weekday d < 7.
Proof. unfold weekday. apply Z.mod_pos_bound. lia. Qed.

Section WithEnv.
Context {tzdb : TzDatabase}.

Lemma aware_at_instant zone u : aware (at_instant zone u) = true.
Proof. reflexivity. Qed.

Lemma aware_localize zone d : aware (localize zone d) = true.
Proof. reflexivity. Qed.

Lemma aware_add d k : aware (add d k) = aware d.
Proof. reflexivity. Qed.

Lemma aware_replace d h m s us d' :
  replace d h m s us = Ok d' -> aware d' = aware d.
Proof.
  intros H. apply replace_ok in H. destruct H as (_ & Ht & _).
  unfold aware. rewrite Ht. reflexivity.
Qed.

Lemma aware_or_localize zone d :
  aware (if aware d then d else localize zone d) = true.
Proof. destruct (aware d) eqn:E; [exact E | reflexivity]. Qed.

End WithEnv.

(** ** Durations *)

Lemma digits_value_nonneg s : forall acc v,
  0 <= acc -> digits_value acc s = Some v -> 0 <= v.
Proof.
  induction s as [|c s IH]; simpl; intros acc v Hacc.
  - intros [= <-]. exact Hacc.
  - destruct (is_digit c) eqn:E; [|discriminate].
    intros H. apply (IH (10 * acc + (code c - 48)) v); [|exact H].
    unfold is_digit in E. apply andb_true_iff in E.
    rewrite !Z.leb_le in E. lia.
Qed.

Lemma int_group1_nonneg m : 0 <= int_group1 m.
Proof.
  unfold int_group1. destruct (group m 1) as [g|]; [|lia].
  destruct (int_of_string g) as [v|] eqn:E; [|lia].
  unfold int_of_string in E. destruct g; [discriminate|].
  eapply digits_value_nonneg; [|exact E]. lia.
Qed.

Lemma first_amount_nonneg patterns text scale d :
  0 <= scale -> first_amount patterns text scale = Some d -> 0 <= d.
Proof.
  intros Hs. induction patterns as [|p ps IH]; simpl; [discriminate|].
  destruct (search true p text) as [m|].
  - intros [= <-]. pose proof (int_group1_nonneg m). lia.
  - exact IH.
Qed.

Lemma extract_duration_nonneg text d :
  extract_duration text = Some d -> 0 <= d.
Proof.
  unfold extract_duration.
  destruct (matches true one_hour_re text); [intros [= <-]; lia|].
  destruct (first_amount hour_patterns text 60) as [h|] eqn:E.
  - intros [= <-]. eapply first_amount_nonneg; [|exact E]. lia.
  - apply first_amount_nonneg. lia.
Qed.

Lemma minutes_nonneg d : 0 <= d -> 0 <= minutes d.
Proof. unfold minutes. unfold_units. lia. Qed.

Lemma or_int_extract_duration_pos text :
  0 < or_int (extract_duration text) 30.
Proof.
  unfold or_int. destruct (extract_duration text) as [v|] eqn:E; [|lia].
  apply extract_duration_nonneg in E.
  destruct (v =? 0) eqn:Z0; [lia|]. apply Z.eqb_neq in Z0. lia.
Qed.


(** ** The parser, function by function *)

Ltac munfold :=
  unfold bind, lift, ret, raise, try_except, now, timezone in *.

Section Parser.
Context {tzdb : TzDatabase} {clock : WallClock} {du : Dateutil}.

(** [_parse_date_part] reads the clock once, unless the zone is unknown,
    and what it returns is aware. *)
Lemma _parse_date_part_ok text zone n d n' :
  _parse_date_part text zone n = (Ok d, n') ->
  n' = S n /\ aware d = true /\ tz_known zone = true.
Proof.
  unfold _parse_date_part. munfold.
  destruct (tz_known zone); [|discriminate].
  destruct (first_in relative_patterns text) as [[phrase k]|].
  { destruct (replace _ 0 0 0 0) as [d0|e] eqn:R; [|discriminate].
    intros [= <- <-]. apply aware_replace in R. auto. }
  destruct (first_in weekday_patterns text) as [[wd k]|].
  { destruct (replace _ 0 0 0 0) as [d0|e] eqn:R; [|discriminate].
    intros [= <- <-]. apply aware_replace in R. auto. }
  destruct (fuzzy_parse text _) as [p|e].
  - intros [= <- <-]. rewrite aware_or_localize. auto.
  - destruct (value_or_type_error e); [|discriminate].
    intros [= <- <-]. auto.
Qed.

Lemma _parse_date_part_reads text zone n :
  snd (_parse_date_part text zone n) = n \/
  snd (_parse_date_part text zone n) = S n.
Proof.
  unfold _parse_date_part. munfold.
  destruct (tz_known zone); [|auto].
  destruct (first_in relative_patterns text) as [[phrase k]|].
  { destruct (replace _ 0 0 0 0); auto. }
  destruct (first_in weekday_patterns text) as [[wd k]|].
  { destruct (replace _ 0 0 0 0); auto. }
  destruct (fuzzy_parse text _) as [p|e]; [auto|].
  destruct (value_or_type_error e); auto.
Qed.

(** The two parts of a date range carry the zone of [now] or are the
    same aware datetime. *)
Lemma _get_date_range_from_text_ok text now_ n s e n' :
  aware now_ = true ->
  _get_date_range_from_text text now_ n = (Ok (s, e), n') ->
  aware s = true /\ aware e = true /\ tz s = tz e /\
  (date e = date s + 6 \/ e = s).
Proof.
  intros Hn. unfold _get_date_range_from_text. munfold.
  destruct (contains "this week" (lower text)).
  { intros [= <- <- <-]. change 518400000000 with (days 6).
    rewrite !date_add_days. auto. }
  destruct (contains "next week" (lower text)).
  { intros [= <- <- <-]. change 518400000000 with (days 6).
    rewrite !date_add_days. auto. }
  destruct (tz now_) as [ti|] eqn:T; [|discriminate].
  destruct (_parse_date_part (lower text) (tz_zone ti) n) as [[d|x] m] eqn:P;
    [|discriminate].
  intros [= <- <- <-]. apply _parse_date_part_ok in P. intuition.
Qed.

(** What a range result looks like. *)
Lemma range_result_ok text zone st et n r n' :
  range_result text zone st et n = (Ok (Some r), n') ->
  aware (start r) = true /\ aware (end_ r) = true /\
  is_range r = true /\ duration_minutes r = None /\
  clock_of (start r) = st /\ clock_of (end_ r) = et /\
  (dt_le (start r) (end_ r) = true \/ date (start r) = date (end_ r)).
Proof.
  unfold range_result. munfold.
  destruct (tz_known zone); [|discriminate].
  destruct (_get_date_range_from_text text _ (S n)) as [[[s e]|x] m] eqn:G;
    [|discriminate].
  apply _get_date_range_from_text_ok in G; [|reflexivity].
  destruct G as (As & Ae & Htz & Hd).
  destruct (replace s (fst st) (snd st) 0 0) as [s'|x] eqn:Rs; [|discriminate].
  destruct (replace e (fst et) (snd et) 0 0) as [e'|x] eqn:Re; [|discriminate].
  intros [= <- <-]. simpl.
  pose proof (aware_replace _ _ _ _ _ _ Rs) as As'.
  pose proof (aware_replace _ _ _ _ _ _ Re) as Ae'.
  rewrite As in As'. rewrite Ae in Ae'. rewrite As', Ae'.
  pose proof (clock_replace _ _ _ _ Rs) as Cs.
  pose proof (clock_replace _ _ _ _ Re) as Ce.
  pose proof (date_replace _ _ _ _ _ _ Rs) as Ds.
  pose proof (date_replace _ _ _ _ _ _ Re) as De.
  destruct st as [h1 m1], et as [h2 m2]. simpl in *.
  repeat split; auto.
  destruct Hd as [Hd| ->]; [left|right; congruence].
  apply replace_ok in Rs, Re.
  destruct Rs as (Ws & Ts & ? & ? & _). destruct Re as (We & Te & ? & ? & _).
  unfold dt_le, instant, offset_of. rewrite Ts, Te, Htz, Ws, We, Hd.
  apply Z.leb_le. destruct (tz e); unfold_units; lia.
Qed.

Lemma range_result_not_none text zone st et n n' :
  range_result text zone st et n <> (Ok None, n').
Proof.
  unfold range_result. munfold.
  destruct (tz_known zone); [|discriminate].
  destruct (_get_date_range_from_text text _ (S n)) as [[[s e]|x] m];
    [|discriminate].
  destruct (replace s _ _ 0 0); [|discriminate].
  destruct (replace e _ _ 0 0); discriminate.
Qed.

(** A loop that finds no range has not read the clock. *)
Lemma range_loop_none patterns text zone n n' :
  range_loop patterns text zone n = (Ok None, n') -> n' = n.
Proof.
  induction patterns as [|[p a] rest IH]; simpl.
  - munfold. intros [= <-]. reflexivity.
  - destruct (search true p text) as [m|]; [|exact IH].
    destruct (range_groups a m) as [[[[st sp] et] ep]|]; [|exact IH].
    destruct (_parse_time_string st _) as [t1|]; [|exact IH].
    destruct (_parse_time_string et ep) as [t2|]; [|exact IH].
    intros H. exfalso. eapply range_result_not_none, H.
Qed.

(** A loop that returns a range returns a range result. *)
Lemma range_loop_some patterns text zone n r n' :
  range_loop patterns text zone n = (Ok (Some r), n') ->
  exists st et, range_result text zone st et n = (Ok (Some r), n').
Proof.
  induction patterns as [|[p a] rest IH]; simpl.
  - munfold. discriminate.
  - destruct (search true p text) as [m|]; [|exact IH].
    destruct (range_groups a m) as [[[[st sp] et] ep]|]; [|exact IH].
    destruct (_parse_time_string st _) as [t1|]; [|exact IH].
    destruct (_parse_time_string et ep) as [t2|]; [|exact IH].
    eauto.
Qed.

(** With the bounds of the first match resolved, the loop is that
    range result. *)
Lemma range_loop_first patterns text zone st sp et ep start_time end_time :
  first_range_match patterns text = Some (st, sp, et, ep) ->
  _parse_time_string st
    (if negb (truthy_str sp) && truthy_str ep then ep else sp) = Some start_time ->
  _parse_time_string et ep = Some end_time ->
  range_loop patterns text zone = range_result text zone start_time end_time.
Proof.
  induction patterns as [|[p a] rest IH]; simpl; [discriminate|].
  destruct (search true p text) as [m|]; [|exact IH].
  destruct (range_groups a m) as [[[[st0 sp0] et0] ep0]|]; [|exact IH].
  intros [= -> -> -> ->] H1 H2. rewrite H1, H2. reflexivity.
Qed.


Lemma range_loop_matched patterns text zone n r n' :
  range_loop patterns text zone n = (Ok (Some r), n') ->
  first_range_match patterns text <> None.
Proof.
  induction patterns as [|[p a] rest IH]; simpl.
  - munfold. discriminate.
  - destruct (search true p text) as [m|]; [|exact IH].
    destruct (range_groups a m) as [[[[st sp] et] ep]|]; [|exact IH].
    discriminate.
Qed.

(** Every named period of the table starts no later than it ends. *)
Lemma time_patterns_ordered text phrase sh eh :
  first_in time_patterns text = Some (phrase, (sh, eh)) -> sh <= eh.
Proof.
  unfold first_in. intros H. apply find_some in H. destruct H as [H _].
  simpl in H.
  repeat (destruct H as [H|H]; [injection H as _ <- <-; lia|]).
  destruct H.
Qed.

Lemma dt_le_add d k : 0 <= k -> dt_le d (add d k) = true.
Proof.
  intros Hk. unfold dt_le, instant, offset_of, add. simpl.
  apply Z.leb_le. lia.
Qed.

Lemma fuzzy_single_ok text zone dur date_part r :
  0 < dur ->
  fuzzy_single text zone dur date_part = Some r ->
  aware (start r) = true /\ aware (end_ r) = true /\
  duration_minutes r = Some dur /\ dt_le (start r) (end_ r) = true.
Proof.
  intros Hd. unfold fuzzy_single.
  destruct (fuzzy_parse text date_part) as [p|e]; [|discriminate].
  destruct (timezone zone) as [z|e]; [|discriminate].
  intros [= <-]. simpl. rewrite aware_add, aware_or_localize.
  repeat split. apply dt_le_add.
  pose proof (minutes_nonneg dur). lia.
Qed.

Lemma _parse_single_datetime_ok text zone dur n r n' :
  0 < dur ->
  _parse_single_datetime text zone dur n = (Ok (Some r), n') ->
  aware (start r) = true /\ aware (end_ r) = true /\
  (forall d, duration_minutes r = Some d -> d = dur) /\
  dt_le (start r) (end_ r) = true.
Proof.
  intros Hd. unfold _parse_single_datetime.
  unfold bind at 1.
  destruct (_parse_date_part text zone n) as [[dp|e] n0] eqn:P; [|discriminate].
  apply _parse_date_part_ok in P. destruct P as (_ & Adp & _).
  match goal with |- context [if ?c then _ else _] => destruct c end.
  { munfold.
    destruct (replace dp 0 0 0 0) as [s|e] eqn:Rs; [|discriminate].
    destruct (replace dp 23 59 59 999999) as [e|x] eqn:Re; [|discriminate].
    intros [= <- <-]. simpl.
    rewrite (aware_replace _ _ _ _ _ _ Rs), (aware_replace _ _ _ _ _ _ Re), Adp.
    repeat split; [discriminate|].
    apply replace_ok in Rs, Re.
    destruct Rs as (Ws & Ts & _). destruct Re as (We & Te & _).
    unfold dt_le, instant, offset_of. rewrite Ws, We, Ts, Te.
    apply Z.leb_le. unfold_units. lia. }
  destruct (if existsb _ time_patterns then first_in time_patterns text else None)
    as [[phrase [sh eh]]|] eqn:F.
  { assert (Hord : sh <= eh).
    { destruct (existsb _ time_patterns); [|discriminate].
      eapply time_patterns_ordered, F. }
    destruct (existsb (String.eqb phrase) exact_phrases).
    - munfold.
      destruct (replace dp sh 0 0 0) as [s|e] eqn:Rs; [|discriminate].
      intros [= <- <-]. simpl. rewrite aware_add.
      rewrite (aware_replace _ _ _ _ _ _ Rs), Adp.
      repeat split; [congruence|].
      apply dt_le_add. pose proof (minutes_nonneg dur). lia.
    - munfold.
      destruct (replace dp sh 0 0 0) as [s|e] eqn:Rs; [|discriminate].
      destruct (replace dp eh 0 0 0) as [e|x] eqn:Re; [|discriminate].
      intros [= <- <-]. simpl.
      rewrite (aware_replace _ _ _ _ _ _ Rs), (aware_replace _ _ _ _ _ _ Re), Adp.
      repeat split; [discriminate|].
      apply replace_ok in Rs, Re.
      destruct Rs as (Ws & Ts & _). destruct Re as (We & Te & _).
      unfold dt_le, instant, offset_of. rewrite Ws, We, Ts, Te.
      apply Z.leb_le. unfold_units. lia. }
  assert (Hf : forall r0, fuzzy_single text zone dur dp = Some r0 ->
            aware (start r0) = true /\ aware (end_ r0) = true /\
            (forall d, duration_minutes r0 = Some d -> d = dur) /\
            dt_le (start r0) (end_ r0) = true).
  { intros r0 H0. destruct (fuzzy_single_ok _ _ _ _ _ Hd H0) as (? & ? & Hdu & ?).
    repeat split; auto. intros d. rewrite Hdu. congruence. }
  destruct (if matches true time_regex text then _ else None) as [r0|] eqn:A.
  { munfold. intros [= <- <-].
    destruct (matches true time_regex text); [|discriminate]. auto. }
  destruct (fuzzy_single text zone dur dp) as [r0|] eqn:B.
  { munfold. intros [= <- <-]. auto. }
  munfold. discriminate.
Qed.

(** *** The clock readings the parser depends on *)

End Parser.

Section TwoClocks.
Context {tzdb : TzDatabase} {du : Dateutil}.
Variables c1 c2 : WallClock.

Lemma _parse_date_part_clock text zone n :
  @reading c1 n = @reading c2 n ->
  @_parse_date_part tzdb c1 du text zone n = @_parse_date_part tzdb c2 du text zone n.
Proof.
  intros H. unfold _parse_date_part. munfold. rewrite H. reflexivity.
Qed.

Lemma _get_date_range_from_text_clock text now_ n :
  @reading c1 n = @reading c2 n ->
  @_get_date_range_from_text tzdb c1 du text now_ n =
  @_get_date_range_from_text tzdb c2 du text now_ n.
Proof.
  intros H. unfold _get_date_range_from_text.
  destruct (contains "this week" (lower text)); [reflexivity|].
  destruct (contains "next week" (lower text)); [reflexivity|].
  destruct (tz now_); [|reflexivity].
  unfold bind. rewrite (_parse_date_part_clock _ _ _ H). reflexivity.
Qed.

Lemma range_result_clock text zone st et n :
  @reading c1 n = @reading c2 n ->
  @reading c1 (S n) = @reading c2 (S n) ->
  @range_result tzdb c1 du text zone st et n =
  @range_result tzdb c2 du text zone st et n.
Proof.
  intros H0 H1. unfold range_result. unfold bind, lift, now, timezone.
  destruct (tz_known zone); [|reflexivity].
  rewrite H0. rewrite (_get_date_range_from_text_clock _ _ _ H1). reflexivity.
Qed.

Lemma range_loop_clock patterns text zone n :
  @reading c1 n = @reading c2 n ->
  @reading c1 (S n) = @reading c2 (S n) ->
  @range_loop tzdb c1 du patterns text zone n =
  @range_loop tzdb c2 du patterns text zone n.
Proof.
  intros H0 H1. induction patterns as [|[p a] rest IH]; simpl; [reflexivity|].
  destruct (search true p text) as [m|]; [|exact IH].
  destruct (range_groups a m) as [[[[st sp] et] ep]|]; [|exact IH].
  destruct (_parse_time_string st _) as [t1|]; [|exact IH].
  destruct (_parse_time_string et ep) as [t2|]; [|exact IH].
  apply range_result_clock; assumption.
Qed.

Lemma _parse_single_datetime_clock text zone dur n :
  @reading c1 n = @reading c2 n ->
  @_parse_single_datetime tzdb c1 du text zone dur n =
  @_parse_single_datetime tzdb c2 du text zone dur n.
Proof.
  intros H. unfold _parse_single_datetime. unfold bind at 1 3.
  rewrite (_parse_date_part_clock _ _ _ H). reflexivity.
Qed.

End TwoClocks.

End UtilsProofs.

(** * Properties of the conversation graph *)

Module AgentProofs.
Import DT Text Re Eff Utils CalendarService Agent Fixtures.
Import CalendarServiceProofs UtilsProofs.

Ltac gunfold :=
  unfold gbind, gret, gtry, of_M, of_outcome, bind, lift, ret, now in *.

Section Graph.
Context {tzdb : TzDatabase} {clock : WallClock} {du : Dateutil}
        {cal : Provider} {llm : LanguageModel} {fmt : Formatting}
        {iso : IsoFormat}.

(** ** The free-slot calls return or raise *)

Lemma find_free_slots_returns_or_raises range d :
  0 < d -> find_free_slots range d <> Diverges.
Proof.
  intros Hd. unfold find_free_slots. destruct range as [s e].
  destruct (negb is_authenticated); [discriminate|].
  destruct (freebusy_query _ _) as [busy|x]; [|discriminate].
  apply free_slots_of_ends. lia.
Qed.

Lemma get_availability_returns_or_raises s e d :
  0 < d -> get_availability s e d <> Diverges.
Proof.
  intros Hd. unfold get_availability.
  destruct (negb is_authenticated); [discriminate|].
  destruct (freebusy_query _ _) as [busy|x].
  - apply free_slots_of_ends. lia.
  - destruct (exn_cls x); discriminate.
Qed.

Lemma day_loop_returns_or_raises d now_ s e : 0 < d ->
  forall fuel cur acc,
    date e - date cur + 1 <= Z.of_nat fuel ->
    day_loop fuel d now_ s e cur acc <> Diverges.
Proof.
  intros Hd. induction fuel as [|fuel IH]; intros cur acc Hf; cbn [day_loop].
  - destruct (date cur <=? date e) eqn:E; [|discriminate].
    apply Z.leb_le in E. lia.
  - destruct (date cur <=? date e) eqn:E; [|discriminate].
    destruct (replace cur (hour s) (minute s) 0 0) as [ds|x]; [|discriminate].
    destruct (replace cur (hour e) (minute e) 0 0) as [de|x]; [|discriminate].
    destruct (lt_checked now_ ds) as [later|x]; [|discriminate].
    assert (Hnext : forall next_day, checked_add cur (days 1) = Ok next_day ->
                      date e - date next_day + 1 <= Z.of_nat fuel).
    { intros next_day A. apply checked_add_ok in A. subst next_day.
      rewrite date_add_days. lia. }
    destruct later.
    + destruct (find_free_slots (ds, de) d) as [daily|x|] eqn:F.
      * destruct (checked_add cur (days 1)) as [next_day|x]; [|discriminate].
        apply IH, Hnext. reflexivity.
      * discriminate.
      * exfalso. eapply find_free_slots_returns_or_raises; eassumption.
    + destruct (checked_add cur (days 1)) as [next_day|x]; [|discriminate].
      apply IH, Hnext. reflexivity.
Qed.

(** ** The nodes keep the messages and a positive duration *)

Lemma check_single_time_returns state now_ start_time :
  0 < state_duration_minutes state ->
  exists state', check_single_time state now_ start_time = Returns state' /\
                 steady state state'.
Proof.
  intros Hd. unfold check_single_time.
  destruct (timedelta_minutes _) as [delta|x].
  2:{ eexists. split; [reflexivity|]. split; reflexivity. }
  destruct (checked_add start_time delta) as [end_time|x].
  2:{ eexists. split; [reflexivity|]. split; reflexivity. }
  destruct (le_checked start_time now_) as [[|]|x].
  1,3:(eexists; split; [reflexivity|]; split; reflexivity).
  destruct (check_availability _ _).
  { eexists. split; [reflexivity|]. split; reflexivity. }
  destruct (replace start_time 0 0 0 0) as [ds|x].
  2:{ eexists. split; [reflexivity|]. split; reflexivity. }
  destruct (checked_add ds (days 1)) as [de|x].
  2:{ eexists. split; [reflexivity|]. split; reflexivity. }
  simpl. destruct (find_free_slots _ _) as [l|x|] eqn:F.
  - eexists. split; [reflexivity|]. split; reflexivity.
  - eexists. split; [reflexivity|]. split; reflexivity.
  - exfalso. eapply find_free_slots_returns_or_raises; eassumption.
Qed.

Lemma check_extracted_returns state now_ extracted :
  0 < state_duration_minutes state ->
  exists state', check_extracted state now_ extracted = Returns state' /\
                 steady state state'.
Proof.
  intros Hd. unfold check_extracted.
  destruct (is_range extracted && negb (truthy_flag (is_full_day extracted))
            && (date (start extracted) <? date (end_ extracted))).
  { destruct (day_loop _ _ now_ _ _ _ []) as [l|x|] eqn:L.
    - eexists. split; [reflexivity|]. split; reflexivity.
    - eexists. split; [reflexivity|]. split; reflexivity.
    - exfalso. revert L. apply day_loop_returns_or_raises; [exact Hd|].
      unfold day_fuel.
      destruct (Z_le_gt_dec 0 (date (end_ extracted) - date (start extracted) + 1)).
      + rewrite Z2Nat.id by assumption. lia.
      + lia. }
  destruct (is_range extracted || truthy_flag (is_full_day extracted)).
  { destruct (find_free_slots _ _) as [l|x|] eqn:F.
    - eexists. split; [reflexivity|]. split; reflexivity.
    - eexists. split; [reflexivity|]. split; reflexivity.
    - exfalso. eapply find_free_slots_returns_or_raises; eassumption. }
  apply check_single_time_returns, Hd.
Qed.

Lemma _check_availability_returns state n :
  0 < state_duration_minutes state ->
  exists state' n', _check_availability state n = (Returns state', n') /\
                    steady state state'.
Proof.
  intros Hd. unfold _check_availability.
  destruct (negb is_authenticated).
  { gunfold. do 2 eexists. split; [reflexivity|]. split; reflexivity. }
  destruct (timezone (user_timezone state)) as [z|x].
  2:{ gunfold. do 2 eexists. split; [reflexivity|]. split; reflexivity. }
  gunfold.
  destruct (extracted_datetime state) as [ex|].
  { destruct (check_extracted_returns state (at_instant z (reading n)) ex Hd)
      as (state' & -> & Hs). eauto. }
  destruct (last_discussed_datetime (ctx state)) as [ld|].
  { destruct (check_extracted_returns (set_extracted state (Some ld))
                (at_instant z (reading n)) ld Hd) as (state' & -> & Hs). eauto. }
  destruct (checked_add _ (days 7)) as [end_date|x].
  2:{ do 2 eexists. split; [reflexivity|]. split; reflexivity. }
  destruct (get_availability _ _ _) as [l|x|] eqn:A.
  - do 2 eexists. split; [reflexivity|]. split; reflexivity.
  - do 2 eexists. split; [reflexivity|]. split; reflexivity.
  - exfalso. eapply get_availability_returns_or_raises; eassumption.
Qed.

Lemma _parse_intent_steady state : steady state (_parse_intent state).
Proof.
  unfold _parse_intent. destruct (last_message state) as [m|].
  - destruct (intent_reply _); split; reflexivity.
  - split; reflexivity.
Qed.

Lemma store_parsed_messages state message p :
  messages (store_parsed state message p) = messages state.
Proof.
  unfold store_parsed. destruct (extract_duration message) as [d|]; [|reflexivity].
  destruct (negb (d =? 0)); [|reflexivity].
  destruct (timedelta_minutes d) as [delta|x]; [|reflexivity].
  destruct (checked_add (start p) delta); reflexivity.
Qed.

Lemma store_parsed_duration state message p :
  0 < state_duration_minutes state ->
  0 < state_duration_minutes (store_parsed state message p).
Proof.
  intros Hd. unfold store_parsed.
  destruct (extract_duration message) as [d|] eqn:E; [|exact Hd].
  apply extract_duration_nonneg in E.
  destruct (d =? 0) eqn:Z0; simpl; [exact Hd|].
  apply Z.eqb_neq in Z0.
  destruct (timedelta_minutes d) as [delta|x]; [|simpl; lia].
  destruct (checked_add (start p) delta); simpl; lia.
Qed.

Lemma parse_returns text zone n :
  exists r n', parse text zone n = (Ok r, n').
Proof.
  unfold parse, try_except.
  match goal with |- context [match ?m n with _ => _ end] =>
    destruct (m n) as [[r|x] n0] end.
  - eauto.
  - unfold ret. eauto.
Qed.

Lemma _parse_datetime_returns state n :
  0 < state_duration_minutes state ->
  exists state' n', _parse_datetime state n = (Ok state', n') /\
    messages state' = messages state /\
    0 < state_duration_minutes state'.
Proof.
  intros Hd. unfold _parse_datetime.
  destruct (last_message state) as [m|].
  - unfold bind.
    destruct (parse_returns (content_of m) (user_timezone state) n) as (r & n' & ->).
    destruct r as [p|]; unfold ret; do 2 eexists; (split; [reflexivity|]).
    + split; [apply store_parsed_messages | apply store_parsed_duration, Hd].
    + auto.
  - unfold ret. eauto.
Qed.

Lemma _generate_response_appends state :
  exists reply, messages (_generate_response state) = messages state ++ [AIMessage reply].
Proof.
  unfold _generate_response.
  destruct (intent_ state) as [[| | |]|]; simpl; try (eexists; reflexivity).
  destruct (_generate_booking_response state) as [r s'] eqn:B.
  exists r. simpl. f_equal.
  revert B. unfold _generate_booking_response.
  repeat match goal with
         | |- context [if ?c then _ else _] => destruct c
         | |- context [match available_slots state with _ => _ end] =>
             destruct (available_slots state) as [[|? [|? ?]]|]
         end; intros [= _ <-]; reflexivity.
Qed.

(** The graph returns, with the messages it was given and one reply. *)
Lemma run_graph_returns initial n :
  0 < state_duration_minutes initial ->
  exists final n' reply,
    run_graph initial n = (Returns final, n') /\
    messages final = messages initial ++ [AIMessage reply].
Proof.
  intros Hd. unfold run_graph.
  destruct (_parse_intent_steady initial) as (Hm0 & Hd0).
  assert (Hd1 : 0 < state_duration_minutes (_parse_intent initial)) by lia.
  destruct (_parse_datetime_returns _ n Hd1) as (s1 & n1 & P & Hm1 & Hd2).
  unfold gbind at 1. unfold of_M. rewrite P.
  destruct (_decide_next_step s1).
  - destruct (_check_availability_returns s1 n1 Hd2) as (s2 & n2 & C & Hm2 & _).
    unfold gbind. rewrite C. unfold gret.
    destruct (_generate_response_appends s2) as (reply & Hr).
    exists (_generate_response s2), n2, reply. split; [reflexivity|].
    rewrite Hr. congruence.
  - unfold gret.
    destruct (_generate_response_appends s1) as (reply & Hr).
    exists (_generate_response s1), n1, reply. split; [reflexivity|].
    rewrite Hr. congruence.
Qed.

(** ** The history and its conversion *)

Lemma to_messages_ok history :
  forallb has_content history = true ->
  exists msgs, to_messages history = Ok msgs /\
               map to_item msgs = map as_agent_reads history.
Proof.
  induction history as [|item rest IH]; simpl; intros H.
  - exists []. auto.
  - apply andb_true_iff in H. destruct H as [Hc Hr].
    destruct (IH Hr) as (ms & -> & Hms).
    unfold has_content in Hc. destruct (content item) as [c|] eqn:C; [|discriminate].
    eexists. split; [reflexivity|]. simpl. rewrite Hms. f_equal.
    unfold as_agent_reads. rewrite C.
    destruct (role item) as [r|]; [|reflexivity].
    destruct (String.eqb r "user"); reflexivity.
Qed.

Lemma to_messages_fails history :
  forallb has_content history = false ->
  exists e, to_messages history = Raise e.
Proof.
  induction history as [|item rest IH]; simpl; intros H; [discriminate|].
  unfold has_content in H at 1.
  destruct (content item) as [c|]; [|eauto].
  simpl in H. destruct (IH H) as (e & ->). eauto.
Qed.

Lemma as_agent_reads_plain history :
  Forall plain history -> map as_agent_reads history = history.
Proof.
  induction 1 as [|item rest Hp _ IH]; simpl; [reflexivity|].
  rewrite IH. f_equal.
  destruct item as [r c t]. destruct Hp as (Hr & _ & Ht). simpl in *.
  subst t. unfold as_agent_reads. simpl.
  destruct Hr as [-> | ->]; reflexivity.
Qed.

(** A history whose items all have a content goes through the graph:
    the normal return of line 151. *)
Lemma process_message_with_content sc session zone history n :
  forallb has_content history = true ->
  exists final n' reply,
    process_message sc session zone history n
    = (Returns (mk_result (map to_item (messages final)) (Some session)
                          (Some (needs_confirmation final))
                          (confirmation_data final) (available_slots final)
                          None (ctx final),
                (session, ctx final) :: sc), n') /\
    map to_item (messages final)
    = map as_agent_reads history
      ++ [mk_item (Some "assistant") (Some reply) None].
Proof.
  intros Hc. unfold process_message, gtry.
  unfold gbind at 1. unfold of_M, lift.
  destruct (to_messages_ok _ Hc) as (msgs & T & Hmap). rewrite T.
  set (initial := match session_context sc session with
                  | Some c => set_ctx (initial_state msgs zone session) c
                  | None => initial_state msgs zone session
                  end).
  assert (Hd : 0 < state_duration_minutes initial)
    by (subst initial; destruct (session_context _ _); simpl; lia).
  assert (Hm : messages initial = msgs)
    by (subst initial; destruct (session_context _ _); reflexivity).
  destruct (run_graph_returns initial n Hd) as (final & n' & reply & R & Hf).
  unfold gbind. rewrite R. unfold gret.
  exists final, n', reply. split; [reflexivity|].
  rewrite Hf, Hm, map_app, Hmap. reflexivity.
Qed.

(** Line 266 raises unless the sum is in range. *)
Lemma in_range_true start_ d :
  in_range start_ d = true ->
  timedelta_minutes d = Ok (minutes d) /\
  checked_add start_ (minutes d) = Ok (add start_ (minutes d)).
Proof.
  unfold in_range, timedelta_minutes, checked_add. cbv zeta.
  rewrite !andb_true_iff. intros (((H1 & H2) & H3) & H4).
  rewrite H1, H2, H3, H4. auto.
Qed.

Lemma in_range_datetime start_ d :
  in_range start_ d = true -> is_datetime (add start_ (minutes d)) = true.
Proof.
  unfold in_range, is_datetime, add. simpl wall.
  rewrite !andb_true_iff. intros ((_ & H3) & H4). auto.
Qed.

Lemma Some_eq {A} (a b : A) : Some a = Some b -> a = b.
Proof. congruence. Qed.

Lemma in_range_false start_ d :
  in_range start_ d = false ->
  (exists e, timedelta_minutes d = Raise e) \/
  (timedelta_minutes d = Ok (minutes d) /\
   exists e, checked_add start_ (minutes d) = Raise e).
Proof.
  unfold in_range, timedelta_minutes, checked_add. cbv zeta.
  destruct ((-999999999 <=? minutes d / DAY) && (minutes d / DAY <=? 999999999));
    [|eauto].
  simpl. intros ->. right. eauto.
Qed.

End Graph.

End AgentProofs.

(** * Specification of the free-slot computation *)

Module AvailabilitySpec.
Import DT CalendarService IsoText Fixtures CalendarServiceProofs.

Section WithCollaborators.
Context {tzdb : TzDatabase} {iso : IsoFormat} {cal : Provider}.


(** C6 (amended).  When the strings of the timeline are ones that
    [fromisoformat] reads, no busy period ends before it starts, and in
    the timeline, as the code sorts it by the text of the start strings,
    every entry starts less than one duration after each entry behind
    it, the list of slots [find_free_slots] returns is strictly ascending
    by start and has no duplicates.  The busy periods may be in any
    order and may overlap. *)
Theorem find_free_slots_strictly_ascending busy start_dt end_dt d slots :
  find_free_slots (start_dt, end_dt) d = Returns slots ->
  freebusy_query (instant start_dt) (instant end_dt) = Ok busy ->
  forallb readable_period (timeline_of busy start_dt end_dt) = true ->
  all_well_formed (map decode busy) = true ->
  starts_within (minutes d) (map decode (timeline_of busy start_dt end_dt)) = true ->
  StronglySorted starts_before slots /\ NoDup slots.
Proof.
  intros Hf Hq _ Hwf Hnear.
  destruct (find_free_slots_decoded _ _ _ _ Hf) as (busy' & Hq' & C).
  assert (busy' = busy) by congruence. subst busy'.
  assert (Hsorted : StronglySorted (fun x y => fst x < fst y) (map span slots)).
  { destruct (Z_lt_le_dec 0 d) as [Hd|Hd].
    - apply (carve_gaps_ascending _ (minutes_pos d Hd) _ _ C Hnear).
      rewrite Forall_forall. intros p Hp. apply in_map_iff in Hp.
      destruct Hp as (q & <- & Hq''). unfold timeline_of in Hq''.
      apply timeline_In in Hq''. unfold well_formed.
      destruct Hq'' as [->|[Hq''| ->]]; simpl; try lia.
      unfold all_well_formed in Hwf. rewrite forallb_forall in Hwf.
      apply Z.leb_le, (Hwf (decode q)), in_map, Hq''.
    - apply (carve_gaps_nonpos _ (minutes_nonpos d Hd)) in C.
      rewrite C. constructor. }
  clear C Hf.
  assert (Hasc : StronglySorted starts_before slots).
  { induction slots as [|s slots IH]; [constructor|].
    simpl in Hsorted. inversion Hsorted as [|? ? Hs' Hall]; subst.
    constructor; [auto|].
    rewrite Forall_forall in *. intros s' Hs.
    exact (Hall _ (in_map span _ _ Hs)). }
  split; [exact Hasc|].
  clear -Hasc. induction Hasc as [|s slots _ IH Hall]; constructor; auto.
  intros Hin. rewrite Forall_forall in Hall. specialize (Hall s Hin).
  unfold starts_before in Hall. lia.
Qed.

End WithCollaborators.



(** The order of the strings is not the order of time when the window
    does not start on a whole second: the marker of a window that ends
    at 1:00:00.5 is sorted before a busy period that starts at 1:00:00,
    since [.] comes before [Z], and the slot 0:30:00.5-1:00:00.5 is
    returned across the busy period 1:00:00-1:00:00.25. *)
Lemma find_free_slots_text_order_example :
  let busy := [mk_period "1970-01-01T01:00:00Z" "1970-01-01T01:00:00.250000Z"] in
  let s := mk_slot (utc (minutes 30 + 500000)) (utc (minutes 60 + 500000)) in
  exists slots,
    @find_free_slots utc_only python_iso (calendar_with busy)
      (utc 500000, utc (minutes 60 + 500000)) 30 = Returns slots /\
    In s slots /\
    overlapping s (@decode python_iso
                     (mk_period "1970-01-01T01:00:00Z"
                                "1970-01-01T01:00:00.250000Z")) = true /\
    starts_nondecreasing
      (map (@decode python_iso)
           (@timeline_of python_iso busy (utc 500000) (utc (minutes 60 + 500000))))
      = false.
Proof.
  cbv zeta. eexists. split; [vm_compute; reflexivity|].
  split; [simpl; auto|]. split; vm_compute; reflexivity.
Qed.

(** Witness of C6: overlapping busy periods; five slots are returned. *)
Lemma find_free_slots_strictly_ascending_witness :
  exists slots,
    @find_free_slots utc_only python_iso (calendar_with nested_meetings)
      (utc 0, utc (minutes 200)) 30 = Returns slots /\
    List.length slots = 5%nat /\
    StronglySorted starts_before slots /\
    NoDup slots.
Proof.
  eexists. split; [vm_compute; reflexivity|]. split; [reflexivity|].
  apply (@find_free_slots_strictly_ascending utc_only python_iso
           (calendar_with nested_meetings)
           nested_meetings (utc 0) (utc (minutes 200)) 30);
    vm_compute; reflexivity.
Defined.

(** C6 as stated fails: a busy period whose end, 0:00, lies before its
    start, 1:00, makes the gap after it begin at 0:00 again, and the
    slots 0:00-0:30 and 0:30-1:00 are returned twice. *)
Lemma find_free_slots_duplicates_counterexample :
  exists slots,
    @find_free_slots utc_only python_iso (calendar_with reversed_meeting)
      (utc 0, utc (minutes 120)) 30 = Returns slots /\
    ~ NoDup slots /\
    ~ StronglySorted starts_before slots.
Proof.
  eexists. split; [vm_compute; reflexivity|]. split.
  - intros H. inversion H as [|? ? Hn _]; subst. apply Hn. simpl. auto.
  - intros H. inversion H as [|? ? _ Hall]; subst.
    rewrite Forall_forall in Hall.
    specialize (Hall (mk_slot (utc 0) (utc (minutes 30)))).
    unfold starts_before in Hall. simpl in Hall.
    assert (0 < 0) by (apply Hall; auto). lia.
Qed.

(** Busy periods that do not end before they start can repeat slots
    too, when their strings spell different offsets: 10:00+05:30 is
    04:30 in UTC and is sorted after 09:00Z, so the gap after it begins
    at 05:00 and the slots from 05:00 to 09:00 are returned twice. *)
Lemma find_free_slots_offset_order_example :
  let busy :=
    [mk_period "1970-01-01T09:00:00Z" "1970-01-01T09:30:00Z";
     mk_period "1970-01-01T10:00:00+05:30" "1970-01-01T10:30:00+05:30"] in
  exists slots,
    @find_free_slots utc_only python_iso (calendar_with busy)
      (utc 0, utc (minutes 720)) 30 = Returns slots /\
    all_well_formed (map (@decode python_iso) busy) = true /\
    List.length slots = 32%nat /\
    ~ NoDup slots.
Proof.
  cbv zeta. eexists. split; [vm_compute; reflexivity|].
  split; [vm_compute; reflexivity|]. split; [reflexivity|].
  intros H.
  assert (D : forall l : list slot,
            NoDup l ->
            forall x pre mid post, l = pre ++ x :: mid ++ x :: post -> False).
  { intros l N x pre mid post ->. apply NoDup_remove_2 in N.
    apply N, in_or_app. right. apply in_or_app. right. left. reflexivity. }
  apply (D _ H (mk_slot (utc (minutes 300)) (utc (minutes 330)))
           (firstn 10 (map (fun k => mk_slot (utc (minutes (30 * Z.of_nat k)))
                                             (utc (minutes (30 * Z.of_nat k + 30))))
                           (seq 0 18)))
           (firstn 7 (map (fun k => mk_slot (utc (minutes (30 * Z.of_nat k)))
                                            (utc (minutes (30 * Z.of_nat k + 30))))
                          (seq 11 7)))
           (map (fun k => mk_slot (utc (minutes (30 * Z.of_nat k)))
                                  (utc (minutes (30 * Z.of_nat k + 30))))
                (seq 11 13))).
  vm_compute. reflexivity.
Qed.

End AvailabilitySpec.
(** * Specification of the temporal expression resolver *)

Module ResolverSpec.
Import DT Text Re Eff Utils Fixtures UtilsProofs.

Section OneRun.
Context {tzdb : TzDatabase} {clock : WallClock} {du : Dateutil}.

(** A parse that returns a dictionary is a range result or a single
    result for a positive duration. *)
Lemma parse_some text zone n r n' :
  parse text zone n = (Ok (Some r), n') ->
  (exists st et, range_result (strip (lower text)) zone st et n = (Ok (Some r), n') /\
                 first_range_match range_patterns (strip (lower text)) <> None) \/
  (exists dur, 0 < dur /\
     _parse_single_datetime (strip (lower text)) zone dur n = (Ok (Some r), n')).
Proof.
  unfold parse, try_except, bind, _parse_time_range.
  destruct (range_loop range_patterns (strip (lower text)) zone n)
    as [[[r0|]|e] n0] eqn:L.
  - unfold ret. intros [= <- <-]. left.
    destruct (range_loop_some _ _ _ _ _ _ L) as (st & et & H).
    exists st, et. split; [exact H|]. eapply range_loop_matched, L.
  - apply range_loop_none in L. subst n0.
    destruct (_parse_single_datetime _ zone _ n) as [[[r1|]|e] n1] eqn:S1;
      unfold ret; try discriminate.
    intros [= <- <-]. right. eexists. split; [|exact S1].
    apply or_int_extract_duration_pos.
  - unfold ret. discriminate.
Qed.

(** C3 (amended).  When the first range pattern that matches the text has
    exactly one bound with an AM/PM marker, the start bound of the
    result is read with that marker (its own, or the one of the end bound)
    and the end bound is read with the end bound's own marker only: a
    marker on the end bound is passed on to the start bound, a marker on
    the start bound is not passed on to the end bound. *)
Theorem time_range_marker_inheritance
    text zone n r n' st sp et ep mk start_time end_time :
  parse text zone n = (Ok (Some r), n') ->
  first_range_match range_patterns (strip (lower text)) = Some (st, sp, et, ep) ->
  mk <> EmptyString ->
  (sp = None /\ ep = Some mk) \/ (sp = Some mk /\ ep = None) ->
  _parse_time_string st (Some mk) = Some start_time ->
  _parse_time_string et ep = Some end_time ->
  clock_of (start r) = start_time /\ clock_of (end_ r) = end_time.
Proof.
  intros Hp Hm Hmk Hone Hs He.
  assert (Hinf : (if negb (truthy_str sp) && truthy_str ep then ep else sp) = Some mk).
  { destruct Hone as [[-> ->]|[-> ->]]; simpl.
    - destruct mk; [congruence|reflexivity].
    - destruct mk; [congruence|reflexivity]. }
  pose proof (range_loop_first range_patterns _ zone _ _ _ _ start_time end_time Hm) as L.
  rewrite Hinf in L. specialize (L Hs He).
  revert Hp. unfold parse, try_except, bind, _parse_time_range. rewrite L.
  destruct (range_result _ zone start_time end_time n) as [[[r0|]|e] n0] eqn:R.
  - unfold ret. intros [= <- <-].
    apply range_result_ok in R. intuition.
  - exfalso. eapply range_result_not_none, R.
  - unfold ret. discriminate.
Qed.

(** C4 (amended).  Every dictionary the parser returns has aware start
    and end and, when it has a duration, a positive one.  Its start is not
    after its end, unless the text matches a range pattern and both
    bounds fall on the same date. *)
Theorem parse_result_invariants text zone n r n' :
  parse text zone n = (Ok (Some r), n') ->
  aware (start r) = true /\ aware (end_ r) = true /\
  (forall d, duration_minutes r = Some d -> 0 < d) /\
  (dt_le (start r) (end_ r) = true \/
   (first_range_match range_patterns (strip (lower text)) <> None /\
    date (start r) = date (end_ r))).
Proof.
  intros Hp. apply parse_some in Hp.
  destruct Hp as [(st & et & R & Hm)|(dur & Hd & S1)].
  - apply range_result_ok in R.
    destruct R as (A1 & A2 & _ & Hdu & _ & _ & Hord).
    repeat split; auto.
    + intros d. rewrite Hdu. discriminate.
    + destruct Hord; auto.
  - apply _parse_single_datetime_ok in S1; [|exact Hd].
    destruct S1 as (A1 & A2 & Hdu & Hle).
    repeat split; auto. intros d Hdd. rewrite (Hdu d Hdd). exact Hd.
Qed.

(** C5 (amended).  When the text has none of the relative phrases
    (today, tomorrow, this week, next week, ...), which are looked for
    first, and the first weekday name of the table found in it stands for
    weekday [day_num], the date part is midnight of the day that lies
    [nearest_occurrence] days (1 to 7) after the reference day, plus 7
    days when the text contains "next"; that day has the named weekday.
    When the named weekday is the weekday of the reference day and there
    is no "next", the date is exactly 7 days after the reference day. *)
Theorem weekday_name_resolution text zone n key day_num :
  tz_known zone = true ->
  first_in relative_patterns text = None ->
  first_in weekday_patterns text = Some (key, day_num) ->
  let today := at_instant zone (reading n) in
  let nearest := nearest_occurrence day_num (weekday today) in
  exists target,
    _parse_date_part text zone n = (Ok target, S n) /\
    date target = date today + nearest
                  + (if contains "next" text then 7 else 0) /\
    wall target = date target * DAY /\
    tz target = tz today /\
    1 <= nearest <= 7 /\
    weekday target = day_num /\
    (day_num = weekday today -> contains "next" text = false ->
     date target = date today + 7).
Proof.
  intros Hz Hrel Hwd today nearest.
  assert (Hk : 0 <= day_num <= 6).
  { unfold first_in in Hwd. apply find_some in Hwd. destruct Hwd as [H _].
    simpl in H.
    repeat (destruct H as [H|H]; [injection H as _ <-; lia|]).
    destruct H. }
  pose proof (weekday_range today) as Hw.
  assert (Hn : nearest = if day_num - weekday today <=? 0
                         then day_num - weekday today + 7
                         else day_num - weekday today).
  { subst nearest. unfold nearest_occurrence.
    destruct (day_num - weekday today <=? 0) eqn:E.
    - apply Z.leb_le in E.
      rewrite <- (Z.mod_unique (day_num - weekday today - 1) 7 (-1)
                    (day_num - weekday today + 6)); lia.
    - apply Z.leb_gt in E.
      rewrite <- (Z.mod_unique (day_num - weekday today - 1) 7 0
                    (day_num - weekday today - 1)); lia. }
  assert (Hrange : 1 <= nearest <= 7).
  { rewrite Hn. destruct (day_num - weekday today <=? 0) eqn:E;
      [apply Z.leb_le in E | apply Z.leb_gt in E]; lia. }
  assert (Hdate : forall x t, date (mk_dt (x * DAY) t) = x).
  { intros x t. rewrite <- (date_of_wall x t 0) at 2; [|unfold_units; lia].
    f_equal. f_equal. lia. }
  exists (mk_dt ((date today + nearest
                  + (if contains "next" text then 7 else 0)) * DAY) (tz today)).
  split.
  { unfold _parse_date_part. munfold. rewrite Hz, Hrel, Hwd.
    fold today. rewrite replace_midnight. rewrite date_add_days.
    simpl tz. do 3 f_equal. rewrite Hn.
    destruct (day_num - weekday today <=? 0), (contains "next" text); lia. }
  rewrite Hdate. simpl wall. simpl tz.
  repeat split; try reflexivity; try lia.
  - unfold weekday at 1. rewrite Hdate.
    assert (Hm : (day_num - weekday today - 1) mod 7 = nearest - 1)
      by (subst nearest; unfold nearest_occurrence; lia).
    unfold weekday in *.
    destruct (contains "next" text); Z.div_mod_to_equations; lia.
  - intros Heq Hnext. rewrite Hnext, Hn, Heq, Z.sub_diag. simpl. lia.
Qed.

End OneRun.

(** C2 (amended).  The result of a parse, and the number of clock reads it
    makes, are the same under two wall clocks that agree on the next two
    readings: the result depends on the text, the zone and at most two
    readings of the wall clock taken during the call. *)
Theorem parse_depends_on_two_readings
    {tzdb : TzDatabase} {du : Dateutil} (c1 c2 : WallClock) text zone n :
  @reading c1 n = @reading c2 n ->
  @reading c1 (S n) = @reading c2 (S n) ->
  @parse tzdb c1 du text zone n = @parse tzdb c2 du text zone n.
Proof.
  intros H0 H1. unfold parse, try_except, bind, _parse_time_range.
  rewrite (range_loop_clock c1 c2 _ _ _ _ H0 H1).
  destruct (@range_loop tzdb c2 du range_patterns (strip (lower text)) zone n)
    as [[[r0|]|e] n0] eqn:L; try reflexivity.
  apply range_loop_none in L. subst n0.
  rewrite (_parse_single_datetime_clock c1 c2 _ _ _ _ H0). reflexivity.
Qed.

(** Witness of C2. *)
Lemma parse_depends_on_two_readings_witness :
  @parse utc_only (clock_at monday_9am) dateutil_default
         "between 2 and 4 pm tomorrow" "UTC" 0%nat =
  @parse utc_only (clock_then monday_9am tuesday_9am) dateutil_default
         "between 2 and 4 pm tomorrow" "UTC" 0%nat.
Proof.
  apply (@parse_depends_on_two_readings utc_only dateutil_default
           (clock_at monday_9am) (clock_then monday_9am tuesday_9am)).
  - reflexivity.
  - reflexivity.
Defined.

(** C2 as stated fails: the same text and zone give different results
    when the wall clock differs. *)
Lemma parse_reads_wall_clock_counterexample :
  fst (@parse utc_only (clock_at monday_9am) dateutil_default
              "tomorrow morning" "UTC" 0%nat) <>
  fst (@parse utc_only (clock_at tuesday_9am) dateutil_default
              "tomorrow morning" "UTC" 0%nat).
Proof. vm_compute. discriminate. Qed.

(** Witness of C3: the marker of the end bound reaches the start bound. *)
Lemma time_range_marker_inheritance_witness :
  exists r n',
    parse_on_monday "Between 1 and 3 pm tomorrow" = (Ok (Some r), n') /\
    clock_of (start r) = (13, 0) /\ clock_of (end_ r) = (15, 0).
Proof.
  eexists. eexists. split; [vm_compute; reflexivity|].
  apply (@time_range_marker_inheritance utc_only (clock_at monday_9am)
           dateutil_default "Between 1 and 3 pm tomorrow" "UTC" 0%nat _ 2%nat
           "1" None "3" (Some "pm") "pm" (13, 0) (15, 0)).
  - vm_compute. reflexivity.
  - vm_compute. reflexivity.
  - discriminate.
  - left. split; reflexivity.
  - vm_compute. reflexivity.
  - vm_compute. reflexivity.
Defined.

(** C3 as stated fails: in "between 1 pm and 3 tomorrow" only the start
    bound has a marker, and the end bound is read as 3:00, not as 3 pm
    (15:00). *)
Lemma start_marker_not_inherited_counterexample :
  exists r n',
    parse_on_monday "between 1 pm and 3 tomorrow" = (Ok (Some r), n') /\
    first_range_match range_patterns "between 1 pm and 3 tomorrow"
      = Some ("1", Some "pm", "3", None) /\
    clock_of (start r) = (13, 0) /\
    clock_of (end_ r) = (3, 0) /\
    _parse_time_string "3" (Some "pm") = Some (15, 0).
Proof.
  eexists. eexists. split; [vm_compute; reflexivity|].
  repeat split; vm_compute; reflexivity.
Qed.

(** Witness of C4. *)
Lemma parse_result_invariants_witness :
  exists r n',
    parse_on_monday "tomorrow morning" = (Ok (Some r), n') /\
    aware (start r) = true /\ aware (end_ r) = true /\
    (forall d, duration_minutes r = Some d -> 0 < d) /\
    (dt_le (start r) (end_ r) = true \/
     (first_range_match range_patterns (strip (lower "tomorrow morning")) <> None /\
      date (start r) = date (end_ r))).
Proof.
  eexists. eexists. split; [vm_compute; reflexivity|].
  apply (@parse_result_invariants utc_only (clock_at monday_9am)
           dateutil_default "tomorrow morning" "UTC" 0%nat _ 1%nat).
  vm_compute. reflexivity.
Defined.

(** C4 as stated fails: "between 5 and 3 tomorrow" gives a range from
    05:00 to 03:00 of the same day. *)
Lemma parse_start_after_end_counterexample :
  exists r n',
    parse_on_monday "between 5 and 3 tomorrow" = (Ok (Some r), n') /\
    clock_of (start r) = (5, 0) /\ clock_of (end_ r) = (3, 0) /\
    date (start r) = date (end_ r) /\
    dt_le (start r) (end_ r) = false.
Proof.
  eexists. eexists. split; [vm_compute; reflexivity|].
  repeat split; vm_compute; reflexivity.
Qed.

(** C5 as stated fails: on a Monday, "monday this week" names the weekday
    of the reference day and has no "next", but the relative phrase
    "this week" is found first and the date part is the reference day
    itself; so is the date of the parsed "monday morning this week". *)
Lemma weekday_after_relative_phrase_counterexample :
  exists target r n',
    @_parse_date_part utc_only (clock_at monday_9am) dateutil_default
      "monday this week" "UTC" 0%nat = (Ok target, 1%nat) /\
    first_in weekday_patterns "monday this week" = Some ("monday", 0) /\
    weekday (utc monday_9am) = 0 /\
    contains "next" "monday this week" = false /\
    date target = date (utc monday_9am) /\
    parse_on_monday "monday morning this week" = (Ok (Some r), n') /\
    date (start r) = date (utc monday_9am).
Proof.
  do 3 eexists. split; [vm_compute; reflexivity|].
  do 4 (split; [vm_compute; reflexivity|]).
  split; [vm_compute; reflexivity|].
  vm_compute. reflexivity.
Qed.

(** Witness of C5: on a Monday, "monday" is the Monday a week later. *)
Lemma weekday_name_resolution_witness :
  exists target,
    @_parse_date_part utc_only (clock_at monday_9am) dateutil_default
      "monday" "UTC" 0%nat = (Ok target, 1%nat) /\
    date target = date (utc monday_9am) + 7.
Proof.
  destruct (@weekday_name_resolution utc_only (clock_at monday_9am)
              dateutil_default "monday" "UTC" 0%nat "monday" 0)
    as (target & H1 & _ & _ & _ & _ & _ & H5).
  - reflexivity.
  - reflexivity.
  - reflexivity.
  - exists target. split; [exact H1|]. apply H5; reflexivity.
Defined.

End ResolverSpec.

(** * Specification of the conversation orchestrator *)

Module OrchestratorSpec.
Import DT Text Re Eff Utils CalendarService Agent IsoText Fixtures.
Import UtilsProofs AgentProofs.

Section OneTurn.
Context {tzdb : TzDatabase} {clock : WallClock} {du : Dateutil}
        {cal : Provider} {llm : LanguageModel} {fmt : Formatting}
        {iso : IsoFormat}.

(** C7 (amended).  When the language model fails and the lower-cased
    message has a booking verb, the fallback classifies it by the words
    "available" and "free" alone: as [check_availability] when one of
    the two occurs in it, and as [book_appointment] otherwise, whatever
    else it says ("open", "what time", "any slot"). *)
Theorem fallback_prefers_availability state m e :
  last_message state = Some m ->
  intent_reply (lower (content_of m)) = Raise e ->
  matches false booking_verbs_re (lower (content_of m)) = true ->
  intent_ (_parse_intent state) =
    Some (if contains "available" (lower (content_of m))
             || contains "free" (lower (content_of m))
          then check_availability_intent
          else book_appointment).
Proof.
  intros Hm Hr Hv. unfold _parse_intent. rewrite Hm, Hr. simpl.
  unfold rule_based_intent, any_search, booking_patterns.
  simpl existsb. rewrite Hv. simpl. reflexivity.
Qed.

(** C8 (amended).  A turn returns: no exception leaves
    [process_message] and its loops end.  When every item of the input
    history has a content, the history it returns holds, for each input
    item in order, an item with the same content, the role "user" or
    "assistant" as the agent reads the input role, and no other key,
    followed by exactly one assistant message, the reply; this is the
    input history itself when its items are plain.  When an item has no
    content, the returned history is the input history followed by the
    apology. *)
Theorem process_message_returns
    (session_contexts : sessions) session zone
    (conversation_history : list history_item) n :
  exists res session_contexts' n',
    process_message session_contexts session zone conversation_history n
      = (Returns (res, session_contexts'), n') /\
    ((forallb has_content conversation_history = true /\
      exists reply,
        r_conversation_history res =
          map as_agent_reads conversation_history
          ++ [mk_item (Some "assistant") (Some reply) None]) \/
     (forallb has_content conversation_history = false /\
      r_conversation_history res =
        conversation_history
        ++ [mk_item (Some "assistant") (Some apology) None])) /\
    (Forall plain conversation_history ->
     map as_agent_reads conversation_history = conversation_history).
Proof.
  unfold process_message, gtry.
  unfold gbind at 1. unfold of_M, lift.
  destruct (forallb has_content conversation_history) eqn:Hc.
  - destruct (to_messages_ok _ Hc) as (msgs & T & Hmap). rewrite T.
    set (initial := match session_context session_contexts session with
                    | Some c => set_ctx (initial_state msgs zone session) c
                    | None => initial_state msgs zone session
                    end).
    assert (Hd : 0 < state_duration_minutes initial)
      by (subst initial; destruct (session_context _ _); simpl; lia).
    assert (Hm : messages initial = msgs)
      by (subst initial; destruct (session_context _ _); reflexivity).
    destruct (run_graph_returns initial n Hd) as (final & n' & reply & R & Hf).
    unfold gbind. rewrite R. unfold gret.
    do 3 eexists. split; [reflexivity|]. split; [|apply as_agent_reads_plain].
    left. split; [reflexivity|]. exists reply.
    simpl r_conversation_history. rewrite Hf, Hm, map_app, Hmap. reflexivity.
  - destruct (to_messages_fails _ Hc) as (x & T). rewrite T. unfold gret.
    do 3 eexists. split; [reflexivity|]. split; [|apply as_agent_reads_plain].
    right. split; reflexivity.
Qed.

(** C9 (amended).  When the parser returns a dictionary for the last
    message, with a start and an end that are datetimes, and the message
    holds a duration of [d] > 0 minutes, the node sets
    [duration_minutes] to [d], in the state and in the dictionary,
    whatever [is_range] and [is_full_day] say, and the same dictionary
    is the one remembered in the context.  It replaces [end] by [start]
    plus [d] minutes when that sum is in the range of [timedelta] and
    [datetime]; when it is not, line 266 raises and [end] stays as the
    parser gave it.  Either way the dictionary stored holds
    datetimes. *)
Theorem duration_overwrites_end state m p d n n' :
  last_message state = Some m ->
  parse (content_of m) (user_timezone state) n = (Ok (Some p), n') ->
  is_datetime (start p) = true ->
  is_datetime (end_ p) = true ->
  extract_duration (content_of m) = Some d ->
  0 < d ->
  exists state',
    _parse_datetime state n = (Ok state', n') /\
    extracted_datetime state' =
      Some (mk_spec (start p)
                    (if in_range (start p) d
                     then add (start p) (minutes d)
                     else end_ p)
                    (is_range p) (is_full_day p) (Some d) (text p)) /\
    last_discussed_datetime (ctx state') = extracted_datetime state' /\
    state_duration_minutes state' = d /\
    (forall q, extracted_datetime state' = Some q ->
       is_datetime (start q) = true /\ is_datetime (end_ q) = true).
Proof.
  intros Hm Hp Hs He' He Hd. unfold _parse_datetime. rewrite Hm.
  unfold bind. rewrite Hp. unfold ret.
  eexists. split; [reflexivity|].
  unfold store_parsed. rewrite He.
  assert (E : (d =? 0) = false) by (apply Z.eqb_neq; lia).
  rewrite E. simpl negb. cbv iota.
  destruct (in_range (start p) d) eqn:R.
  - pose proof (in_range_datetime _ _ R) as Hr.
    destruct (in_range_true _ _ R) as (-> & ->). simpl.
    repeat split; auto; apply Some_eq in H; subst q; assumption.
  - destruct (in_range_false _ _ R) as [(x & ->)|(-> & x & ->)]; simpl;
      repeat split; auto; apply Some_eq in H; subst q; assumption.
Qed.

(** C10 (amended).  In every turn, whatever context is stored for the
    session, the state that reaches the decision after [parse_datetime]
    has [available_slots] still [None], and the decision is never the
    one of line 99 (time given and available).  When the context the
    turn starts from carries no error, intent [book_appointment] with an
    extracted datetime leads to [check_availability]; when it carries
    one, the decision is the error guard of line 94 and the next node is
    [generate_response]. *)
Theorem decision_after_parse_datetime session_contexts session zone msgs n :
  exists state n',
    _parse_datetime
      (_parse_intent (turn_start session_contexts session zone msgs)) n
      = (Ok state, n') /\
    available_slots state = None /\
    decide state <> BookingTimeAvailable /\
    (truthy_str (error (ctx (turn_start session_contexts session zone msgs)))
       = false ->
     intent_ state = Some book_appointment ->
     is_some (extracted_datetime state) = true ->
     _decide_next_step state = check_availability_node) /\
    (truthy_str (error (ctx (turn_start session_contexts session zone msgs)))
       = true ->
     decide state = ErrorInContext /\
     _decide_next_step state = generate_response_node).
Proof.
  set (t0 := turn_start session_contexts session zone msgs).
  assert (Ht : available_slots t0 = None).
  { subst t0. unfold turn_start. destruct (session_context _ _); reflexivity. }
  set (s0 := _parse_intent t0).
  assert (H0 : available_slots s0 = None /\ error (ctx s0) = error (ctx t0)).
  { subst s0. unfold _parse_intent.
    destruct (last_message _) as [m|]; [destruct (intent_reply _)|];
      split; auto. }
  destruct H0 as (Hs0 & He0).
  assert (H1 : exists state n', _parse_datetime s0 n = (Ok state, n') /\
                 available_slots state = None /\
                 error (ctx state) = error (ctx t0)).
  { unfold _parse_datetime. destruct (last_message s0) as [m|].
    - unfold bind.
      destruct (parse_returns (content_of m) (user_timezone s0) n) as (r & n' & ->).
      destruct r as [p|]; unfold ret; do 2 eexists; (split; [reflexivity|]); auto.
      unfold store_parsed. destruct (extract_duration _) as [d|]; [|auto].
      destruct (negb (d =? 0)); [|auto].
      destruct (timedelta_minutes d) as [delta|x]; [|auto].
      destruct (checked_add (start p) delta); auto.
    - unfold ret. eauto. }
  destruct H1 as (state & n' & P & Hs & He).
  exists state, n'. split; [exact P|]. split; [exact Hs|].
  unfold _decide_next_step, decide. rewrite He, Hs.
  destruct (truthy_str (error (ctx t0))); simpl.
  - split; [discriminate|]. split; [discriminate|]. auto.
  - split.
    + destruct (intent_ state) as [[| | |]|]; try discriminate.
      rewrite andb_false_r. destruct (is_some (extracted_datetime state)); discriminate.
    + split; [|discriminate]. intros _ -> ->. reflexivity.
Qed.

End OneTurn.

(** Witness of C7. *)
Lemma fallback_prefers_availability_witness :
  intent_ (@_parse_intent llm_down (state_with "Book a slot when I am free"))
    = Some (if contains "available" (lower "Book a slot when I am free")
               || contains "free" (lower "Book a slot when I am free")
            then check_availability_intent
            else book_appointment).
Proof.
  apply (@fallback_prefers_availability llm_down
           (state_with "Book a slot when I am free")
           (HumanMessage "Book a slot when I am free")
           (mk_exn OtherException "unavailable")).
  - reflexivity.
  - reflexivity.
  - vm_compute. reflexivity.
Defined.

(** C7 as stated fails: "book an open slot" has the booking verb "book"
    and the availability word "open", and the fallback answers
    [book_appointment]. *)
Lemma fallback_open_slot_counterexample :
  matches false booking_verbs_re "book an open slot" = true /\
  contains "open" "book an open slot" = true /\
  rule_based_intent "book an open slot" = book_appointment /\
  intent_ (@_parse_intent llm_down (state_with "Book an open slot"))
    = Some book_appointment.
Proof. repeat split; vm_compute; reflexivity. Qed.

(** C8 as stated fails: the history [main.py] passes holds the time of
    each user message, and the history returned does not; it is not the
    input history with something appended. *)
Lemma history_rewritten_counterexample :
  exists res ss n',
    @process_message utc_only (clock_at monday_9am) dateutil_default
      calendar_signed_out llm_down no_formatting python_iso
      [] "s" "UTC" stamped_turn 0%nat
      = (Returns (res, ss), n') /\
    forall appended, r_conversation_history res <> stamped_turn ++ appended.
Proof.
  do 3 eexists. split; [vm_compute; reflexivity|].
  intros appended H. simpl in H. discriminate H.
Qed.

(** Witness of C9: a range over a week collapses to two hours. *)
Lemma duration_overwrites_end_witness :
  exists p state',
    parse_on_monday "3-5 pm this week for 2 hours" = (Ok (Some p), 1%nat) /\
    is_range p = true /\
    date (end_ p) = date (start p) + 6 /\
    @_parse_datetime utc_only (clock_at monday_9am) dateutil_default
      (state_with "3-5 pm this week for 2 hours") 0%nat = (Ok state', 1%nat) /\
    extracted_datetime state' =
      Some (mk_spec (start p)
                    (if in_range (start p) 120
                     then add (start p) (minutes 120)
                     else end_ p)
                    (is_range p) (is_full_day p) (Some 120) (text p)) /\
    in_range (start p) 120 = true /\
    (forall q, extracted_datetime state' = Some q ->
       is_datetime (start q) = true /\ is_datetime (end_ q) = true).
Proof.
  let r := eval vm_compute in (parse_on_monday "3-5 pm this week for 2 hours") in
  match r with
  | (Ok (Some ?p), _) =>
      exists p;
      destruct (@duration_overwrites_end utc_only (clock_at monday_9am)
                  dateutil_default
                  (state_with "3-5 pm this week for 2 hours")
                  (HumanMessage "3-5 pm this week for 2 hours")
                  p 120 0%nat 1%nat)
        as (state' & H1 & H2 & _ & _ & H5);
      [ reflexivity
      | vm_compute; reflexivity
      | vm_compute; reflexivity
      | vm_compute; reflexivity
      | vm_compute; reflexivity
      | lia
      | exists state'; split; [vm_compute; reflexivity|];
        split; [reflexivity|]; split; [vm_compute; reflexivity|];
        split; [exact H1|]; split; [exact H2|];
        split; [vm_compute; reflexivity|exact H5] ]
  end.
Defined.

(** C9 as stated fails: for "3-5 pm this week for 100000000 hours" the
    parser returns the range of the week, the duration is read, and the
    sum of the start and the duration lies beyond [datetime.max]: the
    dictionary stored has the duration and still the end of the week. *)
Lemma duration_overflow_counterexample :
  exists p state' q,
    parse_on_monday "3-5 pm this week for 100000000 hours"
      = (Ok (Some p), 1%nat) /\
    is_datetime (start p) = true /\
    is_datetime (end_ p) = true /\
    extract_duration "3-5 pm this week for 100000000 hours"
      = Some 6000000000 /\
    @_parse_datetime utc_only (clock_at monday_9am) dateutil_default
      (state_with "3-5 pm this week for 100000000 hours") 0%nat
      = (Ok state', 1%nat) /\
    extracted_datetime state' = Some q /\
    duration_minutes q = Some 6000000000 /\
    end_ q = end_ p /\
    end_ q <> add (start q) (minutes 6000000000).
Proof.
  do 3 eexists.
  split; [vm_compute; reflexivity|].
  split; [vm_compute; reflexivity|].
  split; [vm_compute; reflexivity|].
  split; [vm_compute; reflexivity|].
  split; [vm_compute; reflexivity|].
  split; [reflexivity|].
  split; [reflexivity|].
  split; [reflexivity|].
  vm_compute. discriminate.
Qed.

(** Witness of C10. *)
Lemma decision_after_parse_datetime_witness :
  exists state n',
    @_parse_datetime utc_only (clock_at monday_9am) dateutil_default
      (@_parse_intent llm_booking
         (turn_start [] "s" "UTC" [HumanMessage "book tomorrow morning"]))
      0%nat = (Ok state, n') /\
    available_slots state = None /\
    decide state <> BookingTimeAvailable /\
    (truthy_str (error (ctx (turn_start [] "s" "UTC"
                               [HumanMessage "book tomorrow morning"])))
       = false ->
     intent_ state = Some book_appointment ->
     is_some (extracted_datetime state) = true ->
     _decide_next_step state = check_availability_node) /\
    (truthy_str (error (ctx (turn_start [] "s" "UTC"
                               [HumanMessage "book tomorrow morning"])))
       = true ->
     decide state = ErrorInContext /\
     _decide_next_step state = generate_response_node).
Proof.
  apply (@decision_after_parse_datetime utc_only (clock_at monday_9am)
           dateutil_default llm_booking
           [] "s" "UTC" [HumanMessage "book tomorrow morning"] 0%nat).
Defined.

(** C10 as stated fails.  With a service that has lost its credentials,
    a first booking turn writes an error into the session context; in the
    next turn of the session the intent is [book_appointment] and a
    datetime is extracted, yet the decision is the error guard of line 94
    and the next node is [generate_response]. *)
Lemma sticky_error_skips_availability_counterexample :
  exists res1 ss1 n1 c state n2,
    @process_message utc_only (clock_at monday_9am) dateutil_default
      calendar_signed_out llm_booking no_formatting python_iso
      [] "s" "UTC" (user_turn "book tomorrow morning") 0%nat
      = (Returns (res1, ss1), n1) /\
    session_context ss1 "s" = Some c /\
    error c = Some "Not authenticated with Google Calendar" /\
    @_parse_datetime utc_only (clock_at monday_9am) dateutil_default
      (@_parse_intent llm_booking
         (turn_start ss1 "s" "UTC" [HumanMessage "book tomorrow morning"]))
      n1 = (Ok state, n2) /\
    intent_ state = Some book_appointment /\
    is_some (extracted_datetime state) = true /\
    available_slots state = None /\
    decide state = ErrorInContext /\
    _decide_next_step state = generate_response_node.
Proof.
  do 6 eexists.
  split; [vm_compute; reflexivity|].
  split; [vm_compute; reflexivity|].
  split; [reflexivity|].
  split; [vm_compute; reflexivity|].
  repeat split.
Qed.

End OrchestratorSpec.
(** * Further properties of the free-slot computation *)

Module AvailabilityProperties.
Import DT CalendarService IsoText Fixtures CalendarServiceProofs.

(** ** The loop on its own *)

(** With a positive step the loop lays back-to-back pairs from the start
    of the gap, as many as fit. *)
Lemma carve_tiles delta : 0 < delta ->
  forall fuel cur fe l,
    carve_instants fuel cur fe delta = Some l ->
    l = tiles (Z.to_nat ((fe - cur) / delta)) cur delta.
Proof.
  intros Hd.
  assert (Hstop : forall cur fe, fe < cur + delta ->
                    Z.to_nat ((fe - cur) / delta) = 0%nat).
  { intros cur fe H.
    assert ((fe - cur) / delta < 1) by (apply Z.div_lt_upper_bound; lia).
    lia. }
  induction fuel as [|fuel IH]; intros cur fe l; simpl.
  - destruct (cur + delta <=? fe) eqn:E; [discriminate|].
    intros [= <-]. apply Z.leb_gt in E. rewrite Hstop by lia. reflexivity.
  - destruct (cur + delta <=? fe) eqn:E.
    + destruct (carve_instants fuel (cur + delta) fe delta) as [rest|] eqn:R;
        [|discriminate].
      intros [= <-]. apply Z.leb_le in E.
      rewrite (IH _ _ _ R).
      replace (fe - cur) with ((fe - (cur + delta)) + 1 * delta) by lia.
      rewrite Z.div_add by lia.
      assert (0 <= (fe - (cur + delta)) / delta) by (apply Z.div_pos; lia).
      rewrite Z2Nat.inj_add by lia.
      rewrite Nat.add_comm. reflexivity.
    + intros [= <-]. apply Z.leb_gt in E. rewrite Hstop by lia. reflexivity.
Qed.

(** ** The timeline has the two markers *)

Lemma insert_by_start_length x l :
  List.length (insert_by_start x l) = S (List.length l).
Proof.
  induction l as [|y l IH]; [reflexivity|].
  simpl. destruct (str_le (p_start x) (p_start y)); simpl; [reflexivity|].
  rewrite IH. reflexivity.
Qed.

Lemma sort_by_start_length l :
  List.length (sort_by_start l) = List.length l.
Proof.
  induction l as [|x l IH]; [reflexivity|].
  simpl. rewrite insert_by_start_length, IH. reflexivity.
Qed.

Lemma timeline_two busy st et :
  exists a b rest, timeline busy st et = a :: b :: rest.
Proof.
  pose proof (sort_by_start_length
                (mk_period st st :: busy ++ [mk_period et et])) as L.
  fold (timeline busy st et) in L. simpl in L. rewrite length_app in L.
  simpl in L.
  destruct (timeline busy st et) as [|a [|b rest]]; simpl in L; try lia.
  eauto.
Qed.

Section WithCollaborators.
Context {tzdb : TzDatabase} {iso : IsoFormat} {cal : Provider}.

(** A duration that no timedelta holds stops the first gap. *)
Lemma carve_all_overflow d e : timedelta_minutes d = Raise e ->
  forall a b rest l, carve_all (a :: b :: rest) d <> Returns l.
Proof.
  intros T a b rest l. rewrite carve_all_step.
  destruct (parse_time (p_end a)) as [da|x]; [|discriminate].
  destruct (parse_time (p_start b)) as [db|x]; [|discriminate].
  rewrite carve_step, T. discriminate.
Qed.

Lemma free_slots_of_overflow busy start_dt end_dt d e slots :
  timedelta_minutes d = Raise e ->
  free_slots_of busy start_dt end_dt d <> Returns slots.
Proof.
  intros T. unfold free_slots_of.
  destruct (timeline_two busy (isoformat (astimezone_utc start_dt))
              (isoformat (astimezone_utc end_dt))) as (a & b & rest & ->).
  destruct (carve_all (a :: b :: rest) d) as [l|x|] eqn:C; try discriminate.
  exfalso. revert C. eapply carve_all_overflow, T.
Qed.

Lemma free_slots_of_nonpos busy start_dt end_dt d slots :
  d <= 0 ->
  free_slots_of busy start_dt end_dt d = Returns slots -> slots = [].
Proof.
  intros Hd F. apply free_slots_of_decoded in F.
  apply (carve_gaps_nonpos _ (minutes_nonpos d Hd)) in F.
  destruct slots; [reflexivity|discriminate].
Qed.


(** X2.  On an empty calendar the slots tile the window: when the two
    markers read back as the ends of the window, there are as many slots
    as fit between the two ends, back to back and each of the duration
    asked for, from the end whose marker is first in the order of the
    strings.  A window whose end is given first is not rejected. *)
Theorem find_free_slots_empty_calendar start_dt end_dt d slots :
  find_free_slots (start_dt, end_dt) d = Returns slots ->
  freebusy_query (instant start_dt) (instant end_dt) = Ok [] ->
  0 < d ->
  reads_back start_dt ->
  reads_back end_dt ->
  let first_ :=
    if str_le (isoformat (astimezone_utc start_dt))
              (isoformat (astimezone_utc end_dt))
    then instant start_dt else instant end_dt in
  let second_ :=
    if str_le (isoformat (astimezone_utc start_dt))
              (isoformat (astimezone_utc end_dt))
    then instant end_dt else instant start_dt in
  map span slots
  = tiles (Z.to_nat ((second_ - first_) / minutes d)) first_ (minutes d).
Proof.
  intros Hf Hq Hd Rs Re. cbv zeta.
  destruct (find_free_slots_decoded _ _ _ _ Hf) as (busy' & Hq' & C).
  assert (busy' = []) by congruence. subst busy'.
  pose proof (minutes_pos d Hd) as Hpos.
  unfold timeline_of, timeline in C. simpl in C.
  unfold reads_back in Rs, Re.
  destruct (str_le _ _); simpl in C; unfold decode in C; simpl in C;
    rewrite ?Rs, ?Re in C;
    destruct (carve_instants _ _ _ _) as [here|] eqn:Hh; try discriminate;
    rewrite app_nil_r in C; rewrite <- (carve_tiles _ Hpos _ _ _ _ Hh);
    congruence.
Qed.

(** X3.  With a duration of zero or less neither [find_free_slots] nor
    [get_availability] hands back a slot: a call that returns returns
    the empty list. *)
Theorem nonpositive_duration_gives_no_slot start_dt end_dt d slots :
  d <= 0 ->
  (find_free_slots (start_dt, end_dt) d = Returns slots -> slots = []) /\
  (get_availability start_dt end_dt d = Returns slots -> slots = []).
Proof.
  intros Hd. split.
  - unfold find_free_slots.
    destruct (negb is_authenticated); [discriminate|].
    destruct (freebusy_query _ _) as [busy|x]; [|discriminate].
    apply free_slots_of_nonpos, Hd.
  - unfold get_availability.
    destruct (negb is_authenticated); [discriminate|].
    destruct (freebusy_query _ _) as [busy|x].
    + apply free_slots_of_nonpos, Hd.
    + destruct (exn_cls x); try discriminate. congruence.
Qed.

(** X4.  A slot that [find_free_slots] offers passes
    [check_availability]: when the strings of the timeline of the window
    are ones that [fromisoformat] reads, the timeline is in the order of
    time by start and its ends do not decrease, and the provider reports
    for the slot's own span no busy period it did not report for the
    window, the check on an offered slot answers [True]. *)
Theorem offered_slot_is_available busy busy' start_dt end_dt d slots s :
  find_free_slots (start_dt, end_dt) d = Returns slots ->
  freebusy_query (instant start_dt) (instant end_dt) = Ok busy ->
  forallb readable_period (timeline_of busy start_dt end_dt) = true ->
  starts_nondecreasing (map decode (timeline_of busy start_dt end_dt)) = true ->
  ends_nondecreasing (map decode (timeline_of busy start_dt end_dt)) = true ->
  In s slots ->
  freebusy_query (instant (s_start s)) (instant (s_end s)) = Ok busy' ->
  incl busy' busy ->
  check_availability (s_start s) (s_end s) = true.
Proof.
  intros Hf Hq Hr Hstarts Hends Hs Hq' Hincl.
  destruct (find_free_slots_aware _ _ _ _ Hf s Hs) as (As & Ae).
  destruct (find_free_slots_decoded _ _ _ _ Hf) as (busy0 & Hq0 & C).
  assert (busy0 = busy) by congruence. subst busy0.
  assert (Ha : is_authenticated = true).
  { unfold find_free_slots in Hf. destruct is_authenticated; [reflexivity|].
    discriminate. }
  assert (Hd : 0 < d).
  { destruct (Z_lt_le_dec 0 d) as [Hd|Hd]; [exact Hd|].
    apply (carve_gaps_nonpos _ (minutes_nonpos d Hd)) in C.
    destruct slots; [destruct Hs|discriminate]. }
  assert (Hr' : forallb readable_period busy' = true).
  { rewrite forallb_forall in Hr |- *. intros p Hp. apply Hr.
    unfold timeline_of. apply timeline_In. right. left. apply Hincl, Hp. }
  unfold check_availability. rewrite Ha. simpl negb. cbv iota. cbv zeta.
  rewrite !instant_astimezone_utc, Hq'.
  rewrite no_overlap_decoded; [|reflexivity|reflexivity|exact Hr'].
  rewrite !instant_astimezone_utc.
  apply negb_true_iff.
  destruct (existsb _ busy') eqn:E; [|reflexivity].
  apply existsb_exists in E. destruct E as (b & Hb & Ho).
  assert (Hclear : overlaps (instant (s_start s)) (instant (s_end s))
                            (i_start (decode b)) (i_end (decode b)) = false).
  { apply (carve_gaps_clear _ (minutes_pos d Hd) _ _ C
             (starts_nondecreasing_sorted _ Hstarts)
             (ends_nondecreasing_sorted _ Hends)
             (span s) (decode b) (in_span s _ Hs)).
    apply in_map. unfold timeline_of. apply timeline_In.
    right. left. apply Hincl, Hb. }
  congruence.
Qed.

(** X5.  A duration that no [timedelta] holds, one of more than
    999999999 days either way, makes [find_free_slots] raise: no call
    with such a duration returns. *)
Theorem find_free_slots_duration_out_of_range start_dt end_dt d e slots :
  timedelta_minutes d = Raise e ->
  find_free_slots (start_dt, end_dt) d <> Returns slots.
Proof.
  intros T. unfold find_free_slots.
  destruct (negb is_authenticated); [discriminate|].
  destruct (freebusy_query _ _) as [busy|x]; [|discriminate].
  eapply free_slots_of_overflow, T.
Qed.

End WithCollaborators.


(** Witness of X2: a window given end first, 90 minutes before its
    start; three half-hour slots come back. *)
Lemma find_free_slots_empty_calendar_witness :
  exists slots,
    @find_free_slots utc_only python_iso (calendar_with [])
      (utc (minutes 90), utc 0) 30 = Returns slots /\
    map span slots = tiles 3 0 (minutes 30).
Proof.
  eexists. split; [vm_compute; reflexivity|].
  apply (@find_free_slots_empty_calendar utc_only python_iso (calendar_with [])
           (utc (minutes 90)) (utc 0) 30).
  - vm_compute. reflexivity.
  - reflexivity.
  - lia.
  - vm_compute. reflexivity.
  - vm_compute. reflexivity.
Defined.

(** Witness of X3: a duration of zero.  The window starts half a second
    after midnight and ends at 0:05; the busy period from 0:00 to 0:10
    is sorted between the two markers, and both gaps run backwards. *)
Lemma nonpositive_duration_gives_no_slot_witness :
  let busy := [z_period 0 (minutes 10)] in
  @find_free_slots utc_only python_iso (calendar_with busy)
    (utc 500000, utc (minutes 5)) 0 = Returns [] /\
  ((@find_free_slots utc_only python_iso (calendar_with busy)
      (utc 500000, utc (minutes 5)) 0 = Returns [] -> @nil slot = []) /\
   (@get_availability utc_only python_iso (calendar_with busy)
      (utc 500000) (utc (minutes 5)) 0 = Returns [] -> @nil slot = [])).
Proof.
  cbv zeta. split; [vm_compute; reflexivity|].
  apply (@nonpositive_duration_gives_no_slot utc_only python_iso
           (calendar_with [z_period 0 (minutes 10)])
           (utc 500000) (utc (minutes 5)) 0 []).
  lia.
Defined.

(** Witness of X4: the slot 0:30-1:00 between the two meetings, with a
    provider that reports the periods touching the queried span. *)
Lemma offered_slot_is_available_witness :
  @check_availability python_iso (calendar_of two_meetings)
    (utc (minutes 30)) (utc (minutes 60)) = true.
Proof.
  apply (@offered_slot_is_available utc_only python_iso
           (calendar_of two_meetings)
           two_meetings [] (utc 0) (utc (minutes 120)) 30
           [mk_slot (utc (minutes 30)) (utc (minutes 60));
            mk_slot (utc (minutes 90)) (utc (minutes 120))]
           (mk_slot (utc (minutes 30)) (utc (minutes 60)))).
  - vm_compute. reflexivity.
  - vm_compute. reflexivity.
  - vm_compute. reflexivity.
  - vm_compute. reflexivity.
  - vm_compute. reflexivity.
  - simpl. auto.
  - vm_compute. reflexivity.
  - intros p [].
Defined.

(** Witness of X5: a duration of 10^16 minutes. *)
Lemma find_free_slots_duration_out_of_range_witness :
  @find_free_slots utc_only python_iso (calendar_with two_meetings)
    (utc 0, utc (minutes 120)) 10000000000000000
  = Raises (mk_exn OverflowError
              "days=6944444444444; must have magnitude <= 999999999") /\
  @find_free_slots utc_only python_iso (calendar_with two_meetings)
    (utc 0, utc (minutes 120)) 10000000000000000
  <> Returns [].
Proof.
  split; [vm_compute; reflexivity|].
  apply (@find_free_slots_duration_out_of_range utc_only python_iso
           (calendar_with two_meetings) (utc 0) (utc (minutes 120))
           10000000000000000
           (mk_exn OverflowError
              "days=6944444444444; must have magnitude <= 999999999") []).
  vm_compute. reflexivity.
Defined.

End AvailabilityProperties.
(** * Further properties of the parser *)

Module ResolverProperties.
Import DT Text Re Eff Utils Fixtures UtilsProofs.

(** ** Substrings *)

Lemma append_assoc (a b c : string) : ((a ++ b) ++ c = a ++ (b ++ c))%string.
Proof. induction a as [|x a IH]; simpl; [reflexivity|]. rewrite IH. reflexivity. Qed.

Lemma append_nil_r (a : string) : (a ++ "" = a)%string.
Proof. induction a as [|x a IH]; simpl; [reflexivity|]. rewrite IH. reflexivity. Qed.

Lemma startswith_iff p s :
  startswith p s = true <-> exists post, s = (p ++ post)%string.
Proof.
  revert s. induction p as [|a p IH]; intros s; simpl.
  - split; [intros _; exists s; reflexivity | reflexivity].
  - destruct s as [|b s].
    + split; [discriminate | intros (post & H); discriminate].
    + rewrite andb_true_iff, IH. split.
      * intros (E & post & ->). apply Ascii.eqb_eq in E. subst. eauto.
      * intros (post & [= -> ->]). split; [apply Ascii.eqb_refl | eauto].
Qed.

Lemma contains_unfold needle hay :
  contains needle hay =
  startswith needle hay ||
  match hay with
  | EmptyString => false
  | String _ hay' => contains needle hay'
  end.
Proof. destruct hay; reflexivity. Qed.

Lemma contains_iff needle hay :
  contains needle hay = true <->
  exists pre post, hay = (pre ++ needle ++ post)%string.
Proof.
  split.
  - induction hay as [|c hay IH]; rewrite contains_unfold.
    + rewrite orb_false_r. intros H. apply startswith_iff in H.
      destruct H as (post & ->). exists EmptyString, post. reflexivity.
    + intros H. apply orb_true_iff in H. destruct H as [H|H].
      * apply startswith_iff in H. destruct H as (post & ->).
        exists EmptyString, post. reflexivity.
      * destruct (IH H) as (pre & post & ->).
        exists (String c pre), post. reflexivity.
  - intros (pre & post & ->). induction pre as [|c pre IH].
    + rewrite contains_unfold. simpl append.
      assert (H : startswith needle (needle ++ post) = true)
        by (apply startswith_iff; eauto).
      rewrite H. reflexivity.
    + simpl append. rewrite contains_unfold. cbv iota.
      rewrite IH. apply orb_true_r.
Qed.

(** A text that contains a phrase contains every part of the phrase. *)
Lemma contains_inner a b c hay :
  contains (a ++ b ++ c)%string hay = true -> contains b hay = true.
Proof.
  rewrite !contains_iff. intros (pre & post & ->).
  exists (pre ++ a)%string, (c ++ post)%string.
  rewrite !append_assoc. reflexivity.
Qed.

(** ** Strings of digits *)

Lemma digits_value_all_digits s : forall acc v,
  digits_value acc s = Some v -> all_digits s = true.
Proof.
  induction s as [|c s IH]; simpl; intros acc v; [reflexivity|].
  destruct (is_digit c); [|discriminate]. intros H. simpl. eapply IH, H.
Qed.

Lemma int_of_string_all_digits s v :
  int_of_string s = Some v -> all_digits s = true /\ s <> EmptyString.
Proof.
  destruct s as [|c s]; [discriminate|]. unfold int_of_string.
  intros H. split; [eapply digits_value_all_digits, H | discriminate].
Qed.

Lemma is_digit_not_colon c : is_digit c = true -> Ascii.eqb c ":" = false.
Proof.
  intros H. destruct (Ascii.eqb c ":") eqn:E; [|reflexivity].
  apply Ascii.eqb_eq in E. subst. discriminate.
Qed.

Lemma startswith_colon s :
  startswith ":" s = match s with String c _ => Ascii.eqb ":" c | EmptyString => false end.
Proof.
  destruct s as [|c s]; [reflexivity|]. simpl. apply andb_true_r.
Qed.

Lemma contains_colon_digits s :
  all_digits s = true -> contains ":" s = false.
Proof.
  induction s as [|c s IH]; [reflexivity|].
  simpl all_digits. rewrite andb_true_iff. intros (Hc & Hs).
  rewrite contains_unfold, startswith_colon, (IH Hs), orb_false_r.
  rewrite Ascii.eqb_sym. apply is_digit_not_colon, Hc.
Qed.

Lemma contains_colon_clock hs ms : contains ":" (hs ++ ":" ++ ms) = true.
Proof. apply contains_iff. exists hs, ms. reflexivity. Qed.

Lemma split_colon_digits s : forall cur,
  all_digits s = true -> split_colon cur s = [(cur ++ s)%string].
Proof.
  induction s as [|c s IH]; simpl; intros cur.
  - rewrite append_nil_r. reflexivity.
  - rewrite andb_true_iff. intros (Hc & Hs).
    rewrite (is_digit_not_colon _ Hc), (IH _ Hs), append_assoc. reflexivity.
Qed.

Lemma split_colon_clock hs ms : forall cur,
  all_digits hs = true -> all_digits ms = true ->
  split_colon cur (hs ++ ":" ++ ms) = [(cur ++ hs)%string; ms].
Proof.
  induction hs as [|c hs IH]; simpl; intros cur.
  - intros _ Hm. rewrite (split_colon_digits _ _ Hm), append_nil_r. reflexivity.
  - rewrite andb_true_iff. intros (Hc & Hs) Hm.
    rewrite (is_digit_not_colon _ Hc), (IH _ Hs Hm), append_assoc. reflexivity.
Qed.

(** X6.  [_parse_time_string] turns a 12-hour clock time into the
    24-hour one: for an hour from 1 to 12 written in digits, with or
    without minutes, and a marker that is [am] or [pm] in any case, the
    hour of the result is the hour modulo 12, plus 12 for [pm]; the
    minutes are the ones written, or 0. *)
Theorem _parse_time_string_twelve_hour hs ms h m marker :
  int_of_string hs = Some h ->
  int_of_string ms = Some m ->
  1 <= h <= 12 ->
  lower marker = "am" \/ lower marker = "pm" ->
  let shift := if String.eqb (lower marker) "pm" then 12 else 0 in
  _parse_time_string hs (Some marker) = Some (h mod 12 + shift, 0) /\
  _parse_time_string (hs ++ ":" ++ ms) (Some marker) = Some (h mod 12 + shift, m).
Proof.
  intros Hh Hm Hr Hmk. cbv zeta.
  destruct (int_of_string_all_digits _ _ Hh) as (Dh & _).
  destruct (int_of_string_all_digits _ _ Hm) as (Dm & _).
  assert (Ht : truthy_str (Some marker) = true).
  { destruct marker; [destruct Hmk; discriminate|reflexivity]. }
  assert (Hadj :
    (if period_is (Some marker) "pm" && negb (h =? 12) then h + 12
     else if period_is (Some marker) "am" && (h =? 12) then 0 else h)
    = h mod 12 + (if String.eqb (lower marker) "pm" then 12 else 0)).
  { unfold period_is. rewrite Ht. simpl andb.
    destruct (Z.eq_dec h 12) as [->|Hne].
    - destruct Hmk as [-> | ->]; reflexivity.
    - assert (E : (h =? 12) = false) by (apply Z.eqb_neq; exact Hne).
      rewrite E. rewrite Z.mod_small by lia.
      destruct Hmk as [-> | ->]; simpl; lia. }
  unfold _parse_time_string. split.
  - rewrite (contains_colon_digits _ Dh), Hh. rewrite Hadj. reflexivity.
  - rewrite contains_colon_clock, (split_colon_clock _ _ _ Dh Dm).
    simpl map. rewrite Hh, Hm. rewrite Hadj. reflexivity.
Qed.

Section Parser.
Context {tzdb : TzDatabase} {clock : WallClock} {du : Dateutil}.

(** ** Dates *)

Lemma first_in_tomorrow text :
  contains "today" text = false ->
  contains "tomorrow" text = true ->
  first_in relative_patterns text = Some ("tomorrow", 1).
Proof.
  intros H0 H1. unfold first_in, relative_patterns. simpl find.
  rewrite H0, H1. reflexivity.
Qed.

(** X7.  The entry for "day after tomorrow" in the table of relative
    dates is never reached: a text with this phrase also contains
    "tomorrow", which is looked up first, so (unless it also says
    "today") it resolves to midnight of the next day, one day ahead and
    not two. *)
Theorem day_after_tomorrow_is_tomorrow text zone n :
  tz_known zone = true ->
  contains "day after tomorrow" text = true ->
  contains "today" text = false ->
  let now_ := at_instant zone (reading n) in
  _parse_date_part text zone n =
    (Ok (mk_dt ((date now_ + 1) * DAY) (tz now_)), S n).
Proof.
  intros Hz Hd Ht. cbv zeta.
  assert (Htm : contains "tomorrow" text = true)
    by (apply (contains_inner "day after " "tomorrow" ""), Hd).
  unfold _parse_date_part. munfold. rewrite Hz.
  rewrite (first_in_tomorrow _ Ht Htm).
  rewrite replace_midnight, date_add_days. reflexivity.
Qed.

(** ** Named periods of the day *)

Lemma range_loop_no_match patterns text zone n :
  first_range_match patterns text = None ->
  range_loop patterns text zone n = (Ok None, n).
Proof.
  induction patterns as [|[p a] rest IH]; simpl; [reflexivity|].
  destruct (search true p text) as [m|]; [|exact IH].
  destruct (range_groups a m) as [[[[st sp] et] ep]|]; [discriminate|exact IH].
Qed.

Lemma first_in_night text :
  contains "morning" text = false ->
  contains "afternoon" text = false ->
  contains "evening" text = false ->
  contains "night" text = true ->
  first_in time_patterns text = Some ("night", (21, 24)).
Proof.
  intros H0 H1 H2 H3. unfold first_in, time_patterns. simpl find.
  rewrite H0, H1, H2, H3. reflexivity.
Qed.

(** X8.  A text that says "night" ("tonight" and "midnight" included)
    but not "morning", "afternoon" or "evening", and holds no clock
    range, is never resolved: the table gives the night the hours 21 to
    24, the end of the period is built with [hour=24], which raises, and
    [parse] answers [None].  The entry for "midnight" is never reached. *)
Theorem night_is_never_resolved text zone n :
  let t := strip (lower text) in
  contains "night" t = true ->
  contains "morning" t = false ->
  contains "afternoon" t = false ->
  contains "evening" t = false ->
  first_range_match range_patterns t = None ->
  fst (parse text zone n) = Ok None.
Proof.
  cbv zeta. intros Hn H0 H1 H2 Hr.
  unfold parse, try_except, _parse_time_range. unfold bind at 1.
  rewrite (range_loop_no_match _ _ _ _ Hr).
  unfold _parse_single_datetime. unfold bind at 1 2.
  destruct (_parse_date_part _ zone n) as [[dp|e] n0]; [|reflexivity].
  assert (Hp : existsb (fun kv : string * (Z * Z) => contains (fst kv) (strip (lower text)))
                 time_patterns = true).
  { apply existsb_exists. exists ("night", (21, 24)). split; [|exact Hn].
    simpl. auto. }
  rewrite Hp, andb_false_r. simpl andb. cbv iota.
  rewrite (first_in_night _ H0 H1 H2 Hn).
  cbv beta iota. simpl existsb. cbv iota.
  munfold.
  destruct (replace dp 21 0 0 0) as [s|x]; [|reflexivity].
  reflexivity.
Qed.

(** ** The shape of a result *)

Lemma replace_end_of_day d :
  replace d 23 59 59 999999 = Ok (mk_dt (date d * DAY + (DAY - 1)) (tz d)).
Proof. unfold replace. simpl. do 2 f_equal. unfold_units. lia. Qed.

Lemma date_of_wall_exact w t : date (mk_dt (w * DAY) t) = w.
Proof. unfold date. simpl. apply Z.div_mul. unfold_units. lia. Qed.

Lemma _parse_single_datetime_shape text zone dur n r n' :
  _parse_single_datetime text zone dur n = (Ok (Some r), n') ->
  (is_range r = true /\ duration_minutes r = None /\
   (is_full_day r = Some true ->
      wall (start r) = date (start r) * DAY /\
      end_ r = add (start r) (DAY - 1))) \/
  (is_range r = false /\ is_full_day r = None /\
   duration_minutes r = Some dur /\
   end_ r = add (start r) (minutes dur)).
Proof.
  unfold _parse_single_datetime. unfold bind at 1.
  destruct (_parse_date_part text zone n) as [[dp|e] n0]; [|discriminate].
  match goal with |- context [if ?c then _ else _] => destruct c end.
  { munfold. rewrite replace_midnight, replace_end_of_day.
    intros [= <- <-]. left. simpl.
    split; [reflexivity|]. split; [reflexivity|]. intros _.
    split; [rewrite date_of_wall_exact; reflexivity | reflexivity]. }
  destruct (if existsb _ time_patterns then first_in time_patterns text else None)
    as [[phrase [sh eh]]|].
  { destruct (existsb (String.eqb phrase) exact_phrases).
    - munfold. destruct (replace dp sh 0 0 0) as [s|e]; [|discriminate].
      intros [= <- <-]. right. simpl. auto.
    - munfold. destruct (replace dp sh 0 0 0) as [s|e]; [|discriminate].
      destruct (replace dp eh 0 0 0) as [e|x]; [|discriminate].
      intros [= <- <-]. left. simpl.
      split; [reflexivity|]. split; [reflexivity|]. discriminate. }
  assert (Hf : forall r0, fuzzy_single text zone dur dp = Some r0 ->
            is_range r0 = false /\ is_full_day r0 = None /\
            duration_minutes r0 = Some dur /\
            end_ r0 = add (start r0) (minutes dur)).
  { intros r0. unfold fuzzy_single.
    destruct (fuzzy_parse text dp) as [p|e]; [|discriminate].
    destruct (timezone zone) as [z|e]; [|discriminate].
    intros [= <-]. simpl. auto. }
  destruct (if matches true time_regex text then _ else None) as [r0|] eqn:A.
  { munfold. intros [= <- <-]. right.
    destruct (matches true time_regex text); [|discriminate]. auto. }
  destruct (fuzzy_single text zone dur dp) as [r0|] eqn:B.
  { munfold. intros [= <- <-]. right. auto. }
  munfold. discriminate.
Qed.

Lemma range_result_shape text zone st et n r n' :
  range_result text zone st et n = (Ok (Some r), n') ->
  is_range r = true /\ duration_minutes r = None /\ is_full_day r = None.
Proof.
  unfold range_result. munfold.
  destruct (tz_known zone); [|discriminate].
  destruct (_get_date_range_from_text text _ (S n)) as [[[s e]|x] m];
    [|discriminate].
  destruct (replace s _ _ 0 0); [|discriminate].
  destruct (replace e _ _ 0 0); [|discriminate].
  intros [= <- <-]. simpl. auto.
Qed.

Lemma parse_cases text zone n r n' :
  parse text zone n = (Ok (Some r), n') ->
  (exists st et, range_result (strip (lower text)) zone st et n = (Ok (Some r), n')) \/
  _parse_single_datetime (strip (lower text)) zone
    (or_int (extract_duration (strip (lower text))) 30) n = (Ok (Some r), n').
Proof.
  unfold parse, try_except, bind, _parse_time_range.
  destruct (range_loop range_patterns (strip (lower text)) zone n)
    as [[[r0|]|e] n0] eqn:L.
  - unfold ret. intros [= <- <-]. left. eapply range_loop_some, L.
  - apply range_loop_none in L. subst n0.
    destruct (_parse_single_datetime _ zone _ n) as [[[r1|]|e] n1] eqn:S1;
      unfold ret; try discriminate.
    intros [= <- <-]. right. reflexivity.
  - unfold ret. discriminate.
Qed.

(** X9.  A result of [parse] is either a range, which carries no
    [duration_minutes], or a single point in time, whose end is its start
    plus [duration_minutes]; that duration is the one [extract_duration]
    reads from the normalised text, or 30 minutes when it reads none (or
    reads zero). *)
Theorem parse_single_time_ends_after_duration text zone n r n' :
  parse text zone n = (Ok (Some r), n') ->
  let d := or_int (extract_duration (strip (lower text))) 30 in
  (is_range r = true /\ duration_minutes r = None) \/
  (is_range r = false /\ is_full_day r = None /\
   duration_minutes r = Some d /\ 0 < d /\
   end_ r = add (start r) (minutes d)).
Proof.
  intros H. cbv zeta. apply parse_cases in H. destruct H as [(st & et & H)|H].
  - apply range_result_shape in H. left. tauto.
  - apply _parse_single_datetime_shape in H.
    destruct H as [(? & ? & _)|(? & ? & ? & ?)]; [left; auto|right].
    repeat split; auto. apply or_int_extract_duration_pos.
Qed.

(** X10.  A result of [parse] that is marked [is_full_day] is a range from
    midnight to 23:59:59.999999 of one day in one zone: its end is its
    start plus a day less a microsecond. *)
Theorem parse_full_day_window text zone n r n' :
  parse text zone n = (Ok (Some r), n') ->
  is_full_day r = Some true ->
  is_range r = true /\
  wall (start r) = date (start r) * DAY /\
  end_ r = add (start r) (DAY - 1).
Proof.
  intros H Hfd. apply parse_cases in H. destruct H as [(st & et & H)|H].
  - apply range_result_shape in H. destruct H as (_ & _ & H). congruence.
  - apply _parse_single_datetime_shape in H.
    destruct H as [(? & _ & H)|(_ & H & _)]; [|congruence].
    destruct (H Hfd). auto.
Qed.

(** ** Week ranges *)

Lemma date_sub_days d k : date (add d (- days k)) = date d - k.
Proof.
  replace (- days k) with (days (- k)) by (unfold days; lia).
  rewrite date_add_days. lia.
Qed.

Lemma weekday_of_date d : weekday d = (date d + 3) mod 7.
Proof. reflexivity. Qed.

Lemma monday_before d : (date d - weekday d + 3) mod 7 = 0.
Proof.
  rewrite weekday_of_date.
  replace (date d - (date d + 3) mod 7 + 3)
    with ((date d + 3) - (date d + 3) mod 7) by lia.
  pose proof (Z.div_mod (date d + 3) 7 ltac:(lia)) as E.
  replace (date d + 3 - (date d + 3) mod 7)
    with (((date d + 3) / 7) * 7) by lia.
  apply Z.mod_mul. lia.
Qed.

(** X11.  For a text with "this week" or "next week" the date range of
    a clock range runs from a Monday to the Sunday six days later: with
    "this week" it is the week that holds the current day, otherwise
    it starts on the first Monday after the current day.  The clock is
    not read. *)
Theorem week_ranges_run_monday_to_sunday text now_ n s e n' :
  contains "this week" (lower text) = true \/
  contains "next week" (lower text) = true ->
  _get_date_range_from_text text now_ n = (Ok (s, e), n') ->
  weekday s = 0 /\ weekday e = 6 /\ date e = date s + 6 /\ n' = n /\
  (if contains "this week" (lower text)
   then date s <= date now_ <= date e
   else date now_ < date s <= date now_ + 7).
Proof.
  intros Hw. unfold _get_date_range_from_text. munfold.
  pose proof (weekday_range now_) as Hr.
  pose proof (monday_before now_) as Hm.
  set (w := weekday now_) in *. clearbody w.
  assert (Hs : (date now_ - w + 6 + 3) mod 7 = 6).
  { replace (date now_ - w + 6 + 3) with ((date now_ - w + 3) + 6) by lia.
    rewrite Z.add_mod, Hm by lia. reflexivity. }
  destruct (contains "this week" (lower text)).
  - intros [= <- <- <-]. change 518400000000 with (days 6).
    rewrite !weekday_of_date, !date_add_days, !date_sub_days.
    repeat split; try lia; assumption.
  - destruct Hw as [Hw|Hw]; [discriminate|]. rewrite Hw.
    remember (7 - w) as k eqn:Ek.
    intros [= <- <- <-]. change 518400000000 with (days 6).
    rewrite !weekday_of_date, !date_add_days.
    repeat split; try lia.
    + replace (date now_ + k + 3)
        with ((date now_ - w + 3) + 1 * 7) by lia.
      rewrite Z.mod_add by lia. exact Hm.
    + replace (date now_ + k + 6 + 3)
        with ((date now_ - w + 6 + 3) + 1 * 7) by lia.
      rewrite Z.mod_add by lia. exact Hs.
Qed.

End Parser.

(** ** [_parse_time_part] *)

(** X12.  [_parse_time_part] reads minutes only from a clock time that
    is followed by [am] or [pm]: for a text without one, the minutes of
    the result are 0 whatever the text says, since a match of
    [(\d{1,2}):(\d{2})] is handled by the branch for an hour and a
    marker; and a text in which none of the first three patterns
    matches gives [None] even when it holds four digits in a row, since
    no branch handles a pattern with one group. *)
Theorem _parse_time_part_without_marker text :
  search true clock_marker_re text = None ->
  (forall h m, _parse_time_part text = Ok (Some (h, m)) -> m = 0) /\
  (search true hour_marker_re text = None ->
   search true clock_only_re text = None ->
   _parse_time_part text = Ok None).
Proof.
  intros H1. unfold _parse_time_part, time_part_patterns.
  simpl time_part_loop. rewrite H1. split.
  - intros h m.
    destruct (search true hour_marker_re text) as [m2|].
    { destruct (int_or_raise (group_str m2 1)); [|discriminate].
      intros [= _ <-]. reflexivity. }
    destruct (search true clock_only_re text) as [m3|].
    { destruct (int_or_raise (group_str m3 1)); [|discriminate].
      intros [= _ <-]. reflexivity. }
    destruct (search true four_digits_re text); discriminate.
  - intros -> ->. destruct (search true four_digits_re text); reflexivity.
Qed.

(** ** [get_relative_date] *)

Section RelativeDate.
Context {tzdb : TzDatabase} {clock : WallClock} {du : Dateutil}
        {rd : Relativedelta}.

Lemma no_day_after_tomorrow text :
  contains "tomorrow" text = false ->
  contains "day after tomorrow" text = false.
Proof.
  intros H. destruct (contains "day after tomorrow" text) eqn:E; [|reflexivity].
  apply (contains_inner "day after " "tomorrow" "") in E. congruence.
Qed.

Ltac found_date E :=
  match type of E with
  | (Ok (Some ?x), _) = (Ok (Some ?d), _) =>
      assert (d = x) by congruence; subst d; clear E
  end.

(** X13.  [get_relative_date] and the date part of the parser agree on
    the day: for a text without "yesterday" and "next month", whenever
    [get_relative_date] finds a date from the current time, the parser's
    [_parse_date_part] resolves the lower-cased text to midnight of that
    date. *)
Theorem get_relative_date_agrees_with_parser text zone n d :
  tz_known zone = true ->
  contains "yesterday" (lower text) = false ->
  contains "next month" (lower text) = false ->
  get_relative_date text (Some (at_instant zone (reading n))) n = (Ok (Some d), n) ->
  _parse_date_part (lower text) zone n = (Ok (mk_dt (date d * DAY) (tz d)), S n).
Proof.
  intros Hz Hy Hnm. unfold get_relative_date. munfold. rewrite Hy, Hnm.
  set (base := at_instant zone (reading n)).
  assert (P : forall p k,
    first_in relative_patterns (lower text) = Some (p, k) ->
    _parse_date_part (lower text) zone n =
      (Ok (mk_dt ((date base + k) * DAY) (tz base)), S n)).
  { intros p k E. unfold _parse_date_part. munfold. rewrite Hz, E.
    rewrite replace_midnight, date_add_days. reflexivity. }
  destruct (contains "today" (lower text)) eqn:C0.
  { intros E; found_date E. rewrite (P "today" 0), Z.add_0_r; [reflexivity|].
    unfold first_in, relative_patterns. simpl find. rewrite C0. reflexivity. }
  destruct (contains "tomorrow" (lower text)) eqn:C1.
  { intros E; found_date E. rewrite (P "tomorrow" 1), date_add_days; [reflexivity|].
    unfold first_in, relative_patterns. simpl find. rewrite C0, C1. reflexivity. }
  pose proof (no_day_after_tomorrow _ C1) as C2.
  destruct (contains "next week" (lower text)) eqn:C3.
  { intros E; found_date E. rewrite (P "next week" 7), date_add_days; [reflexivity|].
    unfold first_in, relative_patterns. simpl find.
    rewrite C0, C1, C2, C3. reflexivity. }
  destruct (contains "this week" (lower text)) eqn:C4.
  { intros E; found_date E. rewrite (P "this week" 0), Z.add_0_r; [reflexivity|].
    unfold first_in, relative_patterns. simpl find.
    rewrite C0, C1, C2, C3, C4. reflexivity. }
  destruct (contains "this month" (lower text)) eqn:C5; [|discriminate].
  intros E; found_date E. rewrite (P "this month" 0), Z.add_0_r; [reflexivity|].
  unfold first_in, relative_patterns. simpl find.
  rewrite C0, C1, C2, C3, C4, Hnm, C5. reflexivity.
Qed.

End RelativeDate.

(** ** Witnesses *)

(** Witness of X6: "12:30 AM" is half past midnight. *)
Lemma _parse_time_string_twelve_hour_witness :
  _parse_time_string "12" (Some "AM") = Some (0, 0) /\
  _parse_time_string "12:30" (Some "AM") = Some (0, 30).
Proof.
  apply (_parse_time_string_twelve_hour "12" "30" 12 30 "AM").
  - reflexivity.
  - reflexivity.
  - lia.
  - left. reflexivity.
Defined.

(** Witness of X7: on Monday 2024-01-01 the day after tomorrow is
    resolved to Tuesday. *)
Lemma day_after_tomorrow_is_tomorrow_witness :
  @_parse_date_part utc_only (clock_at monday_9am) dateutil_default
    "the day after tomorrow" "UTC" 0%nat =
  (Ok (mk_dt ((date (@at_instant utc_only "UTC" monday_9am) + 1) * DAY)
             (tz (@at_instant utc_only "UTC" monday_9am))), 1%nat).
Proof.
  apply (@day_after_tomorrow_is_tomorrow utc_only (clock_at monday_9am)
           dateutil_default "the day after tomorrow" "UTC" 0%nat).
  - reflexivity.
  - vm_compute. reflexivity.
  - vm_compute. reflexivity.
Defined.

(** Witness of X8: "Dinner tonight". *)
Lemma night_is_never_resolved_witness :
  fst (@parse utc_only (clock_at monday_9am) dateutil_default
         "Dinner tonight" "UTC" 0%nat) = Ok None.
Proof.
  apply (@night_is_never_resolved utc_only (clock_at monday_9am)
           dateutil_default "Dinner tonight" "UTC" 0%nat);
    vm_compute; reflexivity.
Defined.

(** Witness of X9: "Lunch tomorrow at noon for 45 minutes", read on Monday
    2024-01-01. *)
Lemma parse_single_time_ends_after_duration_witness :
  let d := or_int (extract_duration
                     (strip (lower "Lunch tomorrow at noon for 45 minutes"))) 30 in
  (is_range lunch_tomorrow = true /\ duration_minutes lunch_tomorrow = None) \/
  (is_range lunch_tomorrow = false /\ is_full_day lunch_tomorrow = None /\
   duration_minutes lunch_tomorrow = Some d /\ 0 < d /\
   end_ lunch_tomorrow = add (start lunch_tomorrow) (minutes d)).
Proof.
  apply (@parse_single_time_ends_after_duration utc_only (clock_at monday_9am)
           dateutil_default "Lunch tomorrow at noon for 45 minutes" "UTC"
           0%nat lunch_tomorrow 1%nat).
  vm_compute. reflexivity.
Defined.

(** Witness of X10: "Am I free tomorrow", read on Monday 2024-01-01. *)
Lemma parse_full_day_window_witness :
  is_range all_of_tomorrow = true /\
  wall (start all_of_tomorrow) = date (start all_of_tomorrow) * DAY /\
  end_ all_of_tomorrow = add (start all_of_tomorrow) (DAY - 1).
Proof.
  apply (@parse_full_day_window utc_only (clock_at monday_9am)
           dateutil_default "Am I free tomorrow" "UTC" 0%nat
           all_of_tomorrow 1%nat).
  - vm_compute. reflexivity.
  - reflexivity.
Defined.

(** Witness of X11: on Wednesday 2024-01-03 next week runs from Monday the
    8th to Sunday the 14th. *)
Lemma week_ranges_run_monday_to_sunday_witness :
  let s := utc (monday_9am + days 7) in
  let e := utc (monday_9am + days 13) in
  weekday s = 0 /\ weekday e = 6 /\ date e = date s + 6 /\ 0%nat = 0%nat /\
  (if contains "this week" (lower "3-5 pm next week")
   then date s <= date (utc (monday_9am + days 2)) <= date e
   else date (utc (monday_9am + days 2)) < date s
        <= date (utc (monday_9am + days 2)) + 7).
Proof.
  apply (@week_ranges_run_monday_to_sunday utc_only (clock_at monday_9am)
           dateutil_default "3-5 pm next week" (utc (monday_9am + days 2))
           0%nat (utc (monday_9am + days 7)) (utc (monday_9am + days 13))
           0%nat).
  - right. vm_compute. reflexivity.
  - vm_compute. reflexivity.
Defined.

(** Witness of X12: the minutes of "14:30" are lost, and "1430" is not
    read. *)
Lemma _parse_time_part_without_marker_witness :
  (forall h m, _parse_time_part "meet at 14:30" = Ok (Some (h, m)) -> m = 0) /\
  _parse_time_part "meet at 1430" = Ok None.
Proof.
  split.
  - apply (_parse_time_part_without_marker "meet at 14:30").
    vm_compute. reflexivity.
  - apply (_parse_time_part_without_marker "meet at 1430");
      vm_compute; reflexivity.
Defined.

(** Witness of X13: "tomorrow", on Monday 2024-01-01. *)
Lemma get_relative_date_agrees_with_parser_witness :
  let d := add (@at_instant utc_only "UTC" monday_9am) (days 1) in
  @_parse_date_part utc_only (clock_at monday_9am) dateutil_default
    (lower "See you Tomorrow") "UTC" 0%nat =
  (Ok (mk_dt (date d * DAY) (tz d)), 1%nat).
Proof.
  apply (@get_relative_date_agrees_with_parser utc_only (clock_at monday_9am)
           dateutil_default thirty_day_months "See you Tomorrow" "UTC" 0%nat).
  - reflexivity.
  - vm_compute. reflexivity.
  - vm_compute. reflexivity.
  - vm_compute. reflexivity.
Defined.

End ResolverProperties.
(** * Further properties of the conversation graph *)

Module ConversationProperties.
Import DT Text Re Eff Utils CalendarService Agent IsoText Fixtures.
Import CalendarServiceProofs UtilsProofs AgentProofs.

Section Graph.
Context {tzdb : TzDatabase} {clock : WallClock} {du : Dateutil}
        {cal : Provider} {llm : LanguageModel} {fmt : Formatting}
        {iso : IsoFormat}.

(** ** What [_check_availability] offers *)

Lemma after_now_future now_ slots slot :
  In slot (after_now now_ slots) -> instant now_ < instant (s_start slot).
Proof.
  unfold after_now. intros H. apply filter_In in H. destruct H as (_ & H).
  unfold dt_gt in H. apply Z.ltb_lt in H. exact H.
Qed.

Lemma in_firstn {A} (x : A) : forall k l, In x (firstn k l) -> In x l.
Proof.
  induction k as [|k IH]; intros l H; [destruct H|].
  destruct l as [|y l]; [destruct H|].
  destruct H as [->|H]; [left; reflexivity | right; apply IH, H].
Qed.

Lemma firstn_after_now_future k now_ slots slot :
  In slot (firstn k (after_now now_ slots)) ->
  instant now_ < instant (s_start slot).
Proof. intros H. eapply after_now_future, in_firstn, H. Qed.

Lemma Returns_inj {A} (a b : A) : Returns a = Returns b -> a = b.
Proof. congruence. Qed.

Lemma Returns_pair_inj {A} (a b : A) (n m : nat) :
  (Returns a, n) = (Returns b, m) -> a = b /\ n = m.
Proof. split; congruence. Qed.

Ltac returned :=
  let E := fresh "E" in
  intros E;
  first [ apply Returns_inj in E
        | apply Returns_pair_inj in E; destruct E as (E & ?) ];
  subst.

Lemma Some_inj {A} (a b : A) : Some a = Some b -> a = b.
Proof. congruence. Qed.

Ltac offered H0 :=
  returned; cbn -[firstn after_now];
  first [ rewrite H0; discriminate
        | let Es := fresh "Es" in
          intros slots Es; apply Some_inj in Es; subst slots; split;
          [ intros slot Hs | intros Hb0 Hb1 ] ].

Lemma check_single_time_offers state now_ start_time state' :
  available_slots state = None ->
  check_single_time state now_ start_time = Returns state' ->
  forall slots, available_slots state' = Some slots ->
    (forall slot, In slot slots -> instant now_ < instant (s_start slot)) /\
    (truthy_flag (requested_slot_busy (ctx state)) = false ->
     truthy_flag (requested_slot_busy (ctx state')) = true ->
     (List.length slots <= 5)%nat).
Proof.
  intros H0. unfold check_single_time.
  destruct (timedelta_minutes _) as [delta|x]; [|offered H0].
  destruct (checked_add start_time delta) as [end_time|x]; [|offered H0].
  destruct (le_checked start_time now_) as [[|]|x] eqn:Le.
  { offered H0; [destruct Hs | simpl in Hb1; congruence]. }
  2:{ offered H0. }
  apply le_checked_ok in Le. symmetry in Le. apply Z.leb_gt in Le.
  destruct (check_availability _ _).
  { offered H0; [|congruence].
    destruct Hs as [<-|[]]. simpl. exact Le. }
  destruct (replace start_time 0 0 0 0) as [ds|x]; [|offered H0].
  destruct (checked_add ds (days 1)) as [de|x]; [|offered H0].
  cbv zeta. destruct (find_free_slots _ _) as [l|x|]; [| |discriminate].
  - offered H0; [eapply firstn_after_now_future, Hs|].
    rewrite length_firstn. lia.
  - offered H0.
Qed.

Lemma check_extracted_offers state now_ ex state' :
  available_slots state = None ->
  check_extracted state now_ ex = Returns state' ->
  forall slots, available_slots state' = Some slots ->
    (forall slot, In slot slots -> instant now_ < instant (s_start slot)) /\
    (truthy_flag (requested_slot_busy (ctx state)) = false ->
     truthy_flag (requested_slot_busy (ctx state')) = true ->
     (List.length slots <= 5)%nat).
Proof.
  intros H0. unfold check_extracted.
  destruct (is_range ex && negb (truthy_flag (is_full_day ex))
            && (date (start ex) <? date (end_ ex))).
  { destruct (day_loop _ _ now_ _ _ _ []) as [l|x|]; [| |discriminate].
    - offered H0; [eapply after_now_future, Hs | congruence].
    - offered H0. }
  destruct (is_range ex || truthy_flag (is_full_day ex)).
  { destruct (find_free_slots _ _) as [l|x|]; [| |discriminate].
    - offered H0; [eapply after_now_future, Hs | congruence].
    - offered H0. }
  apply check_single_time_offers, H0.
Qed.

(** X14.  [_check_availability] offers only times that are still to
    come: on a state that holds no slots yet, every slot it puts in
    [available_slots] starts after the clock reading the node takes;
    and when it marks the requested time as busy, it offers at most five
    alternatives. *)
Theorem _check_availability_offers_future_slots state n state' n' slots :
  available_slots state = None ->
  _check_availability state n = (Returns state', n') ->
  available_slots state' = Some slots ->
  (forall slot, In slot slots -> reading n < instant (s_start slot)) /\
  (truthy_flag (requested_slot_busy (ctx state)) = false ->
   truthy_flag (requested_slot_busy (ctx state')) = true ->
   (List.length slots <= 5)%nat).
Proof.
  intros H0. unfold _check_availability.
  destruct (negb is_authenticated).
  { gunfold. returned. simpl. rewrite H0. discriminate. }
  unfold timezone. destruct (tz_known (user_timezone state)).
  2:{ gunfold. returned. simpl. rewrite H0. discriminate. }
  gunfold.
  pose proof (instant_at_instant (user_timezone state) (reading n)) as Hi.
  set (now_ := at_instant (user_timezone state) (reading n)) in *.
  assert (Hx : forall st ex s,
            available_slots st = None ->
            requested_slot_busy (ctx st) = requested_slot_busy (ctx state) ->
            check_extracted st now_ ex = Returns s ->
            available_slots s = Some slots ->
            (forall slot, In slot slots -> reading n < instant (s_start slot)) /\
            (truthy_flag (requested_slot_busy (ctx state)) = false ->
             truthy_flag (requested_slot_busy (ctx s)) = true ->
             (List.length slots <= 5)%nat)).
  { intros st ex s Hn Hb C Hs.
    destruct (check_extracted_offers _ _ _ _ Hn C _ Hs) as (P1 & P2).
    split; [intros slot Hin; rewrite <- Hi; apply P1, Hin|].
    rewrite Hb in P2. exact P2. }
  destruct (extracted_datetime state) as [ex|].
  { destruct (check_extracted state _ ex) as [s|x|] eqn:C; try discriminate.
    returned. apply (Hx state ex state' H0 eq_refl C). }
  destruct (last_discussed_datetime (ctx state)) as [ld|].
  { destruct (check_extracted _ _ ld) as [s|x|] eqn:C; try discriminate.
    returned. apply (Hx (set_extracted state (Some ld)) ld state' H0 eq_refl C). }
  destruct (checked_add now_ (days 7)) as [end_date|x].
  2:{ returned. simpl. rewrite H0. discriminate. }
  destruct (get_availability _ _ _) as [l|x|]; try discriminate.
  - returned. cbn -[after_now]. intros Es. apply Some_inj in Es. subst slots.
    split.
    + intros slot Hs. rewrite <- Hi. eapply after_now_future, Hs.
    + congruence.
  - returned. simpl. rewrite H0. discriminate.
Qed.

(** ** What the nodes leave alone *)

Lemma Ok_pair_inj {A} (a b : A) (n m : nat) :
  (Ok a, n) = (Ok b, m) -> a = b /\ n = m.
Proof. split; congruence. Qed.

Ltac carried :=
  unfold carries_over, past_flagged; simpl; repeat split; auto.

Lemma carries_over_refl s : carries_over s s.
Proof. carried. Qed.

Lemma carries_over_trans a b c :
  carries_over a b -> carries_over b c -> carries_over a c.
Proof.
  intros (A1 & A2 & A3 & A4) (B1 & B2 & B3 & B4).
  repeat split; [congruence|congruence|congruence|auto].
Qed.

Lemma _parse_intent_carries state : carries_over state (_parse_intent state).
Proof.
  unfold _parse_intent.
  destruct (last_message state); [destruct (intent_reply _)|]; carried.
Qed.

Lemma store_parsed_carries state message p :
  carries_over state (store_parsed state message p).
Proof.
  unfold store_parsed.
  destruct (extract_duration message) as [d|]; [|carried].
  destruct (negb (d =? 0)); [|carried].
  destruct (timedelta_minutes d) as [delta|x]; [|carried].
  destruct (checked_add (start p) delta); carried.
Qed.

Lemma _parse_datetime_carries state n s1 n1 :
  _parse_datetime state n = (Ok s1, n1) -> carries_over state s1.
Proof.
  unfold _parse_datetime. destruct (last_message state) as [m|].
  - unfold bind.
    destruct (parse _ _ n) as [[[p|]|x] n0]; unfold ret; try discriminate;
      intros E; apply Ok_pair_inj in E; destruct E as (<- & _).
    + apply store_parsed_carries.
    + apply carries_over_refl.
  - unfold ret. intros E. apply Ok_pair_inj in E. destruct E as (<- & _).
    apply carries_over_refl.
Qed.

Lemma check_single_time_carries state now_ start_time state' :
  check_single_time state now_ start_time = Returns state' ->
  carries_over state state'.
Proof.
  unfold check_single_time.
  destruct (timedelta_minutes _) as [delta|x]; [|returned; carried].
  destruct (checked_add start_time delta) as [end_time|x]; [|returned; carried].
  destruct (le_checked start_time now_) as [[|]|x]; [returned; carried| |returned; carried].
  destruct (check_availability _ _).
  { returned; carried. }
  destruct (replace start_time 0 0 0 0) as [ds|x]; [|returned; carried].
  destruct (checked_add ds (days 1)) as [de|x]; [|returned; carried].
  cbv zeta. destruct (find_free_slots _ _) as [l|x|]; [| |discriminate];
    returned; carried.
Qed.

Lemma check_extracted_carries state now_ ex state' :
  check_extracted state now_ ex = Returns state' -> carries_over state state'.
Proof.
  unfold check_extracted.
  destruct (is_range ex && negb (truthy_flag (is_full_day ex))
            && (date (start ex) <? date (end_ ex))).
  { destruct (day_loop _ _ now_ _ _ _ []) as [l|x|]; [| |discriminate];
      returned; carried. }
  destruct (is_range ex || truthy_flag (is_full_day ex)).
  { destruct (find_free_slots _ _) as [l|x|]; [| |discriminate];
      returned; carried. }
  apply check_single_time_carries.
Qed.

Lemma _check_availability_carries state n state' n' :
  _check_availability state n = (Returns state', n') ->
  carries_over state state'.
Proof.
  unfold _check_availability.
  destruct (negb is_authenticated).
  { gunfold. returned. carried. }
  unfold timezone. destruct (tz_known (user_timezone state)).
  2:{ gunfold. returned. carried. }
  gunfold.
  destruct (extracted_datetime state) as [ex|].
  { destruct (check_extracted state _ ex) as [s|x|] eqn:C; try discriminate.
    returned. apply (check_extracted_carries _ _ _ _ C). }
  destruct (last_discussed_datetime (ctx state)) as [ld|].
  { destruct (check_extracted _ _ ld) as [s|x|] eqn:C; try discriminate.
    returned.
    apply (carries_over_trans _ (set_extracted state (Some ld))); [carried|].
    apply (check_extracted_carries _ _ _ _ C). }
  destruct (checked_add _ (days 7)) as [end_date|x]; [|returned; carried].
  destruct (get_availability _ _ _) as [l|x|]; try discriminate;
    returned; carried.
Qed.

(** The last node keeps the context and the slots; it asks for a
    confirmation in one case only. *)
Lemma _generate_response_confirms state :
  needs_confirmation state = false ->
  ctx (_generate_response state) = ctx state /\
  available_slots (_generate_response state) = available_slots state /\
  ((needs_confirmation (_generate_response state) = false /\
    confirmation_data (_generate_response state) = confirmation_data state) \/
   (truthy_flag (requested_slot_past (ctx state)) = false /\
    exists slot,
      available_slots state = Some [slot] /\
      needs_confirmation (_generate_response state) = true /\
      confirmation_data (_generate_response state)
        = Some (confirmation_of slot (user_timezone state)))).
Proof.
  intros Hn. unfold _generate_response.
  destruct (intent_ state) as [[| | |]|]; simpl; auto.
  unfold _generate_booking_response.
  destruct (truthy_str (error (ctx state))); simpl; auto.
  destruct (negb (is_some (extracted_datetime state))); simpl; auto.
  destruct (truthy_flag (requested_slot_past (ctx state))); simpl; auto.
  destruct (available_slots state) as [[|slot [|slot' rest]]|] eqn:A.
  - destruct (truthy_flag (requested_slot_busy (ctx state))); simpl; auto.
  - simpl. split; [reflexivity|]. split; [exact A|]. right.
    split; [reflexivity|]. exists slot. auto.
  - simpl. auto.
  - destruct (truthy_flag (requested_slot_busy (ctx state))); simpl; auto.
Qed.

(** The graph ends with [_generate_response]; the nodes before it carry
    the confirmation, the zone and a past flag over. *)
Lemma run_graph_final initial n final n' :
  run_graph initial n = (Returns final, n') ->
  exists s, carries_over initial s /\ final = _generate_response s.
Proof.
  unfold run_graph. unfold gbind at 1. unfold of_M.
  destruct (_parse_datetime (_parse_intent initial) n) as [[s1|x] n1] eqn:P;
    [|discriminate].
  assert (H1 : carries_over initial s1).
  { eapply carries_over_trans;
      [apply _parse_intent_carries | eapply _parse_datetime_carries, P]. }
  destruct (_decide_next_step s1).
  - unfold gbind.
    destruct (_check_availability s1 n1) as [[s2|x|] n2] eqn:C;
      try discriminate.
    unfold gret. returned. exists s2. split; [|reflexivity].
    eapply carries_over_trans; [exact H1|].
    eapply _check_availability_carries, C.
  - unfold gret. returned. exists s1. auto.
Qed.

Lemma turn_start_fields sc session zone msgs :
  needs_confirmation (turn_start sc session zone msgs) = false /\
  confirmation_data (turn_start sc session zone msgs) = None /\
  user_timezone (turn_start sc session zone msgs) = zone /\
  (forall c, session_context sc session = Some c ->
             ctx (turn_start sc session zone msgs) = c).
Proof.
  unfold turn_start. destruct (session_context sc session) as [c|].
  - repeat split. intros c' [= <-]. reflexivity.
  - repeat split. discriminate.
Qed.

(** The two ways [process_message] returns: the normal return of line
    151 and the handler of line 160. *)
Lemma process_message_cases sc session zone history n r sc' n' :
  process_message sc session zone history n = (Returns (r, sc'), n') ->
  (exists msgs final,
     to_messages history = Ok msgs /\
     run_graph (turn_start sc session zone msgs) n = (Returns final, n') /\
     r = mk_result (map to_item (messages final)) (Some session)
           (Some (needs_confirmation final)) (confirmation_data final)
           (available_slots final) None (ctx final) /\
     sc' = (session, ctx final) :: sc) \/
  (exists e,
     r = mk_result (history ++ [mk_item (Some "assistant") (Some apology) None])
           None None None None (Some apology)
           (mk_context (Some (str_exn e)) None None None None) /\
     sc' = sc).
Proof.
  unfold process_message, gtry. unfold gbind at 1. unfold of_M, lift.
  destruct (to_messages history) as [msgs|x] eqn:T.
  - change (match session_context sc session with
            | Some c => set_ctx (initial_state msgs zone session) c
            | None => initial_state msgs zone session
            end) with (turn_start sc session zone msgs).
    unfold gbind.
    destruct (run_graph (turn_start sc session zone msgs) n)
      as [[final|x|] n1] eqn:R.
    + unfold gret. intros E. apply Returns_pair_inj in E.
      destruct E as (E & <-). left. exists msgs, final.
      split; [reflexivity|]. split; [exact R|]. split; congruence.
    + unfold gret. intros E. apply Returns_pair_inj in E.
      destruct E as (E & _). right. exists x. split; congruence.
    + discriminate.
  - unfold gret. intros E. apply Returns_pair_inj in E.
    destruct E as (E & _). right. exists x. split; congruence.
Qed.

(** X15.  A session that once asked for a time in the past cannot book
    any more: when the context stored for the session holds
    [requested_slot_past], no later turn of the session asks for a
    confirmation or carries confirmation data, whatever the user writes,
    and the context stored after the turn still holds the flag.  No node
    takes the flag back. *)
Theorem past_request_blocks_booking sc session zone history n r sc' n' c :
  session_context sc session = Some c ->
  past_flagged c ->
  process_message sc session zone history n = (Returns (r, sc'), n') ->
  r_needs_confirmation r <> Some true /\
  r_confirmation_data r = None /\
  exists c', session_context sc' session = Some c' /\ past_flagged c'.
Proof.
  intros Hc Hp H. apply process_message_cases in H.
  destruct H as [(msgs & final & _ & R & -> & ->)|(e & -> & ->)].
  - destruct (turn_start_fields sc session zone msgs) as (T1 & T2 & _ & T4).
    apply run_graph_final in R. destruct R as (s & (C1 & C2 & _ & C4) & ->).
    assert (Hs : past_flagged (ctx s)) by (apply C4; rewrite (T4 c Hc); exact Hp).
    assert (Hn : needs_confirmation s = false) by congruence.
    destruct (_generate_response_confirms s Hn) as (G1 & _ & [(G2 & G3)|(G2 & _)]).
    + simpl. rewrite G2, G3, G1, String.eqb_refl.
      split; [discriminate|]. split; [congruence|]. eauto.
    + unfold past_flagged in Hs. rewrite Hs in G2. discriminate.
  - simpl. split; [discriminate|]. split; [reflexivity|]. eauto.
Qed.

(** X16.  A turn asks for a confirmation only for exactly one offered
    slot, and the confirmation data describe that slot: its start and
    its end converted to UTC and printed with [isoformat], the title
    "Meeting", no description, no location, and the zone of the turn. *)
Theorem confirmation_describes_the_offered_slot
    sc session zone history n r sc' n' :
  process_message sc session zone history n = (Returns (r, sc'), n') ->
  r_needs_confirmation r = Some true ->
  exists slot,
    r_available_slots r = Some [slot] /\
    r_confirmation_data r = Some (confirmation_of slot zone).
Proof.
  intros H. apply process_message_cases in H.
  destruct H as [(msgs & final & _ & R & -> & ->)|(e & -> & ->)];
    [|discriminate].
  destruct (turn_start_fields sc session zone msgs) as (T1 & _ & T3 & _).
  apply run_graph_final in R. destruct R as (s & (C1 & _ & C3 & _) & ->).
  assert (Hn : needs_confirmation s = false) by congruence.
  destruct (_generate_response_confirms s Hn)
    as (_ & G1 & [(G2 & _)|(_ & slot & G3 & _ & G4)]); simpl.
  - rewrite G2. discriminate.
  - intros _. exists slot. rewrite G1, G3, G4, C3, T3. auto.
Qed.

(** X17.  [process_message] keeps one context per session.  After a
    normal return the context stored for the session is the one the
    result carries, and the contexts of all other sessions are as they
    were; after the handler of line 160 the result carries no
    [session_id], its context holds the error, and nothing is stored. *)
Theorem process_message_stores_context sc session zone history n r sc' n' :
  process_message sc session zone history n = (Returns (r, sc'), n') ->
  (r_session_id r = Some session /\
   session_context sc' session = Some (r_context r) /\
   forall other, other <> session ->
     session_context sc' other = session_context sc other) \/
  (r_session_id r = None /\
   r_response r = Some apology /\
   error (r_context r) <> None /\
   sc' = sc).
Proof.
  intros H. apply process_message_cases in H.
  destruct H as [(msgs & final & _ & _ & -> & ->)|(e & -> & ->)].
  - left. simpl. rewrite String.eqb_refl. repeat split.
    intros other Ho.
    destruct (String.eqb session other) eqn:E; [|reflexivity].
    apply String.eqb_eq in E. congruence.
  - right. simpl. repeat split. discriminate.
Qed.

(** ** Slots by day *)

Lemma times_listed_add day k t m :
  times_listed day (add_to_day k t m) =
  if String.eqb k day then times_listed day m ++ [t] else times_listed day m.
Proof.
  induction m as [|[d0 ts0] rest IH]; simpl.
  - destruct (String.eqb k day); reflexivity.
  - destruct (String.eqb d0 k) eqn:E; simpl.
    + apply String.eqb_eq in E. subst d0.
      destruct (String.eqb k day); reflexivity.
    + destruct (String.eqb d0 day) eqn:D; [|exact IH].
      apply String.eqb_eq in D. subst d0. rewrite String.eqb_sym, E.
      reflexivity.
Qed.

Lemma keys_add_to_day d k t m :
  In d (map fst (add_to_day k t m)) <-> d = k \/ In d (map fst m).
Proof.
  induction m as [|[d0 ts0] rest IH]; simpl.
  - intuition.
  - destruct (String.eqb d0 k) eqn:E; simpl.
    + apply String.eqb_eq in E. subst d0. intuition.
    + rewrite IH. intuition.
Qed.

Lemma keys_add_to_day_nodup k t m :
  NoDup (map fst m) -> NoDup (map fst (add_to_day k t m)).
Proof.
  induction m as [|[d0 ts0] rest IH]; simpl; intros H.
  - constructor; [intros []|constructor].
  - inversion H as [|? ? Hn Hr]; subst.
    destruct (String.eqb d0 k) eqn:E; simpl.
    + exact H.
    + constructor; [|apply IH, Hr].
      rewrite keys_add_to_day. intros [->|Hin]; [|contradiction].
      rewrite String.eqb_refl in E. discriminate.
Qed.

Lemma group_by_day_snoc slots slot :
  group_by_day (slots ++ [slot]) =
  add_to_day (day_key slot) (time_label slot) (group_by_day slots).
Proof. unfold group_by_day. rewrite fold_left_app. reflexivity. Qed.

Lemma times_on_snoc day slots slot :
  times_on day (slots ++ [slot]) =
  times_on day slots ++
  (if String.eqb (day_key slot) day then [time_label slot] else []).
Proof.
  unfold times_on. rewrite filter_app, map_app. simpl.
  destruct (String.eqb (day_key slot) day); reflexivity.
Qed.

(** X18.  [group_by_day], the grouping both reply generators use, loses
    no slot and mixes no days: no day is listed twice, the days listed
    are the days of the slots, and under each day stand the times of the
    slots of that day, all of them, in the order of the slots. *)
Theorem group_by_day_lists_every_slot slots :
  NoDup (map fst (group_by_day slots)) /\
  (forall day, In day (map fst (group_by_day slots)) <->
               exists slot, In slot slots /\ day_key slot = day) /\
  (forall day, times_listed day (group_by_day slots) = times_on day slots).
Proof.
  induction slots as [|slot slots (IH1 & IH2 & IH3)] using rev_ind.
  - split; [constructor|]. split; [|reflexivity].
    intros day. split; [intros []|intros (slot & [] & _)].
  - rewrite group_by_day_snoc. split; [apply keys_add_to_day_nodup, IH1|].
    split.
    + intros day. rewrite keys_add_to_day, IH2. split.
      * intros [->|(s0 & Hin & <-)].
        -- exists slot. split; [apply in_or_app; simpl; auto|reflexivity].
        -- exists s0. split; [apply in_or_app; auto|reflexivity].
      * intros (s0 & Hin & <-). apply in_app_or in Hin.
        destruct Hin as [Hin|[->|[]]]; [right; eauto|left; reflexivity].
    + intros day. rewrite times_listed_add, times_on_snoc, IH3.
      destruct (String.eqb (day_key slot) day);
        [reflexivity|rewrite app_nil_r; reflexivity].
Qed.

End Graph.

(** Witness of X14: lunch is asked for on a day with a meeting from 12 to
    13; five alternatives of that day are offered. *)
Lemma _check_availability_offers_future_slots_witness :
  exists state' slots,
    @_check_availability utc_only (clock_at monday_9am)
      (calendar_with [lunch_meeting]) python_iso asking_for_lunch 0%nat
      = (Returns state', 1%nat) /\
    available_slots state' = Some slots /\
    List.length slots = 5%nat /\
    (forall slot, In slot slots ->
       @reading (clock_at monday_9am) 0%nat < instant (s_start slot)) /\
    (truthy_flag (requested_slot_busy (ctx asking_for_lunch)) = false ->
     truthy_flag (requested_slot_busy (ctx state')) = true ->
     (List.length slots <= 5)%nat).
Proof.
  let r := eval vm_compute in
    (@_check_availability utc_only (clock_at monday_9am)
       (calendar_with [lunch_meeting]) python_iso asking_for_lunch 0%nat) in
  match r with
  | (Returns ?s', _) =>
      let l := eval vm_compute in (available_slots s') in
      match l with
      | Some ?sl =>
          exists s', sl;
          split; [vm_compute; reflexivity|];
          split; [reflexivity|];
          split; [reflexivity|];
          apply (@_check_availability_offers_future_slots utc_only
                   (clock_at monday_9am) (calendar_with [lunch_meeting])
                   python_iso asking_for_lunch 0%nat s' 1%nat sl);
          [reflexivity | vm_compute; reflexivity | reflexivity]
      end
  end.
Defined.

(** Witness of X15: after a request for a past time, "book tomorrow at
    noon" on an empty calendar gets no confirmation. *)
Lemma past_request_blocks_booking_witness :
  exists r sc' n',
    @process_message utc_only (clock_at monday_9am) dateutil_default
      (calendar_with []) llm_booking no_formatting python_iso
      after_past_request "s" "UTC" (user_turn "book tomorrow at noon") 0%nat
      = (Returns (r, sc'), n') /\
    r_needs_confirmation r <> Some true /\
    r_confirmation_data r = None /\
    exists c', session_context sc' "s" = Some c' /\ past_flagged c'.
Proof.
  let r := eval vm_compute in
    (@process_message utc_only (clock_at monday_9am) dateutil_default
       (calendar_with []) llm_booking no_formatting python_iso
       after_past_request "s" "UTC" (user_turn "book tomorrow at noon") 0%nat) in
  match r with
  | (Returns (?res, ?sc), ?k) =>
      exists res, sc, k;
      split; [vm_compute; reflexivity|];
      apply (@past_request_blocks_booking utc_only (clock_at monday_9am)
               dateutil_default (calendar_with []) llm_booking no_formatting
               python_iso
               after_past_request "s" "UTC" (user_turn "book tomorrow at noon")
               0%nat res sc k (set_past empty_context));
      [reflexivity | reflexivity | vm_compute; reflexivity]
  end.
Defined.

(** Witness of X16: in a fresh session the same request is offered for
    confirmation. *)
Lemma confirmation_describes_the_offered_slot_witness :
  exists r sc' n' slot,
    @process_message utc_only (clock_at monday_9am) dateutil_default
      (calendar_with []) llm_booking no_formatting python_iso
      [] "s" "UTC" (user_turn "book tomorrow at noon") 0%nat
      = (Returns (r, sc'), n') /\
    r_needs_confirmation r = Some true /\
    r_available_slots r = Some [slot] /\
    r_confirmation_data r = Some (@confirmation_of python_iso slot "UTC").
Proof.
  let r := eval vm_compute in
    (@process_message utc_only (clock_at monday_9am) dateutil_default
       (calendar_with []) llm_booking no_formatting python_iso
       [] "s" "UTC" (user_turn "book tomorrow at noon") 0%nat) in
  match r with
  | (Returns (?res, ?sc), ?k) =>
      exists res, sc, k;
      destruct (@confirmation_describes_the_offered_slot utc_only
                  (clock_at monday_9am) dateutil_default (calendar_with [])
                  llm_booking no_formatting python_iso
                  [] "s" "UTC" (user_turn "book tomorrow at noon")
                  0%nat res sc k) as (slot & H1 & H2);
      [ vm_compute; reflexivity
      | reflexivity
      | exists slot; split; [vm_compute; reflexivity|];
        split; [reflexivity|]; split; [exact H1 | exact H2] ]
  end.
Defined.

(** Witness of X17: the context of that turn is stored for "s". *)
Lemma process_message_stores_context_witness :
  exists r sc' n',
    @process_message utc_only (clock_at monday_9am) dateutil_default
      (calendar_with []) llm_booking no_formatting python_iso
      after_past_request "t" "UTC" (user_turn "book tomorrow at noon") 0%nat
      = (Returns (r, sc'), n') /\
    ((r_session_id r = Some "t" /\
      session_context sc' "t" = Some (r_context r) /\
      forall other, other <> "t" ->
        session_context sc' other = session_context after_past_request other) \/
     (r_session_id r = None /\
      r_response r = Some apology /\
      error (r_context r) <> None /\
      sc' = after_past_request)).
Proof.
  let r := eval vm_compute in
    (@process_message utc_only (clock_at monday_9am) dateutil_default
       (calendar_with []) llm_booking no_formatting python_iso
       after_past_request "t" "UTC" (user_turn "book tomorrow at noon") 0%nat) in
  match r with
  | (Returns (?res, ?sc), ?k) =>
      exists res, sc, k;
      split; [vm_compute; reflexivity|];
      apply (@process_message_stores_context utc_only (clock_at monday_9am)
               dateutil_default (calendar_with []) llm_booking no_formatting
               python_iso
               after_past_request "t" "UTC" (user_turn "book tomorrow at noon")
               0%nat res sc k);
      vm_compute; reflexivity
  end.
Defined.

End ConversationProperties.
(** * Properties of booking *)

Module BookingProperties.
Import DT Text Re Eff Utils CalendarService Agent Booking IsoText.
Import Fixtures AppFixtures.
Import CalendarServiceProofs UtilsProofs AgentProofs.

Section BookingAnEvent.
Context {tzdb : TzDatabase} {cal : Provider} {fmt : Formatting}
        {api : EventsApi} {iso : IsoFormat}.

(** ** [create_event] *)

Lemma no_overlap_true s e : forall busy,
  no_overlap s e busy = Ok true ->
  forall p, In p busy -> clear_of s e p.
Proof.
  induction busy as [|q busy IH]; intros H p Hp; [destruct Hp|].
  simpl in H.
  destruct (parse_time (p_start q)) as [bs|x] eqn:Ps; [|discriminate].
  destruct (parse_time (p_end q)) as [be|x] eqn:Pe; [|discriminate].
  destruct (lt_checked s be) as [r1|x] eqn:L1; [|discriminate].
  apply lt_checked_ok in L1.
  assert (Hq : clear_of s e q /\ no_overlap s e busy = Ok true).
  { destruct r1.
    - destruct (lt_checked bs e) as [r2|x] eqn:L2; [|discriminate].
      apply lt_checked_ok in L2. destruct r2; [discriminate|].
      split; [|exact H]. exists bs, be. unfold overlaps.
      rewrite <- L1, <- L2. auto.
    - split; [|exact H]. exists bs, be. unfold overlaps.
      rewrite <- L1. auto. }
  destruct Hq as (Hq & Hrest).
  destruct Hp as [<-|Hp]; [exact Hq|apply IH; assumption].
Qed.

Lemma check_availability_free s e :
  check_availability s e = true ->
  is_authenticated = true /\
  exists busy,
    freebusy_query (instant s) (instant e) = Ok busy /\
    forall p, In p busy -> clear_of s e p.
Proof.
  unfold check_availability. rewrite !instant_astimezone_utc.
  destruct is_authenticated; [|discriminate]. simpl.
  destruct (freebusy_query (instant s) (instant e)) as [busy|x]; [|discriminate].
  destruct (no_overlap _ _ busy) as [[|]|x] eqn:N; try discriminate.
  intros _. split; [reflexivity|]. exists busy. split; [reflexivity|].
  intros p Hp. destruct (no_overlap_true _ _ _ N p Hp) as (bs & be & P1 & P2 & O).
  rewrite !instant_astimezone_utc in O. exists bs, be. auto.
Qed.

Lemma check_availability_query_failed s e x :
  freebusy_query (instant s) (instant e) = Raise x ->
  check_availability s e = false.
Proof.
  intros H. unfold check_availability. rewrite !instant_astimezone_utc, H.
  destruct (negb is_authenticated); reflexivity.
Qed.

(** X19.  [create_event] sends at most one event to the provider, the
    one for the UTC start and end of the request, and only into free
    time: when it sends one, the service is authenticated and the
    provider has answered the free/busy query for that span with periods
    whose strings were read and none of which overlaps the span.  When
    that query fails, nothing is sent, and the failure is reported as
    "Time slot is not available". *)
Theorem create_event_inserts_only_into_free_time title_ s e desc loc :
  let event :=
    mk_event_body title_ desc loc (isoformat (astimezone_utc s))
                  (isoformat (astimezone_utc e)) in
  (snd (create_event title_ s e desc loc) = [] \/
   snd (create_event title_ s e desc loc) = [event]) /\
  (snd (create_event title_ s e desc loc) = [event] ->
   is_authenticated = true /\
   exists busy,
     freebusy_query (instant s) (instant e) = Ok busy /\
     forall p, In p busy -> clear_of s e p) /\
  (forall x,
     is_authenticated = true ->
     freebusy_query (instant s) (instant e) = Raise x ->
     create_event title_ s e desc loc
       = (Raise (mk_exn ValueError "Time slot is not available"), [])).
Proof.
  cbv zeta. unfold create_event. split; [|split].
  - destruct (negb is_authenticated); [left; reflexivity|].
    destruct (negb (check_availability s e)); [left; reflexivity|].
    destruct (events_insert _); right; reflexivity.
  - destruct (negb is_authenticated); [discriminate|].
    destruct (check_availability s e) eqn:C; [|discriminate].
    intros _. apply check_availability_free in C. exact C.
  - intros x Ha Hq. rewrite Ha, (check_availability_query_failed _ _ _ Hq).
    reflexivity.
Qed.

(** ** [execute_booking] *)

Lemma astimezone_utc_twice d :
  astimezone_utc (astimezone_utc d) = astimezone_utc d.
Proof.
  pose proof (instant_astimezone_utc d) as H. unfold astimezone_utc in *.
  rewrite H. reflexivity.
Qed.

Lemma check_availability_utc s e :
  check_availability (astimezone_utc s) (astimezone_utc e)
  = check_availability s e.
Proof.
  unfold check_availability. rewrite !astimezone_utc_twice. reflexivity.
Qed.

(** X20.  Confirming books what was offered.  When [execute_booking]
    gets the confirmation data the agent built for a slot, the service
    is authenticated, the zone of the turn is known, [fromisoformat]
    reads back what [isoformat] printed for the two ends, the slot still
    passes [check_availability] and the provider accepts the event, then
    exactly one event is sent, titled "Meeting", whose start and end are
    the strings of the confirmation data; the status is "success" and the
    details carry the provider's id. *)
Theorem execute_booking_books_the_offered_slot slot zone created session :
  is_authenticated = true ->
  tz_known zone = true ->
  fromisoformat (isoformat (astimezone_utc (s_start slot)))
    = Ok (astimezone_utc (s_start slot)) ->
  fromisoformat (isoformat (astimezone_utc (s_end slot)))
    = Ok (astimezone_utc (s_end slot)) ->
  check_availability (s_start slot) (s_end slot) = true ->
  events_insert (meeting_for slot) = Ok created ->
  exists r,
    execute_booking (request_of (confirmation_of slot zone)) session
      = (r, [meeting_for slot]) /\
    ev_start (meeting_for slot) = start_time (confirmation_of slot zone) /\
    ev_end (meeting_for slot) = end_time (confirmation_of slot zone) /\
    b_status r = "success" /\
    b_event_details r =
      Some (mk_details (created_id created) "Meeting"
                       (start_time (confirmation_of slot zone))
                       (end_time (confirmation_of slot zone))
                       (created_htmlLink created) "created").
Proof.
  intros Ha Hz Hs He Hc Hi.
  unfold execute_booking, try_booking. rewrite Ha. simpl negb. cbv iota.
  simpl item. cbv iota. rewrite Hs, He. simpl get_or.
  unfold create_event. rewrite Ha. simpl negb. cbv iota.
  rewrite check_availability_utc, Hc. simpl negb. cbv iota.
  rewrite !astimezone_utc_twice.
  change (mk_event_body "Meeting" EmptyString EmptyString
            (isoformat (astimezone_utc (s_start slot)))
            (isoformat (astimezone_utc (s_end slot))))
    with (meeting_for slot).
  rewrite Hi. unfold timezone. rewrite Hz.
  eexists. split; [reflexivity|]. repeat split.
Qed.

(** X21.  A booking can be reported as failed after the event was
    created.  [execute_booking] looks the zone of the request up only
    after [create_event] has returned: when everything up to there
    succeeds and the zone is unknown, the event has been sent to the
    provider and the answer has the status "error", with the message of
    the zone lookup. *)
Theorem execute_booking_reports_error_after_inserting
    q session start_text end_text s e created :
  is_authenticated = true ->
  q_start_time q = Some start_text ->
  q_end_time q = Some end_text ->
  fromisoformat start_text = Ok s ->
  fromisoformat end_text = Ok e ->
  check_availability s e = true ->
  events_insert
    (mk_event_body (get_or (q_title q) "Meeting")
                   (get_or (q_description q) EmptyString)
                   (get_or (q_location q) EmptyString)
                   (isoformat (astimezone_utc s))
                   (isoformat (astimezone_utc e))) = Ok created ->
  tz_known (get_or (q_user_timezone q) "UTC") = false ->
  execute_booking q session =
    (mk_booking "error"
       ("I'm sorry, but I couldn't book your appointment: '"
        ++ get_or (q_user_timezone q) "UTC" ++ "'. Please try again.")%string
       None,
     [mk_event_body (get_or (q_title q) "Meeting")
                    (get_or (q_description q) EmptyString)
                    (get_or (q_location q) EmptyString)
                    (isoformat (astimezone_utc s))
                    (isoformat (astimezone_utc e))]).
Proof.
  intros Ha Hs He Hps Hpe Hc Hi Hz.
  unfold execute_booking, try_booking. rewrite Ha, Hs, He. simpl negb. cbv iota.
  simpl item. cbv iota. rewrite Hps, Hpe.
  unfold create_event. rewrite Ha, Hc. simpl negb. cbv iota. cbv zeta.
  rewrite Hi. unfold timezone. rewrite Hz.
  unfold str_exn. simpl exn_msg. f_equal. f_equal. cbn [append].
  rewrite ResolverProperties.append_assoc. reflexivity.
Qed.

End BookingAnEvent.

(** Witness of X19: the lunch slot on a calendar with a meeting later in
    the day. *)
Lemma create_event_inserts_only_into_free_time_witness :
  let busy := [z_period (tuesday_noon + 2 * HOUR) (tuesday_noon + 3 * HOUR)] in
  snd (@create_event (calendar_with busy) events_accepted python_iso
         "Lunch" (s_start lunch_slot) (s_end lunch_slot) EmptyString EmptyString)
  = [mk_event_body "Lunch" EmptyString EmptyString noon_text half_past_noon_text] /\
  exists busy',
    @freebusy_query (calendar_with busy)
      (instant (s_start lunch_slot)) (instant (s_end lunch_slot)) = Ok busy' /\
    forall p, In p busy' ->
      @clear_of python_iso (s_start lunch_slot) (s_end lunch_slot) p.
Proof.
  cbv zeta. split; [vm_compute; reflexivity|].
  apply (@create_event_inserts_only_into_free_time
           (calendar_with [z_period (tuesday_noon + 2 * HOUR)
                                    (tuesday_noon + 3 * HOUR)])
           events_accepted python_iso
           "Lunch" (s_start lunch_slot) (s_end lunch_slot)
           EmptyString EmptyString).
  vm_compute. reflexivity.
Defined.

(** Witness of X20: the lunch slot on an empty calendar, in UTC. *)
Lemma execute_booking_books_the_offered_slot_witness :
  exists r,
    @execute_booking utc_only (calendar_with []) no_formatting events_accepted
      python_iso (request_of (@confirmation_of python_iso lunch_slot "UTC")) "s"
      = (r, [@meeting_for python_iso lunch_slot]) /\
    b_status r = "success".
Proof.
  destruct (@execute_booking_books_the_offered_slot utc_only (calendar_with [])
              no_formatting events_accepted python_iso
              lunch_slot "UTC" (mk_created (Some "event-1") None) "s")
    as (r & H1 & _ & _ & H4 & _);
    try (vm_compute; reflexivity).
  exists r. split; [exact H1 | exact H4].
Defined.

(** Witness of X21: the lunch slot asked for from a zone the database
    does not know. *)
Lemma execute_booking_reports_error_after_inserting_witness :
  @execute_booking utc_only (calendar_with []) no_formatting events_accepted
    python_iso lunch_on_mars "s"
  = (mk_booking "error"
       "I'm sorry, but I couldn't book your appointment: 'Mars/Phobos'. Please try again."
       None,
     [mk_event_body "Meeting" EmptyString EmptyString noon_text
                    half_past_noon_text]).
Proof.
  apply (@execute_booking_reports_error_after_inserting utc_only
           (calendar_with []) no_formatting events_accepted python_iso
           lunch_on_mars "s" noon_text half_past_noon_text
           (utc tuesday_noon) (utc (tuesday_noon + minutes 30))
           (mk_created (Some "event-1") None));
    vm_compute; reflexivity.
Defined.

End BookingProperties.
(** * Properties of the session store and the endpoints *)

Module EndpointProperties.
Import DT Text Re Eff Utils CalendarService Agent Booking Main IsoText.
Import Fixtures AppFixtures.
Import CalendarServiceProofs UtilsProofs AgentProofs.

(** ** The store *)

Lemma find_put_same ss id d : find_session (put ss id d) id = Some d.
Proof.
  induction ss as [|[k v] ss IH]; simpl.
  - rewrite String.eqb_refl. reflexivity.
  - destruct (String.eqb k id) eqn:E; simpl; rewrite E; [reflexivity|exact IH].
Qed.

Lemma find_put_other ss id d other :
  other <> id -> find_session (put ss id d) other = find_session ss other.
Proof.
  intros Hne. induction ss as [|[k v] ss IH]; simpl.
  - destruct (String.eqb id other) eqn:E; [|reflexivity].
    apply String.eqb_eq in E. congruence.
  - destruct (String.eqb k id) eqn:E; simpl.
    + apply String.eqb_eq in E. subst k.
      destruct (String.eqb id other) eqn:E'; [|reflexivity].
      apply String.eqb_eq in E'. congruence.
    + destruct (String.eqb k other); [reflexivity|exact IH].
Qed.

Lemma find_remove_same ss id : find_session (remove ss id) id = None.
Proof.
  induction ss as [|[k v] ss IH]; simpl; [reflexivity|].
  destruct (String.eqb k id) eqn:E; simpl; [exact IH|].
  rewrite E. exact IH.
Qed.

Lemma find_remove_other ss id other :
  other <> id -> find_session (remove ss id) other = find_session ss other.
Proof.
  intros Hne. induction ss as [|[k v] ss IH]; simpl; [reflexivity|].
  destruct (String.eqb k id) eqn:E; simpl.
  - apply String.eqb_eq in E. subst k.
    destruct (String.eqb id other) eqn:E'; [|exact IH].
    apply String.eqb_eq in E'. congruence.
  - destruct (String.eqb k other); [reflexivity|exact IH].
Qed.

Section Endpoints.
Context {tzdb : TzDatabase} {clock : WallClock} {du : Dateutil}
        {cal : Provider} {llm : LanguageModel} {fmt : Formatting}
        {api : EventsApi} {iso : IsoFormat}.

Lemma get_session_found ss id d :
  find_session ss id = Some d -> get_session ss id = (d, ss).
Proof. intros H. unfold get_session. rewrite H. reflexivity. Qed.

(** X22.  [get_session] gets or creates.  Afterwards the store holds
    the entry returned under the session's id and every other session is
    as it was.  An entry that was there is returned as it is and the
    store is unchanged; a new entry has an empty history and an empty
    context, and its flag is what the service says at that moment. *)
Theorem get_session_gets_or_creates ss id :
  find_session (snd (get_session ss id)) id = Some (fst (get_session ss id)) /\
  (forall other, other <> id ->
     find_session (snd (get_session ss id)) other = find_session ss other) /\
  match find_session ss id with
  | Some d => get_session ss id = (d, ss)
  | None =>
      fst (get_session ss id)
      = mk_session [] empty_context is_authenticated is_authenticated
  end.
Proof.
  unfold get_session. destruct (find_session ss id) as [d|] eqn:F; simpl.
  - auto.
  - split; [apply find_put_same|]. split; [|reflexivity].
    intros other Hne. apply find_put_other, Hne.
Qed.

(** X23.  The flag of the session gates the chat, not the state of the
    service: a session stored as not authenticated is answered with the
    request to connect, whatever the service says now; the clock is not
    read, the agent is not called, and nothing changes. *)
Theorem chat_endpoint_requires_session_flag a message n d :
  find_session (sessions_ a) (cm_session_id message) = Some d ->
  authenticated d = false ->
  chat_endpoint a message n
  = (Returns (please_connect (cm_session_id message), a), n).
Proof.
  intros F Ha. unfold chat_endpoint.
  rewrite (get_session_found _ _ _ F), Ha.
  change (negb true) with false; change (negb false) with true; cbv iota.
  unfold gret, please_connect. destruct a. reflexivity.
Qed.

(** X24.  A turn of the chat stores what the agent hands back, and the
    agent hands back no timestamp.  For an authenticated session whose
    stored items all have a content, [chat_endpoint] returns the
    assistant's reply; the history stored afterwards is the old history
    as the agent reads it, the user's message and the reply, none of
    them with a timestamp: the time [chat_endpoint] writes with the
    user's message does not outlast the turn.  The context stored with
    the session is the one the agent keeps for the session. *)
Theorem chat_endpoint_stores_the_turn a message n d :
  find_session (sessions_ a) (cm_session_id message) = Some d ->
  authenticated d = true ->
  forallb has_content (conversation_history d) = true ->
  exists reply response a' n' d',
    chat_endpoint a message n = (Returns (response, a'), n') /\
    cr_response response = reply /\
    find_session (sessions_ a') (cm_session_id message) = Some d' /\
    conversation_history d'
    = map as_agent_reads (conversation_history d)
      ++ [mk_item (Some "user") (Some (cm_message message)) None;
          mk_item (Some "assistant") (Some reply) None] /\
    Forall no_timestamp (conversation_history d') /\
    session_context (agent_contexts a') (cm_session_id message)
    = Some (stored_context d').
Proof.
  intros F Ha Hc. unfold chat_endpoint.
  rewrite (get_session_found _ _ _ F), Ha.
  change (negb true) with false; change (negb false) with true; cbv iota.
  unfold gbind, of_M, now_utc.
  set (stamp := isoformat (mk_dt (reading n) (Some (mk_tz "UTC" 0)))).
  set (history := conversation_history d
                  ++ [mk_item (Some "user") (Some (cm_message message))
                              (Some stamp)]).
  assert (Hh : forallb has_content history = true).
  { subst history. rewrite forallb_app, Hc. reflexivity. }
  destruct (process_message_with_content (agent_contexts a)
              (cm_session_id message) (cm_user_timezone message)
              history (S n) Hh) as (final & n' & reply & P & Hm).
  rewrite P.
  assert (Hm' : map to_item (messages final)
                = (map as_agent_reads (conversation_history d)
                   ++ [mk_item (Some "user") (Some (cm_message message)) None])
                  ++ [mk_item (Some "assistant") (Some reply) None]).
  { rewrite Hm. subst history. rewrite map_app. reflexivity. }
  cbn [r_conversation_history r_context r_needs_confirmation
       r_confirmation_data r_available_slots
       set_history set_stored_context conversation_history stored_context
       authenticated with_calendar_service].
  unfold chat_reply. cbn [r_needs_confirmation r_confirmation_data r_available_slots].
  rewrite Hm', (map_app Some).
  change (map Some [mk_item (Some "assistant") (Some reply) None])
    with [Some (mk_item (Some "assistant") (Some reply) None)].
  rewrite last_last. cbn [role content]. simpl String.eqb.
  cbv iota.
  eexists reply, _, _, n', _. split; [reflexivity|].
  split; [reflexivity|].
  cbn [sessions_ agent_contexts]. split; [apply find_put_same|].
  cbn [conversation_history stored_context].
  split; [rewrite <- app_assoc; reflexivity|]. split.
  - apply Forall_app. split; [apply Forall_app; split|].
    + rewrite Forall_forall. intros item Hi. apply in_map_iff in Hi.
      destruct Hi as (x & <- & _). reflexivity.
    + repeat constructor.
    + repeat constructor.
  - simpl. rewrite String.eqb_refl. reflexivity.
Qed.

(** X25.  [/confirm-booking] never answers 401.  The [HTTPException]
    with the status 401 that it raises for a session that is not
    authenticated is caught by its own handler and leaves as a 500;
    nothing is sent to the provider and nothing is stored.  A request
    that is not confirmed is answered as cancelled, and nothing is sent
    either. *)
Theorem confirm_booking_never_answers_401 a confirmation_ n :
  answer (fst (confirm_booking a confirmation_ n)) <> HTTPException 401 /\
  (forall d,
     find_session (sessions_ a) (bc_session_id confirmation_) = Some d ->
     authenticated d = false ->
     confirm_booking a confirmation_ n
     = (mk_outcome (HTTPException 500) a [], n)) /\
  (forall d,
     find_session (sessions_ a) (bc_session_id confirmation_) = Some d ->
     authenticated d = true ->
     bc_confirmed confirmation_ = false ->
     confirm_booking a confirmation_ n
     = (mk_outcome (Answered Cancelled) a [], n)).
Proof.
  split; [|split].
  - unfold confirm_booking.
    destruct (confirm_block a confirmation_ n) as [[[[x|reply] a'] sent] n'];
      simpl; discriminate.
  - intros d F Ha. unfold confirm_booking, confirm_block.
    rewrite (get_session_found _ _ _ F), Ha. simpl. destruct a. reflexivity.
  - intros d F Ha Hn. unfold confirm_booking, confirm_block.
    rewrite (get_session_found _ _ _ F), Ha, Hn. simpl. destruct a. reflexivity.
Qed.

(** X26.  A confirmed booking is answered with the result of
    [execute_booking], success or error alike; the bodies sent are those
    of that call, and the message of the result is appended to the
    history of the session as an assistant item, with the time of the
    clock. *)
Theorem confirm_booking_records_the_result a confirmation_ n d :
  find_session (sessions_ a) (bc_session_id confirmation_) = Some d ->
  authenticated d = true ->
  bc_confirmed confirmation_ = true ->
  let booking :=
    execute_booking (bc_confirmation_data confirmation_)
                    (bc_session_id confirmation_) in
  exists a' d',
    confirm_booking a confirmation_ n
    = (mk_outcome (Answered (Booked (fst booking))) a' (snd booking), S n) /\
    agent_contexts a' = agent_contexts a /\
    find_session (sessions_ a') (bc_session_id confirmation_) = Some d' /\
    conversation_history d'
    = conversation_history d
      ++ [mk_item (Some "assistant") (Some (b_message (fst booking)))
                  (Some (isoformat (mk_dt (reading n) (Some (mk_tz "UTC" 0)))))].
Proof.
  intros F Ha Hc. cbv zeta. unfold confirm_booking, confirm_block.
  rewrite (get_session_found _ _ _ F), Ha, Hc.
  change (negb true) with false; change (negb false) with true; cbv iota.
  destruct (execute_booking _ _) as [result_ sent]. simpl fst. simpl snd.
  do 2 eexists. split; [reflexivity|]. split; [reflexivity|].
  cbn [sessions_]. split; [apply find_put_same|]. reflexivity.
Qed.

(** X27.  Clearing a session does not clear what the agent remembers of
    it.  [clear_session] removes the entry of the session from the store
    and leaves the other sessions alone, and the contexts the agent
    keeps are all as they were, the one of the cleared session
    included. *)
Theorem clear_session_keeps_agent_context a id :
  find_session (sessions_ (clear_session a id)) id = None /\
  (forall other, other <> id ->
     find_session (sessions_ (clear_session a id)) other
     = find_session (sessions_ a) other) /\
  agent_contexts (clear_session a id) = agent_contexts a.
Proof.
  unfold clear_session. simpl. split; [apply find_remove_same|].
  split; [|reflexivity]. intros other Hne. apply find_remove_other, Hne.
Qed.

End Endpoints.

(** Witness of X23: the session "s" was created before the service was
    connected; the service is connected now. *)
Lemma chat_endpoint_requires_session_flag_witness :
  @is_authenticated (calendar_with []) = true /\
  @chat_endpoint utc_only (clock_at monday_9am) dateutil_default
    (calendar_with []) llm_down no_formatting python_iso
    locked_out hello 0%nat
  = (Returns (please_connect "s", locked_out), 0%nat).
Proof.
  split; [reflexivity|].
  apply (@chat_endpoint_requires_session_flag utc_only (clock_at monday_9am)
           dateutil_default (calendar_with []) llm_down no_formatting
           python_iso locked_out hello 0%nat (fresh_session false));
    reflexivity.
Defined.

(** Witness of X24: "hello" in a connected session with an empty
    history. *)
Lemma chat_endpoint_stores_the_turn_witness :
  exists reply response a' n' d',
    @chat_endpoint utc_only (clock_at monday_9am) dateutil_default
      (calendar_with []) llm_down no_formatting python_iso
      connected hello 0%nat = (Returns (response, a'), n') /\
    cr_response response = reply /\
    find_session (sessions_ a') "s" = Some d' /\
    conversation_history d'
    = [mk_item (Some "user") (Some "hello") None;
       mk_item (Some "assistant") (Some reply) None] /\
    Forall no_timestamp (conversation_history d') /\
    session_context (agent_contexts a') "s" = Some (stored_context d').
Proof.
  apply (@chat_endpoint_stores_the_turn utc_only (clock_at monday_9am)
           dateutil_default (calendar_with []) llm_down no_formatting
           python_iso connected hello 0%nat (fresh_session true));
    reflexivity.
Defined.

(** Witness of X25: a confirmation from the session that is locked out. *)
Lemma confirm_booking_never_answers_401_witness :
  @confirm_booking utc_only (clock_at monday_9am) (calendar_with [])
    no_formatting events_accepted python_iso locked_out confirm_lunch 0%nat
  = (mk_outcome (HTTPException 500) locked_out [], 0%nat).
Proof.
  destruct (@confirm_booking_never_answers_401 utc_only (clock_at monday_9am)
              (calendar_with []) no_formatting events_accepted python_iso
              locked_out confirm_lunch 0%nat) as (_ & H & _).
  apply (H (fresh_session false)); reflexivity.
Defined.

(** Witness of X26: the lunch slot is confirmed on an empty calendar. *)
Lemma confirm_booking_records_the_result_witness :
  exists a' d',
    @confirm_booking utc_only (clock_at monday_9am) (calendar_with [])
      no_formatting events_accepted python_iso connected confirm_lunch 0%nat
    = (mk_outcome
         (Answered (Booked (fst (@execute_booking utc_only (calendar_with [])
                                   no_formatting events_accepted python_iso
                                   (bc_confirmation_data confirm_lunch) "s"))))
         a' [@meeting_for python_iso lunch_slot], 1%nat) /\
    find_session (sessions_ a') "s" = Some d' /\
    List.length (conversation_history d') = 1%nat.
Proof.
  destruct (@confirm_booking_records_the_result utc_only (clock_at monday_9am)
              (calendar_with []) no_formatting events_accepted python_iso
              connected confirm_lunch 0%nat (fresh_session true))
    as (a' & d' & H1 & _ & H3 & H4); try reflexivity.
  exists a', d'. split; [exact H1|]. split; [exact H3|].
  rewrite H4. reflexivity.
Defined.

End EndpointProperties.
